(** * borderless-ui-mcp: the registry/component/example search service

    A shallow embedding of [services/registryService.ts] (class
    [RegistryService]), of the HTTP handlers [GET /api/components] and
    [POST /api/components], and of the tool handler
    [get_item_examples_from_registries], together with the properties of the
    search-and-formatting engine.

    Conventions of the embedding:
    - a JavaScript [string] is a [string]; a [number] that the code uses as
      an id, a count, a limit or an offset is an integer of [Z] (the
      fractional values and [NaN] of a JavaScript number are not modelled);
    - an optional value ([T | undefined], a nullable column, a relation that
      may not be loaded) is an [option];
    - the relational store reached through TypeORM is a record of three
      tables and an oracle that says which queries fail and with which
      message; [async] code runs in a state-and-exception monad that
      threads the store and the log of the queries issued so far;
    - a JavaScript [Map<number, T>] is a [gmap Z T]. *)

From Stdlib Require Import ZArith List String Ascii Bool Lia Permutation Sorted.
From stdpp Require Import base gmap strings list.
Import ListNotations.

Local Open Scope string_scope.
Local Open Scope list_scope.
Local Open Scope Z_scope.

(** ** Strings *)

Module Str.

(** [name.replace(/^@/, '')]: the regular expression is anchored at the
    start and has no [g] flag, so one leading [@] is removed. *)
Definition replaceLeadingAt (name : string) : string :=
  match name with
  | String c rest => if Ascii.eqb c "@" then rest else name
  | EmptyString => name
  end.

(** JavaScript truthiness of a string: the empty string is falsy. *)
Definition truthy (s : string) : bool :=
  match s with
  | EmptyString => false
  | String _ _ => true
  end.

(** Truthiness of [s | undefined]. *)
Definition truthyOpt (s : option string) : bool :=
  match s with
  | Some s => truthy s
  | None => false
  end.

(** [s || undefined] on an optional string. *)
Definition orUndefined (s : option string) : option string :=
  match s with
  | Some s => if truthy s then Some s else None
  | None => None
  end.

(** The case folding of [ILIKE], on ASCII letters: a string is a list of
    bytes here, and the bytes of other characters are left as they are,
    whereas the database folds the letters of its locale.  The two agree
    on ASCII text. *)
Definition lowerChar (c : ascii) : ascii :=
  let n := nat_of_ascii c in
  if (Nat.leb 65 n && Nat.leb n 90)%bool then ascii_of_nat (n + 32) else c.

Fixpoint lower (s : string) : string :=
  match s with
  | EmptyString => EmptyString
  | String c s' => String (lowerChar c) (lower s')
  end.

(** The three characters that a [LIKE] pattern does not take literally. *)
Definition isMeta (c : ascii) : bool :=
  (Ascii.eqb c "%" || Ascii.eqb c "_" || Ascii.eqb c "\")%bool.

Fixpoint literal (s : string) : bool :=
  match s with
  | EmptyString => true
  | String c s' => (negb (isMeta c) && literal s')%bool
  end.

(** PostgreSQL's [LIKE]: [%] matches any run of characters, [_] one
    character, a backslash takes the next pattern character literally.
    A pattern that ends in a lone backslash is an error in PostgreSQL; it
    matches nothing here, and no pattern of the form [%q%] ends so. *)
Fixpoint like (p s : string) {struct p} : bool :=
  match p with
  | EmptyString =>
      match s with EmptyString => true | String _ _ => false end
  | String c p' =>
      if Ascii.eqb c "%" then
        (fix anywhere (s : string) : bool :=
           (like p' s ||
            match s with
            | EmptyString => false
            | String _ s' => anywhere s'
            end)%bool) s
      else if Ascii.eqb c "_" then
        match s with
        | EmptyString => false
        | String _ s' => like p' s'
        end
      else if Ascii.eqb c "\" then
        match p' with
        | EmptyString => false
        | String e p'' =>
            match s with
            | EmptyString => false
            | String d s' => (Ascii.eqb e d && like p'' s')%bool
            end
        end
      else
        match s with
        | EmptyString => false
        | String d s' => (Ascii.eqb c d && like p' s')%bool
        end
  end.

(** [s ILIKE p]: [LIKE] after case folding of both sides. *)
Definition ilike (s p : string) : bool := like (lower p) (lower s).

(** [x ILIKE p] on a nullable column: [NULL ILIKE p] is [NULL], which
    does not satisfy a [WHERE] clause. *)
Definition ilikeOpt (s : option string) (p : string) : bool :=
  match s with
  | Some s => ilike s p
  | None => false
  end.

(** The one-character string that holds a double quote. *)
Definition quote : string := String (ascii_of_nat 34) EmptyString.

(** The template literal [`%${query}%`]. *)
Definition wrapPercent (query : string) : string := "%" +:+ query +:+ "%".

(** [s.includes(q)]: [q] occurs in [s] as a substring. *)
Fixpoint includes (q s : string) : bool :=
  (String.prefix q s ||
   match s with
   | EmptyString => false
   | String _ s' => includes q s'
   end)%bool.

(** [q] occurs in [s] when the case of ASCII letters is ignored. *)
Definition includesIgnoringCase (q s : string) : bool :=
  includes (lower q) (lower s).

End Str.

(** ** Entities ([src/entities]) *)

(** [Record<string, any>]: an open map, carried through unchanged. *)
Definition Metadata : Type := gmap string string.

(** [enum ComponentType] and [enum ComponentStatus].  TypeScript erases the
    enum types: the columns are [text], and at run time [type] and [status]
    hold whatever string was stored. *)
Module ComponentType.
Definition INPUTCONTROL : string := "input-control".
Definition CONTAINER : string := "container".
Definition NAVIGATIONAL : string := "navigational".
Definition INFORMATIONAL : string := "informational".
Definition BUSINESS : string := "biz".
Definition values : list string :=
  [INPUTCONTROL; CONTAINER; NAVIGATIONAL; INFORMATIONAL; BUSINESS].
End ComponentType.

Module ComponentStatus.
Definition STABLE : string := "stable".
Definition BETA : string := "beta".
Definition ALPHA : string := "alpha".
Definition DEPRECATED : string := "deprecated".
Definition values : list string := [STABLE; BETA; ALPHA; DEPRECATED].
End ComponentStatus.

Module UIComponentExample.
(** The [component] relation of the entity is only read by a log
    statement and is left out. *)
Record t := {
  id : Z;
  componentId : Z;
  name : string;
  slug : string;
  description : option string;
  language : option string;
  code : string;
  metadata : Metadata;
  createdAt : Z;
  updatedAt : Z
}.
End UIComponentExample.

Module UIRegistry.
(** The columns of [ui_registry]; the [components] relation is the
    second field of [RegistryEntity] below. *)
Record t := {
  id : Z;
  name : string;
  slug : string;
  description : option string;
  framework : string;
  npmPackage : option string;
  installCommand : option string;
  docsUrl : option string;
  isActive : bool;
  metadata : Metadata;
  createdAt : Z;
  updatedAt : Z
}.
End UIRegistry.

Module UIComponent.
(** The columns of [ui_component] and the two relations; a relation that
    the query did not join, or that the join found no row for, is
    [None]. *)
Record t := {
  id : Z;
  registryId : Z;
  name : string;
  slug : string;
  type : string;
  description : option string;
  dependencies : list string;
  status : string;
  metadata : Metadata;
  createdAt : Z;
  updatedAt : Z;
  registry : option UIRegistry.t;
  examples : option (list UIComponentExample.t)
}.

Definition withRegistry (r : option UIRegistry.t) (c : t) : t :=
  {| id := id c; registryId := registryId c; name := name c; slug := slug c;
     type := type c; description := description c;
     dependencies := dependencies c; status := status c;
     metadata := metadata c; createdAt := createdAt c;
     updatedAt := updatedAt c; registry := r; examples := examples c |}.

Definition withExamples (e : option (list UIComponentExample.t)) (c : t) : t :=
  {| id := id c; registryId := registryId c; name := name c; slug := slug c;
     type := type c; description := description c;
     dependencies := dependencies c; status := status c;
     metadata := metadata c; createdAt := createdAt c;
     updatedAt := updatedAt c; registry := registry c; examples := e |}.

Definition withId (i : Z) (c : t) : t :=
  {| id := i; registryId := registryId c; name := name c; slug := slug c;
     type := type c; description := description c;
     dependencies := dependencies c; status := status c;
     metadata := metadata c; createdAt := createdAt c;
     updatedAt := updatedAt c; registry := registry c;
     examples := examples c |}.
End UIComponent.

(** A registry entity together with its [components] relation. *)
Record RegistryEntity := {
  registryRow : UIRegistry.t;
  components : option (list UIComponent.t)
}.

(** ** Output shapes ([mcp/utils], whose interfaces the service fills) *)

(** In [ComponentExample] the [componentId] is optional. *)
Record ComponentExample := {
  ex_id : Z;
  ex_componentId : option Z;
  ex_name : string;
  ex_description : option string;
  ex_language : string;
  ex_code : string;
  ex_isPrimary : bool;
  ex_createdAt : Z;
  ex_updatedAt : Z
}.

Record ComponentItem := {
  ci_id : Z;
  ci_registryId : Z;
  registrySlug : string;
  registryName : string;
  ci_slug : string;
  ci_name : string;
  ci_type : string;
  ci_description : option string;
  ci_dependencies : list string;
  ci_status : string;
  ci_metadata : Metadata;
  exampleCount : Z;
  addCommandArgument : string;
  ci_createdAt : Z;
  ci_updatedAt : Z;
  ci_examples : list ComponentExample
}.

Record RegistryItem := {
  ri_id : Z;
  ri_slug : string;
  ri_name : string;
  ri_description : option string;
  ri_framework : string;
  ri_npmPackage : option string;
  ri_installCommand : option string;
  ri_docsUrl : option string;
  isOfficial : bool;
  componentCount : Z;
  ri_createdAt : Z;
  ri_updatedAt : Z;
  ri_components : option (list ComponentItem)
}.

(** [interface SearchResult<T>]. *)
Module SearchResult.
Record t (T : Type) := {
  items : list T;
  totalCount : Z;
  hasMore : bool;
  limit : Z;
  offset : Z
}.
Arguments items {T}.
Arguments totalCount {T}.
Arguments hasMore {T}.
Arguments limit {T}.
Arguments offset {T}.
End SearchResult.

(** ** The store and the monad of [async] code *)

Inductive Table := ui_registry | ui_component | ui_component_example.

Inductive Operation :=
| GetMany   (* the query builder's [getMany] *)
| GetCount  (* the query builder's [getCount] *)
| Find      (* the repository's [find] *)
| FindOne   (* the repository's [findOne] *)
| Save.     (* the repository's [save] *)

Definition Query : Type := Table * Operation.

#[global] Instance Table_eq_dec : EqDecision Table.
Proof. solve_decision. Defined.
#[global] Instance Operation_eq_dec : EqDecision Operation.
Proof. solve_decision. Defined.

(** The three tables; for each query, whether the store answers it or
    fails (lost connection, violated constraint) and with which message;
    for each component id, whether a join fills in the registry relation of
    that component (the service provides for a fetch that leaves the
    relation out); and the time that the store stamps on a row it saves. *)
Record Store := {
  registryRows : list UIRegistry.t;
  componentRows : list UIComponent.t;
  exampleRows : list UIComponentExample.t;
  failure : Query -> option string;
  hydrates : Z -> bool;
  now : Z
}.

(** The store and the queries issued so far, oldest first. *)
Record World := {
  store : Store;
  issued : list Query
}.

Inductive Outcome (A : Type) :=
| Return (a : A)
| Throw (message : string).
Arguments Return {A}.
Arguments Throw {A}.

Definition Async (A : Type) : Type := World -> Outcome A * World.

#[global] Instance Async_ret : MRet Async :=
  fun A a w => (Return a, w).

#[global] Instance Async_bind : MBind Async :=
  fun A B k m w =>
    match m w with
    | (Return a, w') => k a w'
    | (Throw msg, w') => (Throw msg, w')
    end.

(** [throw new Error(message)]. *)
Definition throw {A} (message : string) : Async A :=
  fun w => (Throw message, w).

(** [try { body } catch (error) { handler((error as Error).message) }]. *)
Definition tryCatch {A} (body : Async A) (handler : string -> Async A) : Async A :=
  fun w =>
    match body w with
    | (Return a, w') => (Return a, w')
    | (Throw msg, w') => handler msg w'
    end.

(** The world after one more query. *)
Definition issue (q : Query) (w : World) : World :=
  {| store := store w; issued := issued w ++ [q] |}.

(** [await] of a read query: it is logged, then fails or is answered from
    the tables. *)
Definition await {A} (q : Query) (answer : Store -> A) : Async A :=
  fun w =>
    match failure (store w) q with
    | Some msg => (Throw msg, issue q w)
    | None => (Return (answer (store w)), issue q w)
    end.

(** The store answers every query. *)
Definition healthy (s : Store) : Prop := forall q, failure s q = None.

(** A computation that reads the store and stops at the first query that
    fails: it leaves the store as it is; when it returns, every query it
    issued was answered; when it throws, the last query it issued failed,
    the ones before were answered, and [thrown q msg message] relates the
    failed query and the message of the store to the message thrown. *)
Definition answered (s : Store) (q : Query) : Prop := failure s q = None.

Definition failsWith {A} (thrown : Query -> string -> string -> Prop)
  (m : Async A) : Prop :=
  forall w o w',
    m w = (o, w') ->
    store w' = store w
    /\ exists qs,
         issued w' = issued w ++ qs
         /\ match o with
            | Return _ => Forall (answered (store w)) qs
            | Throw message =>
                exists qs' q msg,
                  qs = qs' ++ [q]
                  /\ Forall (answered (store w)) qs'
                  /\ failure (store w) q = Some msg
                  /\ thrown q msg message
            end.

(** The message of the store, as it is. *)
Definition unchanged : Query -> string -> string -> Prop :=
  fun _ msg message => message = msg.

(** The message of the store behind a prefix. *)
Definition prefixed (prefix : string) : Query -> string -> string -> Prop :=
  fun _ msg message => message = prefix +:+ msg.

(** What reaches the [catch] of [GET /api/components]: the message of the
    store as it is when the lookup of the registry by id failed, the
    message that [searchComponents] threw otherwise. *)
Definition caughtByListing : Query -> string -> string -> Prop :=
  fun q msg message =>
    (q = (ui_registry, FindOne) /\ message = msg)
    \/ message = "Component search failed: " +:+ msg.

(** A fresh world: the given store, nothing issued yet. *)
Definition start (s : Store) : World := {| store := s; issued := [] |}.

(** ** What the store computes *)

Module Sql.

(** [ORDER BY key ASC]: a stable insertion sort on the byte order of the
    key, which is the order of the [C] collation.  Under another collation
    of the database the rows with different keys come in another order,
    and rows with equal keys come in an order that the database does not
    fix.  What is stated below of a window or of a listing holds in every
    such order unless it names [sortBy]. *)
Fixpoint insertBy {A} (key : A -> string) (x : A) (l : list A) : list A :=
  match l with
  | [] => [x]
  | y :: l' =>
      if String.leb (key x) (key y) then x :: l else y :: insertBy key x l'
  end.

Definition sortBy {A} (key : A -> string) (l : list A) : list A :=
  foldr (insertBy key) [] l.

(** [x IN (:...values)]. *)
Definition IN `{EqDecision A} (x : A) (values : list A) : bool :=
  bool_decide (x ∈ values).

(** A condition string as SQL reads it: the alternatives of its top-level
    [OR]s, each a test on a row.  A condition without a top-level [OR],
    or one written inside parentheses, has one alternative. *)
Definition Condition (R : Type) : Type := list (R -> bool).

Definition holds {R} (c : Condition R) (row : R) : bool :=
  existsb (fun alternative => alternative row) c.

(** The text [e AND c].  TypeORM joins the condition strings with [AND]
    and adds no parentheses, and [AND] binds tighter than [OR]: the last
    alternative of [e] and the first of [c] become one alternative. *)
Fixpoint andText {R} (e c : Condition R) : Condition R :=
  match e with
  | [] => c
  | [x] =>
      match c with
      | [] => [x]
      | y :: c' => (fun row => x row && y row) :: c'
      end
  | x :: e' => x :: andText e' c
  end.

(** The state of a [SelectQueryBuilder] over rows of type [R]. *)
Record SelectQueryBuilder (R : Type) := {
  wheres : list (Condition R);
  ordering : option (R -> string);
  taken : option Z;
  skipped : option Z
}.
Arguments wheres {R}.
Arguments ordering {R}.
Arguments taken {R}.
Arguments skipped {R}.

Definition createQueryBuilder {R} : SelectQueryBuilder R :=
  {| wheres := []; ordering := None; taken := None; skipped := None |}.

(** [.where(c)] on a fresh builder and [.andWhere(c)]. *)
Definition andWhere {R} (c : Condition R) (qb : SelectQueryBuilder R)
  : SelectQueryBuilder R :=
  {| wheres := (wheres qb ++ [c])%list; ordering := ordering qb;
     taken := taken qb; skipped := skipped qb |}.

Definition orderBy {R} (key : R -> string) (qb : SelectQueryBuilder R)
  : SelectQueryBuilder R :=
  {| wheres := wheres qb; ordering := Some key;
     taken := taken qb; skipped := skipped qb |}.

Definition take {R} (n : Z) (qb : SelectQueryBuilder R) : SelectQueryBuilder R :=
  {| wheres := wheres qb; ordering := ordering qb;
     taken := Some n; skipped := skipped qb |}.

Definition skip {R} (n : Z) (qb : SelectQueryBuilder R) : SelectQueryBuilder R :=
  {| wheres := wheres qb; ordering := ordering qb;
     taken := taken qb; skipped := Some n |}.

(** The [WHERE] clause of the builder; no condition, no clause. *)
Definition selects {R} (qb : SelectQueryBuilder R) (row : R) : bool :=
  match wheres qb with
  | [] => true
  | c :: cs => holds (foldl andText c cs) row
  end.

Definition sorted {R} (qb : SelectQueryBuilder R) (l : list R) : list R :=
  match ordering qb with
  | Some key => sortBy key l
  | None => l
  end.

(** The page window.  TypeORM writes [LIMIT] and [OFFSET] for a [take]
    and a [skip] that are truthy only: [take(0)] sets no limit and
    [skip(0)] no offset.  PostgreSQL refuses a negative [LIMIT] or
    [OFFSET]; the refusal is a failure of the query, for which the oracle
    of the store stands, and a count below zero reads as zero here. *)
Definition window {A} (taken skipped : option Z) (l : list A) : list A :=
  let l := match skipped with
           | Some n => drop (Z.to_nat n) l
           | None => l
           end in
  match taken with
  | Some n => if n =? 0 then l else list.take (Z.to_nat n) l
  | None => l
  end.

Definition page {R} (qb : SelectQueryBuilder R) (l : list R) : list R :=
  window (taken qb) (skipped qb) l.

(** [getMany] and [getCount] over the rows of the selected table. *)
Definition getMany {R} (qb : SelectQueryBuilder R) (rows : list R) : list R :=
  page qb (sorted qb (filter (fun row => selects qb row) rows)).

Definition getCount {R} (qb : SelectQueryBuilder R) (rows : list R) : Z :=
  Z.of_nat (length (filter (fun row => selects qb row) rows)).

(** *** [take] and [skip] on a query that joins a one-to-many relation

    On a query builder with joins TypeORM does not put [LIMIT] and [OFFSET]
    on the query.  When [take] or [skip] is truthy it first asks for the
    ids of the page,
      [SELECT DISTINCT id, <ORDER BY columns> FROM (<query>)
       ORDER BY <ORDER BY columns>, id LIMIT <take> OFFSET <skip>],
    and then runs the query for the entities that have these ids.  With
    [ORDER BY ui_component.name, examples.name] a row of the first query is
    a component with the name of one of its examples: the window counts
    such rows, not components. *)

(** A row of the first query: the id, the ordering column of the entity,
    and the ordering column of one related row ([NULL] for an entity
    without related rows). *)
Definition PageRow : Type := Z * string * option string.

Definition pageRowsOf {R} (ident : R -> Z) (key : R -> string)
  (related : R -> list string) (row : R) : list PageRow :=
  match related row with
  | [] => [(ident row, key row, None)]
  | names => map (fun name => (ident row, key row, Some name)) names
  end.

(** [ORDER BY key ASC, related ASC, id ASC]; [NULL] sorts last. *)
Definition pageRowLeb (a b : PageRow) : bool :=
  let '(ida, keya, relateda) := a in
  let '(idb, keyb, relatedb) := b in
  if String.eqb keya keyb then
    match relateda, relatedb with
    | Some x, Some y => if String.eqb x y then ida <=? idb else String.leb x y
    | Some _, None => true
    | None, Some _ => false
    | None, None => ida <=? idb
    end
  else String.leb keya keyb.

Fixpoint insertWith {A} (leb : A -> A -> bool) (x : A) (l : list A) : list A :=
  match l with
  | [] => [x]
  | y :: l' => if leb x y then x :: l else y :: insertWith leb x l'
  end.

Definition sortWith {A} (leb : A -> A -> bool) (l : list A) : list A :=
  foldr (insertWith leb) [] l.

(** [take] or [skip] is truthy. *)
Definition truthyCount (n : option Z) : bool :=
  match n with
  | Some n => negb (n =? 0)
  | None => false
  end.

(** The ids of the page. *)
Definition pageIds {R} (ident : R -> Z) (related : R -> list string)
  (qb : SelectQueryBuilder R) (selected : list R) : list Z :=
  let key := default (fun _ : R => EmptyString) (ordering qb) in
  map (fun row : PageRow => row.1.1)
      (window (taken qb) (skipped qb)
         (sortWith pageRowLeb
            (remove_dups (flat_map (pageRowsOf ident key related) selected)))).

(** [getMany] of a builder that joins the relation whose ordering column
    [related] gives.  The entities come in the order of the query (among
    entities with the same key, the order of the table here). *)
Definition getManyJoined {R} (ident : R -> Z) (related : R -> list string)
  (qb : SelectQueryBuilder R) (rows : list R) : list R :=
  let selected := sorted qb (filter (fun row => selects qb row) rows) in
  if truthyCount (taken qb) || truthyCount (skipped qb) then
    let ids := pageIds ident related qb selected in
    filter (fun row => IN (ident row) ids) selected
  else selected.

(** The examples of a component, [ORDER BY examples.name ASC]. *)
Definition examplesOf (s : Store) (componentId : Z) : list UIComponentExample.t :=
  sortBy UIComponentExample.name
    (filter (fun e => UIComponentExample.componentId e = componentId)
            (exampleRows s)).

(** The registry row that a component's [registry_id] points to. *)
Definition registryOf (s : Store) (registryId : Z) : option UIRegistry.t :=
  head (filter (fun r => UIRegistry.id r = registryId) (registryRows s)).

(** A component row as selected without a join. *)
Definition bare (c : UIComponent.t) : UIComponent.t :=
  UIComponent.withExamples None (UIComponent.withRegistry None c).

(** [leftJoinAndSelect('….examples', 'examples')]. *)
Definition joinExamples (s : Store) (c : UIComponent.t) : UIComponent.t :=
  UIComponent.withExamples (Some (examplesOf s (UIComponent.id c))) c.

(** [leftJoinAndSelect('….registry', 'registry')]. *)
Definition joinRegistry (s : Store) (c : UIComponent.t) : UIComponent.t :=
  UIComponent.withRegistry
    (if hydrates s (UIComponent.id c)
     then registryOf s (UIComponent.registryId c)
     else None) c.

(** Both joins of the query builder of [searchComponents], which orders
    by [examples.name]. *)
Definition joinBoth (s : Store) (c : UIComponent.t) : UIComponent.t :=
  joinExamples s (joinRegistry s (bare c)).

(** The names of the examples joined to a component. *)
Definition exampleNames (c : UIComponent.t) : list string :=
  map UIComponentExample.name (default [] (UIComponent.examples c)).

(** [relations: ['registry', 'examples']] of [find] and [findOne]: these
    have no [ORDER BY], and the examples come as the table holds them. *)
Definition withRelations (s : Store) (c : UIComponent.t) : UIComponent.t :=
  UIComponent.withExamples
    (Some (filter (fun e => UIComponentExample.componentId e = UIComponent.id c)
                  (exampleRows s)))
    (joinRegistry s (bare c)).

End Sql.

(** ** [class RegistryService] *)

Module RegistryService.
Import Str Sql.

(** [registries.map(name => name.replace(/^@/, ''))]. *)
Definition cleanNamesOf (registryNames : list string) : list string :=
  map replaceLeadingAt registryNames.

(** [registry.name IN (:...cleanNames) OR registry.slug IN (:...cleanNames)]. *)
Definition nameOrSlugIn (cleanNames : list string) (r : UIRegistry.t) : bool :=
  IN (UIRegistry.name r) cleanNames || IN (UIRegistry.slug r) cleanNames.

(** [formatExample]. *)
Definition formatExample (example : UIComponentExample.t) : ComponentExample :=
  {| ex_id := UIComponentExample.id example;
     ex_componentId := Some (UIComponentExample.componentId example);
     ex_name := UIComponentExample.name example;
     ex_description := orUndefined (UIComponentExample.description example);
     ex_language :=
       match orUndefined (UIComponentExample.language example) with
       | Some l => l
       | None => "typescript"
       end;
     ex_code := UIComponentExample.code example;
     ex_isPrimary := false;
     ex_createdAt := UIComponentExample.createdAt example;
     ex_updatedAt := UIComponentExample.updatedAt example |}.

(** [component.registry?.slug || ''] and [component.registry?.name || '']. *)
Definition slugOrEmpty (r : option UIRegistry.t) : string :=
  match r with Some r => UIRegistry.slug r | None => EmptyString end.
Definition nameOrEmpty (r : option UIRegistry.t) : string :=
  match r with Some r => UIRegistry.name r | None => EmptyString end.

(** [formatComponent]; the warning it logs when the relation is missing
    has no effect on the result. *)
Definition formatComponent (component : UIComponent.t) : ComponentItem :=
  let registrySlug := slugOrEmpty (UIComponent.registry component) in
  let registryName := nameOrEmpty (UIComponent.registry component) in
  {| ci_id := UIComponent.id component;
     ci_registryId := UIComponent.registryId component;
     registrySlug := registrySlug;
     registryName := registryName;
     ci_slug := UIComponent.slug component;
     ci_name := UIComponent.name component;
     ci_type := UIComponent.type component;
     ci_description := orUndefined (UIComponent.description component);
     ci_dependencies := UIComponent.dependencies component;
     ci_status := UIComponent.status component;
     ci_metadata := UIComponent.metadata component;
     exampleCount :=
       match UIComponent.examples component with
       | Some l => Z.of_nat (length l)
       | None => 0
       end;
     addCommandArgument :=
       if truthy registrySlug
       then "@" +:+ registrySlug +:+ "/" +:+ UIComponent.slug component
       else UIComponent.slug component;
     ci_createdAt := UIComponent.createdAt component;
     ci_updatedAt := UIComponent.updatedAt component;
     ci_examples :=
       match UIComponent.examples component with
       | Some l => map formatExample l
       | None => []
       end |}.

(** [formatRegistry]. *)
Definition formatRegistry (registry : RegistryEntity) (includeComponents : bool)
  : RegistryItem :=
  let row := registryRow registry in
  {| ri_id := UIRegistry.id row;
     ri_slug := UIRegistry.slug row;
     ri_name := UIRegistry.name row;
     ri_description := orUndefined (UIRegistry.description row);
     ri_framework := UIRegistry.framework row;
     ri_npmPackage := orUndefined (UIRegistry.npmPackage row);
     ri_installCommand := orUndefined (UIRegistry.installCommand row);
     ri_docsUrl := orUndefined (UIRegistry.docsUrl row);
     isOfficial := false;
     componentCount :=
       match components registry with
       | Some l => Z.of_nat (length l)
       | None => 0
       end;
     ri_createdAt := UIRegistry.createdAt row;
     ri_updatedAt := UIRegistry.updatedAt row;
     ri_components :=
       if includeComponents
       then option_map (map formatComponent) (components registry)
       else None |}.

(** A registry as the query builder on [ui_registry] returns it: the
    [components] relation is not selected. *)
Definition plain (r : UIRegistry.t) : RegistryEntity :=
  {| registryRow := r; components := None |}.

(** [registries && registries.length > 0]. *)
Definition suppliedNames (registries : option (list string))
  : option (list string) :=
  match registries with
  | Some (name :: names) => Some (name :: names)
  | _ => None
  end.

(** [ids && ids.length > 0]. *)
Definition suppliedIds (ids : option (list Z)) : option (list Z) :=
  match ids with
  | Some (i :: l) => Some (i :: l)
  | _ => None
  end.

(** [if (query)]. *)
Definition suppliedQuery (query : option string) : option string :=
  orUndefined query.

(** *** [searchAllRegistries] *)

Definition allRegistriesQuery (registries : option (list string))
  : SelectQueryBuilder UIRegistry.t :=
  let registryQueryBuilder := createQueryBuilder in
  let registryQueryBuilder :=
    match suppliedNames registries with
    | Some registries =>
        let cleanNames := cleanNamesOf registries in
        andWhere [fun r => UIRegistry.isActive r]
          (andWhere [fun r => IN (UIRegistry.name r) cleanNames;
                     fun r => IN (UIRegistry.slug r) cleanNames]
             registryQueryBuilder)
    | None => registryQueryBuilder
    end in
  orderBy UIRegistry.name registryQueryBuilder.

Definition searchAllRegistries (registries : option (list string))
  : Async (SearchResult.t RegistryItem) :=
  tryCatch
    (availableRegistries ←
       await (ui_registry, GetMany)
         (fun s => getMany (allRegistriesQuery registries) (registryRows s));
     mret {| SearchResult.items :=
               map (fun registry => formatRegistry (plain registry) true)
                   availableRegistries;
             SearchResult.totalCount := Z.of_nat (length availableRegistries);
             SearchResult.hasMore := false;
             SearchResult.limit := Z.of_nat (length availableRegistries);
             SearchResult.offset := 0 |})
    (fun message => throw ("Registry search failed: " +:+ message)).

(** *** [searchRegistries] *)

Definition registriesWhere (registryNames : option (list string))
  (qb : SelectQueryBuilder UIRegistry.t) : SelectQueryBuilder UIRegistry.t :=
  match suppliedNames registryNames with
  | Some registryNames =>
      let cleanNames := cleanNamesOf registryNames in
      andWhere [nameOrSlugIn cleanNames] qb
  | None => qb
  end.

(** Step 4: the [Map] from registry id to the components pushed so far. *)
Definition groupByRegistryId (componentsWithExamples : list UIComponent.t)
  : gmap Z (list UIComponent.t) :=
  foldl (fun m component =>
           let k := UIComponent.registryId component in
           <[k := (default [] (m !! k) ++ [component])%list]> m)
        ∅ componentsWithExamples.

Definition searchRegistries (registryNames : option (list string))
  (limit offset : option Z) : Async (SearchResult.t RegistryItem) :=
  let limit := default 50 limit in
  let offset := default 0 offset in
  tryCatch
    (let registryQueryBuilder :=
       skip offset (take limit (orderBy UIRegistry.name
         (registriesWhere registryNames createQueryBuilder))) in
     registries ←
       await (ui_registry, GetMany)
         (fun s => getMany registryQueryBuilder (registryRows s));
     if Nat.eqb (length registries) 0 then
       mret {| SearchResult.items := [];
               SearchResult.totalCount := 0;
               SearchResult.hasMore := false;
               SearchResult.limit := limit;
               SearchResult.offset := offset |}
     else
       let registryIds := map UIRegistry.id registries in
       componentsWithExamples ←
         await (ui_component, GetMany)
           (fun s =>
              getMany
                (orderBy UIComponent.name
                   (andWhere [fun c => IN (UIComponent.registryId c) registryIds]
                      createQueryBuilder))
                (map (fun c => joinExamples s (bare c)) (componentRows s)));
       let componentsByRegistryId := groupByRegistryId componentsWithExamples in
       let registries :=
         map (fun registry =>
                {| registryRow := registry;
                   components :=
                     Some (default []
                             (componentsByRegistryId !! UIRegistry.id registry)) |})
             registries in
       let countQuery := registriesWhere registryNames createQueryBuilder in
       totalCount ←
         await (ui_registry, GetCount)
           (fun s => getCount countQuery (registryRows s));
       mret {| SearchResult.items :=
                 map (fun registry => formatRegistry registry true) registries;
               SearchResult.totalCount := totalCount;
               SearchResult.hasMore := offset + limit <? totalCount;
               SearchResult.limit := limit;
               SearchResult.offset := offset |})
    (fun message => throw ("Registry search failed: " +:+ message)).

(** *** [searchComponents] *)

(** The fuzzy condition, written inside parentheses in the source:
    [(name ILIKE :query OR description ILIKE :query OR slug ILIKE :query)]
    with [:query] bound to [`%${query}%`]. *)
Definition fuzzy (query : string) (c : UIComponent.t) : bool :=
  ilike (UIComponent.name c) (wrapPercent query)
  || ilikeOpt (UIComponent.description c) (wrapPercent query)
  || ilike (UIComponent.slug c) (wrapPercent query).

(** The paged query: both relations joined, registry filter, fuzzy
    filter, ordering, [take] and [skip]. *)
Definition pagedQuery (registryIds : option (list Z)) (query : option string)
  (limit offset : Z) : SelectQueryBuilder UIComponent.t :=
  let queryBuilder := createQueryBuilder in
  let queryBuilder :=
    match suppliedIds registryIds with
    | Some registryIds =>
        andWhere [fun c => IN (UIComponent.registryId c) registryIds] queryBuilder
    | None => queryBuilder
    end in
  let queryBuilder :=
    match suppliedQuery query with
    | Some query => andWhere [fuzzy query] queryBuilder
    | None => queryBuilder
    end in
  skip offset (take limit (orderBy UIComponent.name queryBuilder)).

(** The count query, built a second time from the same arguments. *)
Definition countQuery (registryIds : option (list Z)) (query : option string)
  : SelectQueryBuilder UIComponent.t :=
  let countQuery := createQueryBuilder in
  let countQuery :=
    match suppliedIds registryIds with
    | Some registryIds =>
        andWhere [fun c => IN (UIComponent.registryId c) registryIds] countQuery
    | None => countQuery
    end in
  match suppliedQuery query with
  | Some query => andWhere [fuzzy query] countQuery
  | None => countQuery
  end.

(** [!c.registry && c.registryId]. *)
Definition lacksRegistry (c : UIComponent.t) : bool :=
  match UIComponent.registry c with
  | Some _ => false
  | None => negb (UIComponent.registryId c =? 0)
  end.

(** [[...new Set(ids)]]: the first occurrence of each id, in order. *)
Fixpoint unique (ids : list Z) : list Z :=
  match ids with
  | [] => []
  | i :: ids' => i :: filter (fun j => j ≠ i) (unique ids')
  end.

(** [new Map(registries.map(r => [r.id, r]))]: a later entry replaces an
    earlier one with the same key. *)
Definition registryMapOf (registries : list UIRegistry.t) : gmap Z UIRegistry.t :=
  foldl (fun m r => <[UIRegistry.id r := r]> m) ∅ registries.

(** The backfill of the registry relation. *)
Definition attachRegistries (components : list UIComponent.t)
  : Async (list UIComponent.t) :=
  let componentsWithoutRegistry := filter (fun c => lacksRegistry c) components in
  if Nat.ltb 0 (length componentsWithoutRegistry) then
    let registryIds :=
      unique (map UIComponent.registryId componentsWithoutRegistry) in
    registries ←
      await (ui_registry, Find)
        (fun s => filter (fun r => IN (UIRegistry.id r) registryIds)
                         (registryRows s));
    let registryMap := registryMapOf registries in
    mret (map (fun component =>
                 if lacksRegistry component
                 then UIComponent.withRegistry
                        (registryMap !! UIComponent.registryId component) component
                 else component)
              components)
  else mret components.

(** What [searchComponents] does with the components that the paged
    fetch returned: the backfill, the count and the result. *)
Definition afterFetch (registryIds : option (list Z)) (query : option string)
  (limit offset : Z) (components : list UIComponent.t)
  : Async (SearchResult.t ComponentItem) :=
  components ← attachRegistries components;
  totalCount ←
    await (ui_component, GetCount)
      (fun s => getCount (countQuery registryIds query)
                         (map bare (componentRows s)));
  mret {| SearchResult.items := map formatComponent components;
          SearchResult.totalCount := totalCount;
          SearchResult.hasMore := offset + limit <? totalCount;
          SearchResult.limit := limit;
          SearchResult.offset := offset |}.

(** From the paged fetch to the result, once the registry filter is
    resolved.  The paged query joins the registry and the examples. *)
Definition fetchAndCount (registryIds : option (list Z)) (query : option string)
  (limit offset : Z) : Async (SearchResult.t ComponentItem) :=
  components ←
    await (ui_component, GetMany)
      (fun s => getManyJoined UIComponent.id exampleNames
                  (pagedQuery registryIds query limit offset)
                  (map (joinBoth s) (componentRows s)));
  afterFetch registryIds query limit offset components.

Definition searchComponents (registryNames : option (list string))
  (query : option string) (limit offset : option Z)
  : Async (SearchResult.t ComponentItem) :=
  let limit := default 50 limit in
  let offset := default 0 offset in
  tryCatch
    (match suppliedNames registryNames with
     | Some registryNames =>
         let cleanNames := cleanNamesOf registryNames in
         matchingRegistries ←
           await (ui_registry, GetMany)
             (fun s =>
                getMany
                  (andWhere [fun r => IN (UIRegistry.name r) cleanNames;
                             fun r => IN (UIRegistry.slug r) cleanNames]
                     createQueryBuilder)
                  (registryRows s));
         let registryIds := map UIRegistry.id matchingRegistries in
         if Nat.eqb (length registryIds) 0 then
           mret {| SearchResult.items := [];
                   SearchResult.totalCount := 0;
                   SearchResult.hasMore := false;
                   SearchResult.limit := limit;
                   SearchResult.offset := offset |}
         else fetchAndCount (Some registryIds) query limit offset
     | None => fetchAndCount None query limit offset
     end)
    (fun message => throw ("Component search failed: " +:+ message)).

(** *** [searchExamples] *)

(** An example row joined to its component ([leftJoinAndSelect
    ('example.component', 'component')]). *)
Definition ExampleRow : Type := UIComponentExample.t * option UIComponent.t.

Definition joinComponent (s : Store) (e : UIComponentExample.t) : ExampleRow :=
  (e, head (filter (fun c => UIComponent.id c = UIComponentExample.componentId e)
                   (map (joinRegistry s) (componentRows s)))).

(** [component.registry_id IN (:...registryIds)]; without a component
    the column is [NULL] and the row is not selected. *)
Definition componentRegistryIn (registryIds : list Z) (row : ExampleRow) : bool :=
  match row.2 with
  | Some c => IN (UIComponent.registryId c) registryIds
  | None => false
  end.

(** [(example.name ILIKE :query OR example.slug ILIKE :query)]. *)
Definition fuzzyExample (query : string) (row : ExampleRow) : bool :=
  ilike (UIComponentExample.name row.1) (wrapPercent query)
  || ilike (UIComponentExample.slug row.1) (wrapPercent query).

(** The query of the example search.  Its joins are many-to-one, so the
    query has one row per example and the page of ids that TypeORM asks
    for under [take] is the page of the examples. *)
Definition examplesQuery (registryIds : option (list Z)) (query : option string)
  (limit : Z) : SelectQueryBuilder ExampleRow :=
  let queryBuilder := createQueryBuilder in
  let queryBuilder :=
    match suppliedIds registryIds with
    | Some registryIds => andWhere [componentRegistryIn registryIds] queryBuilder
    | None => queryBuilder
    end in
  let queryBuilder :=
    match suppliedQuery query with
    | Some query => andWhere [fuzzyExample query] queryBuilder
    | None => queryBuilder
    end in
  take limit (orderBy (fun row => UIComponentExample.name row.1) queryBuilder).

Definition fetchExamples (registryIds : option (list Z)) (query : option string)
  (limit : Z) : Async (list ComponentExample) :=
  examples ←
    await (ui_component_example, GetMany)
      (fun s => getMany (examplesQuery registryIds query limit)
                        (map (joinComponent s) (exampleRows s)));
  mret (map (fun row => formatExample row.1) examples).

(** [options] is [{ limit?: number }]; [const { limit = 20 } = options]. *)
Definition searchExamples (registrySlugs : option (list string))
  (query : option string) (options : option Z) : Async (list ComponentExample) :=
  let limit := default 20 options in
  tryCatch
    (match suppliedNames registrySlugs with
     | Some registrySlugs =>
         let cleanSlugs := cleanNamesOf registrySlugs in
         matchingRegistries ←
           await (ui_registry, GetMany)
             (fun s =>
                getMany
                  (andWhere [fun r => IN (UIRegistry.name r) cleanSlugs;
                             fun r => IN (UIRegistry.slug r) cleanSlugs]
                     createQueryBuilder)
                  (registryRows s));
         let registryIds := map UIRegistry.id matchingRegistries in
         if Nat.eqb (length registryIds) 0 then mret []
         else fetchExamples (Some registryIds) query limit
     | None => fetchExamples None query limit
     end)
    (fun message => throw ("Example search failed: " +:+ message)).

End RegistryService.

(** ** The HTTP handlers of the component routes *)

Module Http.
Import Str Sql RegistryService.

Inductive Json :=
| ErrorJson (error : string)
| ComponentJson (component : option UIComponent.t)
| ListingJson (items : list ComponentItem)
              (totalCount limit offset : Z) (hasMore : bool).

Record Response := {
  statusCode : Z;
  json : Json
}.

(** A query-string parameter that may be repeated. *)
Inductive QueryValue :=
| One (value : string)
| Many (values : list string).

(** [req.query] of [GET /api/components].  [registryId], [limit] and
    [offset], when supplied, are decimal integers, given here by the value
    that [parseInt] returns for them. *)
Record ListingQuery := {
  q_registryId : option Z;
  q_registrySlug : option QueryValue;
  q_type : option string;
  q_status : option string;
  q_query : option string;
  q_limit : option Z;
  q_offset : option Z
}.

(** The same query with another [limit] and [offset]. *)
Definition withWindow (limit offset : option Z) (q : ListingQuery) : ListingQuery :=
  {| q_registryId := q_registryId q; q_registrySlug := q_registrySlug q;
     q_type := q_type q; q_status := q_status q; q_query := q_query q;
     q_limit := limit; q_offset := offset |}.

(** [if (registrySlug)] and [Array.isArray(registrySlug) ? … : […]]. *)
Definition slugsOf (registrySlug : option QueryValue) : option (list string) :=
  match registrySlug with
  | Some (One value) => if truthy value then Some [value] else None
  | Some (Many values) => Some values
  | None => None
  end.

(** [app.get('/api/components', …)]. *)
Definition getComponents (query : ListingQuery) : Async Response :=
  let limit := default 20 (q_limit query) in
  let offset := default 0 (q_offset query) in
  tryCatch
    (registrySlugs ←
       match slugsOf (q_registrySlug query) with
       | Some slugs => mret (Some slugs)
       | None =>
           match q_registryId query with
           | Some registryId =>
               registry ←
                 await (ui_registry, FindOne) (fun s => registryOf s registryId);
               mret (option_map (fun r => [UIRegistry.slug r]) registry)
           | None => mret None
           end
       end;
     results ← searchComponents registrySlugs (q_query query)
                 (Some limit) (Some offset);
     mret {| statusCode := 200;
             json := ListingJson (SearchResult.items results)
                       (SearchResult.totalCount results)
                       (SearchResult.limit results)
                       (SearchResult.offset results)
                       (SearchResult.hasMore results) |})
    (fun message => mret {| statusCode := 500; json := ErrorJson message |}).

(** [req.body] of [POST /api/components]: a field that is absent is
    [None]; [registryId], when supplied, is a JSON number. *)
Record ComponentBody := {
  b_registryId : option Z;
  b_registrySlug : option string;
  b_name : option string;
  b_slug : option string;
  b_type : option string;
  b_description : option string;
  b_dependencies : option (list string);
  b_status : option string;
  b_introducedVersion : option string;
  b_deprecatedVersion : option string;
  b_metadata : option Metadata
}.

(** [repository.save(entity)] of a new component: the store assigns an
    id and the two timestamps and appends the row.  The database takes
    the id from a sequence; here it is the first id above those of the
    table, and what is used of it is that no row of the table has it. *)
Definition nextId (rows : list UIComponent.t) : Z :=
  1 + foldr Z.max 0 (map UIComponent.id rows).

Definition save (component : UIComponent.t) : Async UIComponent.t :=
  fun w =>
    let s := store w in
    let log := issued w ++ [(ui_component, Save)] in
    match failure s (ui_component, Save) with
    | Some msg => (Throw msg, {| store := s; issued := log |})
    | None =>
        let saved :=
          {| UIComponent.id := nextId (componentRows s);
             UIComponent.registryId := UIComponent.registryId component;
             UIComponent.name := UIComponent.name component;
             UIComponent.slug := UIComponent.slug component;
             UIComponent.type := UIComponent.type component;
             UIComponent.description := UIComponent.description component;
             UIComponent.dependencies := UIComponent.dependencies component;
             UIComponent.status := UIComponent.status component;
             UIComponent.metadata := UIComponent.metadata component;
             UIComponent.createdAt := now s;
             UIComponent.updatedAt := now s;
             UIComponent.registry := None;
             UIComponent.examples := None |} in
        (Return saved,
         {| store := {| registryRows := registryRows s;
                        componentRows := componentRows s ++ [saved];
                        exampleRows := exampleRows s;
                        failure := failure s;
                        hydrates := hydrates s;
                        now := now s |};
            issued := log |})
    end.

(** [findOne({ where: { id }, relations: ['registry', 'examples'] })]. *)
Definition findComponent (id : Z) : Async (option UIComponent.t) :=
  await (ui_component, FindOne)
    (fun s => head (filter (fun c => UIComponent.id c = id)
                           (map (withRelations s) (componentRows s)))).

(** [registryId] of the body is truthy. *)
Definition truthyId (registryId : option Z) : option Z :=
  match registryId with
  | Some n => if n =? 0 then None else Some n
  | None => None
  end.

(** [app.post('/api/components', …)].  The entity has no column for
    [introducedVersion] or [deprecatedVersion]; [create] drops them. *)
Definition postComponent (body : ComponentBody) : Async Response :=
  tryCatch
    (let dependencies := default [] (b_dependencies body) in
     let status := default "stable" (b_status body) in
     let metadata := default (∅ : Metadata) (b_metadata body) in
     match orUndefined (b_name body), orUndefined (b_slug body),
           orUndefined (b_type body) with
     | Some name, Some slug, Some type =>
         let persist (finalRegistryId : Z) : Async Response :=
           let component :=
             {| UIComponent.id := 0;
                UIComponent.registryId := finalRegistryId;
                UIComponent.name := name;
                UIComponent.slug := slug;
                UIComponent.type := type;
                UIComponent.description := b_description body;
                UIComponent.dependencies := dependencies;
                UIComponent.status := status;
                UIComponent.metadata := metadata;
                UIComponent.createdAt := 0;
                UIComponent.updatedAt := 0;
                UIComponent.registry := None;
                UIComponent.examples := None |} in
           savedComponent ← save component;
           componentWithRelations ←
             findComponent (UIComponent.id savedComponent);
           mret {| statusCode := 201;
                   json := ComponentJson componentWithRelations |} in
         match truthyId (b_registryId body) with
         | Some registryId => persist registryId
         | None =>
             match orUndefined (b_registrySlug body) with
             | Some registrySlug =>
                 registry ←
                   await (ui_registry, FindOne)
                     (fun s =>
                        head (filter (fun r => UIRegistry.slug r = registrySlug)
                                     (registryRows s)));
                 match registry with
                 | None =>
                     mret {| statusCode := 404;
                             json :=
                               ErrorJson ("Registry with slug " +:+ quote
                                          +:+ registrySlug +:+ quote
                                          +:+ " not found") |}
                 | Some registry => persist (UIRegistry.id registry)
                 end
             | None =>
                 mret {| statusCode := 400;
                         json :=
                           ErrorJson "Either registryId or registrySlug is required" |}
             end
         end
     | _, _, _ =>
         mret {| statusCode := 400;
                 json := ErrorJson "name, slug, and type are required" |}
     end)
    (fun message => mret {| statusCode := 500; json := ErrorJson message |}).

End Http.

(** ** The tool handler [get_item_examples_from_registries] *)

Module Mcp.
Import Str Sql RegistryService.

(** What the handler hands to the text formatter of [mcp/utils]. *)
Inductive ExamplesAnswer :=
| NoExamplesFound
| MissingComponentInformation
| Examples (componentItems : list ComponentItem) (query : string).

(** The [ComponentItem] that the handler builds for a component and the
    examples that matched. *)
Definition componentItemOf (examples : list ComponentExample) (comp : UIComponent.t)
  : ComponentItem :=
  let examplesForComponent :=
    filter (fun e => ex_componentId e = Some (UIComponent.id comp)) examples in
  {| ci_id := UIComponent.id comp;
     ci_registryId := UIComponent.registryId comp;
     registrySlug := slugOrEmpty (UIComponent.registry comp);
     registryName := nameOrEmpty (UIComponent.registry comp);
     ci_slug := UIComponent.slug comp;
     ci_name := UIComponent.name comp;
     ci_type := UIComponent.type comp;
     ci_description := orUndefined (UIComponent.description comp);
     ci_dependencies := UIComponent.dependencies comp;
     ci_status := UIComponent.status comp;
     ci_metadata := UIComponent.metadata comp;
     exampleCount := Z.of_nat (length examplesForComponent);
     addCommandArgument :=
       match UIComponent.registry comp with
       | Some registry =>
           if truthy (UIRegistry.slug registry)
           then "@" +:+ UIRegistry.slug registry +:+ "/" +:+ UIComponent.slug comp
           else UIComponent.slug comp
       | None => UIComponent.slug comp
       end;
     ci_createdAt := UIComponent.createdAt comp;
     ci_updatedAt := UIComponent.updatedAt comp;
     ci_examples := examplesForComponent |}.

(** The second half of the handler: the ids of the components of the
    examples found are collected
    ([examples.map(e => e.componentId).filter(id => id !== undefined)],
    without repetitions), the components are fetched and each is given the
    examples that matched. *)
Definition groupByComponent (examples : list ComponentExample) (query : string)
  : Async ExamplesAnswer :=
  if Nat.eqb (length examples) 0 then mret NoExamplesFound
  else
    let componentIds := unique (omap ex_componentId examples) in
    if Nat.eqb (length componentIds) 0 then mret MissingComponentInformation
    else
      fullComponents ←
        await (ui_component, Find)
          (fun s => filter (fun c => IN (UIComponent.id c) componentIds)
                           (map (withRelations s) (componentRows s)));
      mret (Examples (map (componentItemOf examples) fullComponents) query).

(** The handler has no [try]: what the service throws reaches the tool
    protocol's own error reply. *)
Definition getItemExamplesFromRegistries (registries : option (list string))
  (query : string) : Async ExamplesAnswer :=
  let cleanRegistrySlugs := option_map (map replaceLeadingAt) registries in
  examples ← searchExamples cleanRegistrySlugs (Some query) (Some 100);
  groupByComponent examples query.

End Mcp.

(** ** A small store to run the code on *)

Module Sample.
Import Str Sql RegistryService.

Definition registry (id : Z) (name slug : string) (active : bool) : UIRegistry.t :=
  {| UIRegistry.id := id; UIRegistry.name := name; UIRegistry.slug := slug;
     UIRegistry.description := None; UIRegistry.framework := "react";
     UIRegistry.npmPackage := None; UIRegistry.installCommand := None;
     UIRegistry.docsUrl := None; UIRegistry.isActive := active;
     UIRegistry.metadata := ∅; UIRegistry.createdAt := 0;
     UIRegistry.updatedAt := 0 |}.

Definition component (id registryId : Z) (name slug : string)
  (description : option string) : UIComponent.t :=
  {| UIComponent.id := id; UIComponent.registryId := registryId;
     UIComponent.name := name; UIComponent.slug := slug;
     UIComponent.type := ComponentType.INPUTCONTROL;
     UIComponent.description := description;
     UIComponent.dependencies := []; UIComponent.status := ComponentStatus.STABLE;
     UIComponent.metadata := ∅; UIComponent.createdAt := 0;
     UIComponent.updatedAt := 0; UIComponent.registry := None;
     UIComponent.examples := None |}.

Definition example (id componentId : Z) (name slug : string)
  : UIComponentExample.t :=
  {| UIComponentExample.id := id; UIComponentExample.componentId := componentId;
     UIComponentExample.name := name; UIComponentExample.slug := slug;
     UIComponentExample.description := None;
     UIComponentExample.language := Some "tsx";
     UIComponentExample.code := "<Button />";
     UIComponentExample.metadata := ∅;
     UIComponentExample.createdAt := 0; UIComponentExample.updatedAt := 0 |}.

Definition answers : Query -> option string := fun _ => None.

(** Two registries, one of them switched off; three components, one of
    which points to a registry that is gone. *)
Definition shop : Store :=
  {| registryRows := [registry 1 "shadcn/ui" "shadcn" true;
                      registry 2 "Ant Design" "antd" false];
     componentRows := [component 1 1 "Button" "button" (Some "A clickable button");
                       component 2 2 "Card" "card" None;
                       component 3 9 "Alert" "alert" (Some "Shows a message")];
     exampleRows := [example 1 1 "Primary Button" "primary-button";
                     example 2 1 "Button Variants" "button-variants"];
     failure := answers;
     hydrates := fun _ => true;
     now := 1700000000 |}.

(** The same tables behind a fetch that leaves the registry of the first
    component out. *)
Definition partial : Store :=
  {| registryRows := registryRows shop;
     componentRows := componentRows shop;
     exampleRows := exampleRows shop;
     failure := answers;
     hydrates := fun id => negb (id =? 1);
     now := now shop |}.

(** The same tables behind a connection that is down. *)
Definition down : Store :=
  {| registryRows := registryRows shop;
     componentRows := componentRows shop;
     exampleRows := exampleRows shop;
     failure := fun _ => Some "connection refused";
     hydrates := hydrates shop;
     now := now shop |}.

(** One component with a hundred and one examples. *)
Definition crowded : Store :=
  {| registryRows := registryRows shop;
     componentRows := componentRows shop;
     exampleRows := map (fun i => example (Z.of_nat i) 1 "Button demo" "button-demo")
                        (seq 1 101);
     failure := answers;
     hydrates := hydrates shop;
     now := now shop |}.

(** No rows at all. *)
Definition empty : Store :=
  {| registryRows := []; componentRows := []; exampleRows := [];
     failure := answers; hydrates := fun _ => true; now := 0 |}.

(** The same tables behind a store that writes but fails to read a
    component back. *)
Definition forgetful : Store :=
  {| registryRows := registryRows shop;
     componentRows := componentRows shop;
     exampleRows := exampleRows shop;
     failure := fun q =>
       match q with
       | (ui_component, FindOne) => Some "read timeout"
       | _ => None
       end;
     hydrates := hydrates shop;
     now := now shop |}.

(** A body that gives a component another name and nothing else. *)
Definition rename (name : string) : Http.ComponentBody :=
  {| Http.b_registryId := None; Http.b_registrySlug := None;
     Http.b_name := Some name; Http.b_slug := None; Http.b_type := None;
     Http.b_description := None; Http.b_dependencies := None;
     Http.b_status := None; Http.b_introducedVersion := None;
     Http.b_deprecatedVersion := None; Http.b_metadata := None |}.

End Sample.

(** ** [getRegistryItems] *)

Module Items.
Import Str Sql RegistryService.

(** The text before and after the first [/] of a string. *)
Fixpoint splitAtSlash (s : string) : option (string * string) :=
  match s with
  | EmptyString => None
  | String c rest =>
      if Ascii.eqb c "/" then Some (EmptyString, rest)
      else match splitAtSlash rest with
           | Some (before, after) => Some (String c before, after)
           | None => None
           end
  end.

(** The characters that [.] does not match: line feed and carriage
    return (the two line terminators outside ASCII have no character in
    this model of strings). *)
Definition isLineTerminator (c : ascii) : bool :=
  Ascii.eqb c "010" || Ascii.eqb c "013".

Fixpoint oneLine (s : string) : bool :=
  match s with
  | EmptyString => true
  | String c rest => negb (isLineTerminator c) && oneLine rest
  end.

(** [itemName.match(/^@([^\/]+)\/(.+)$/)]: an [@], a run without [/] that
    is not empty, a [/], and a rest that is not empty and holds no line
    terminator.  The two groups. *)
Definition matchItemName (itemName : string) : option (string * string) :=
  match itemName with
  | String c rest =>
      if Ascii.eqb c "@" then
        match splitAtSlash rest with
        | Some (registrySlug, componentSlug) =>
            if truthy registrySlug && truthy componentSlug && oneLine componentSlug
            then Some (registrySlug, componentSlug)
            else None
        | None => None
        end
      else None
  | EmptyString => None
  end.

(** [where: { slug: componentSlug, registry: { slug: registrySlug } }]. *)
Definition inRegistryWithSlug (s : Store) (registrySlug componentSlug : string)
  (c : UIComponent.t) : bool :=
  bool_decide (UIComponent.slug c = componentSlug)
  && match registryOf s (UIComponent.registryId c) with
     | Some r => bool_decide (UIRegistry.slug r = registrySlug)
     | None => false
     end.

(** [where: [{ slug: itemName }, { name: itemName }]]. *)
Definition slugOrNameIs (itemName : string) (c : UIComponent.t) : bool :=
  bool_decide (UIComponent.slug c = itemName)
  || bool_decide (UIComponent.name c = itemName).

(** The items that one name adds. *)
Definition itemsOf (itemName : string) : Async (list ComponentItem) :=
  match matchItemName itemName with
  | Some (registrySlug, componentSlug) =>
      component ←
        await (ui_component, FindOne)
          (fun s =>
             head (map (withRelations s)
                       (filter (fun c => inRegistryWithSlug s registrySlug
                                           componentSlug c)
                               (componentRows s))));
      mret match component with
           | Some component => [formatComponent component]
           | None => []
           end
  | None =>
      components ←
        await (ui_component, Find)
          (fun s => map (withRelations s)
                        (filter (fun c => slugOrNameIs itemName c)
                                (componentRows s)));
      mret (map formatComponent components)
  end.

(** The [for] loop over the names, with the items pushed so far. *)
Fixpoint collect (itemNames : list string) (items : list ComponentItem)
  : Async (list ComponentItem) :=
  match itemNames with
  | [] => mret items
  | itemName :: rest =>
      found ← itemsOf itemName;
      collect rest (items ++ found)
  end.

Definition getRegistryItems (itemNames : list string)
  : Async (list ComponentItem) :=
  tryCatch (collect itemNames [])
    (fun message => throw ("Get registry items failed: " +:+ message)).

End Items.

(** ** The other HTTP routes *)

Module Rest.
Import Str Sql RegistryService.

#[global] Instance UIRegistry_eq_dec : EqDecision UIRegistry.t.
Proof. solve_decision. Defined.
#[global] Instance UIComponentExample_eq_dec : EqDecision UIComponentExample.t.
Proof. solve_decision. Defined.
#[global] Instance UIComponent_eq_dec : EqDecision UIComponent.t.
Proof. solve_decision. Defined.

(** An example entity with its [component] relation. *)
Record ExampleEntity := {
  exampleRow : UIComponentExample.t;
  component : option UIComponent.t
}.

Inductive Body :=
| JsonError (error : string)
| JsonRegistries (registries : list RegistryEntity)
| JsonRegistry (registry : RegistryEntity)
| JsonSavedRegistry (registry : UIRegistry.t)
| JsonComponent (component : option UIComponent.t)
| JsonExamples (examples : list ExampleEntity)
| JsonExample (example : option ExampleEntity)
| Empty.

Record Reply := {
  status : Z;
  body : Body
}.

(** [res.status(status).json(body)]. *)
Definition reply (status : Z) (body : Body) : Async Reply :=
  mret {| status := status; body := body |}.

(** [try { … } catch (error) { res.status(500).json({ error: message }) }]. *)
Definition route (run : Async Reply) : Async Reply :=
  tryCatch run (fun message => reply 500 (JsonError message)).

(** The store with one table replaced. *)
Definition withRegistryRows (rows : list UIRegistry.t) (s : Store) : Store :=
  {| registryRows := rows; componentRows := componentRows s;
     exampleRows := exampleRows s; failure := failure s;
     hydrates := hydrates s; now := now s |}.

Definition withComponentRows (rows : list UIComponent.t) (s : Store) : Store :=
  {| registryRows := registryRows s; componentRows := rows;
     exampleRows := exampleRows s; failure := failure s;
     hydrates := hydrates s; now := now s |}.

Definition withExampleRows (rows : list UIComponentExample.t) (s : Store) : Store :=
  {| registryRows := registryRows s; componentRows := componentRows s;
     exampleRows := rows; failure := failure s;
     hydrates := hydrates s; now := now s |}.

(** [await] of a write to a table: it is logged, then fails or changes the
    tables.  The log and the failures of the store know one kind of write
    per table, [(table, Save)]; a removal is a write. *)
Definition write {A} (table : Table) (change : Store -> A * Store) : Async A :=
  fun w =>
    match failure (store w) (table, Save) with
    | Some msg => (Throw msg, issue (table, Save) w)
    | None =>
        let (a, s) := change (store w) in
        (Return a, {| store := s; issued := issued w ++ [(table, Save)] |})
    end.

(** The id that the store gives to the next row.  The database takes it
    from a sequence; here it is the first id above those of the table, and
    what is used of it is that no row of the table has it. *)
Definition nextIdAfter (ids : list Z) : Z := 1 + foldr Z.max 0 ids.

(** *** Registries *)

(** [relations: ['components']]. *)
Definition withComponents (s : Store) (r : UIRegistry.t) : RegistryEntity :=
  {| registryRow := r;
     components :=
       Some (filter (fun c => UIComponent.registryId c = UIRegistry.id r)
                    (map bare (componentRows s))) |}.

(** [app.get('/api/registries', …)]. *)
Definition getRegistries : Async Reply :=
  route
    (registries ←
       await (ui_registry, Find)
         (fun s => map (withComponents s) (registryRows s));
     reply 200 (JsonRegistries registries)).

(** [app.get('/api/registries/:id', …)]; [id] is what [parseInt] returns
    for the parameter. *)
Definition getRegistry (id : Z) : Async Reply :=
  route
    (registry ←
       await (ui_registry, FindOne)
         (fun s => head (map (withComponents s)
                             (filter (fun r => UIRegistry.id r = id)
                                     (registryRows s))));
     match registry with
     | Some registry => reply 200 (JsonRegistry registry)
     | None => reply 404 (JsonError "Registry not found")
     end).

(** [req.body] of [POST /api/registries]. *)
Record RegistryInput := {
  r_name : option string;
  r_slug : option string;
  r_description : option string;
  r_framework : option string;
  r_npmPackage : option string;
  r_installCommand : option string;
  r_docsUrl : option string;
  r_isActive : option bool;
  r_metadata : option Metadata
}.

(** [repository.save(entity)] of a new registry. *)
Definition insertRegistry (registry : UIRegistry.t) : Async UIRegistry.t :=
  write ui_registry
    (fun s =>
       let saved :=
         {| UIRegistry.id := nextIdAfter (map UIRegistry.id (registryRows s));
            UIRegistry.name := UIRegistry.name registry;
            UIRegistry.slug := UIRegistry.slug registry;
            UIRegistry.description := UIRegistry.description registry;
            UIRegistry.framework := UIRegistry.framework registry;
            UIRegistry.npmPackage := UIRegistry.npmPackage registry;
            UIRegistry.installCommand := UIRegistry.installCommand registry;
            UIRegistry.docsUrl := UIRegistry.docsUrl registry;
            UIRegistry.isActive := UIRegistry.isActive registry;
            UIRegistry.metadata := UIRegistry.metadata registry;
            UIRegistry.createdAt := now s;
            UIRegistry.updatedAt := now s |} in
       (saved, withRegistryRows (registryRows s ++ [saved]) s)).

(** [app.post('/api/registries', …)]. *)
Definition postRegistry (input : RegistryInput) : Async Reply :=
  route
    (let isActive := default true (r_isActive input) in
     let metadata := default (∅ : Metadata) (r_metadata input) in
     match orUndefined (r_name input), orUndefined (r_slug input),
           orUndefined (r_framework input) with
     | Some name, Some slug, Some framework =>
         savedRegistry ←
           insertRegistry
             {| UIRegistry.id := 0;
                UIRegistry.name := name;
                UIRegistry.slug := slug;
                UIRegistry.description := r_description input;
                UIRegistry.framework := framework;
                UIRegistry.npmPackage := r_npmPackage input;
                UIRegistry.installCommand := r_installCommand input;
                UIRegistry.docsUrl := r_docsUrl input;
                UIRegistry.isActive := isActive;
                UIRegistry.metadata := metadata;
                UIRegistry.createdAt := 0;
                UIRegistry.updatedAt := 0 |};
         reply 201 (JsonSavedRegistry savedRegistry)
     | _, _, _ =>
         reply 400 (JsonError "name, slug, and framework are required")
     end).

(** *** Components *)

(** [findOne({ where: { id } })], without relations. *)
Definition findBare (id : Z) : Async (option UIComponent.t) :=
  await (ui_component, FindOne)
    (fun s => head (map bare (filter (fun c => UIComponent.id c = id)
                                     (componentRows s)))).

(** [app.get('/api/components/:id', …)]. *)
Definition getComponent (id : Z) : Async Reply :=
  route
    (component ← Http.findComponent id;
     match component with
     | Some component => reply 200 (JsonComponent (Some component))
     | None => reply 404 (JsonError "Component not found")
     end).

(** [if (field !== undefined) component.field = field], for the fields
    that are columns of the entity. *)
Definition merge (input : Http.ComponentBody) (component : UIComponent.t)
  : UIComponent.t :=
  {| UIComponent.id := UIComponent.id component;
     UIComponent.registryId := UIComponent.registryId component;
     UIComponent.name := default (UIComponent.name component) (Http.b_name input);
     UIComponent.slug := default (UIComponent.slug component) (Http.b_slug input);
     UIComponent.type := default (UIComponent.type component) (Http.b_type input);
     UIComponent.description :=
       match Http.b_description input with
       | Some description => Some description
       | None => UIComponent.description component
       end;
     UIComponent.dependencies :=
       default (UIComponent.dependencies component) (Http.b_dependencies input);
     UIComponent.status :=
       default (UIComponent.status component) (Http.b_status input);
     UIComponent.metadata :=
       default (UIComponent.metadata component) (Http.b_metadata input);
     UIComponent.createdAt := UIComponent.createdAt component;
     UIComponent.updatedAt := UIComponent.updatedAt component;
     UIComponent.registry := UIComponent.registry component;
     UIComponent.examples := UIComponent.examples component |}.

Definition stamped (time : Z) (c : UIComponent.t) : UIComponent.t :=
  {| UIComponent.id := UIComponent.id c;
     UIComponent.registryId := UIComponent.registryId c;
     UIComponent.name := UIComponent.name c;
     UIComponent.slug := UIComponent.slug c;
     UIComponent.type := UIComponent.type c;
     UIComponent.description := UIComponent.description c;
     UIComponent.dependencies := UIComponent.dependencies c;
     UIComponent.status := UIComponent.status c;
     UIComponent.metadata := UIComponent.metadata c;
     UIComponent.createdAt := UIComponent.createdAt c;
     UIComponent.updatedAt := time;
     UIComponent.registry := UIComponent.registry c;
     UIComponent.examples := UIComponent.examples c |}.

(** [repository.save(entity)] of a component that was loaded from the
    store: when a column changed, the row with the id of the entity is
    rewritten and its [updatedAt] is set; when none changed, nothing is
    written. *)
Definition updateComponent (loaded changed : UIComponent.t)
  : Async UIComponent.t :=
  write ui_component
    (fun s =>
       if decide (changed = loaded) then (loaded, s)
       else
         let saved := stamped (now s) changed in
         (saved,
          withComponentRows
            (map (fun row =>
                    if decide (UIComponent.id row = UIComponent.id saved)
                    then saved else row)
                 (componentRows s)) s)).

(** [app.put('/api/components/:id', …)]. *)
Definition putComponent (id : Z) (input : Http.ComponentBody) : Async Reply :=
  route
    (component ← findBare id;
     match component with
     | None => reply 404 (JsonError "Component not found")
     | Some component =>
         updatedComponent ← updateComponent component (merge input component);
         componentWithRelations ←
           Http.findComponent (UIComponent.id updatedComponent);
         reply 200 (JsonComponent componentWithRelations)
     end).

(** [repository.remove(component)]: the row goes, and with it the examples
    that point to it ([onDelete: 'CASCADE'] on their [component]). *)
Definition removeComponent (component : UIComponent.t) : Async unit :=
  write ui_component
    (fun s =>
       (tt,
        withExampleRows
          (filter (fun e => UIComponentExample.componentId e
                            ≠ UIComponent.id component)
                  (exampleRows s))
          (withComponentRows
             (filter (fun c => UIComponent.id c ≠ UIComponent.id component)
                     (componentRows s)) s))).

(** [app.delete('/api/components/:id', …)]. *)
Definition deleteComponent (id : Z) : Async Reply :=
  route
    (component ← findBare id;
     match component with
     | None => reply 404 (JsonError "Component not found")
     | Some component =>
         _ ← removeComponent component;
         reply 204 Empty
     end).

(** *** Examples *)

(** [relations: ['component']]. *)
Definition withComponent (s : Store) (e : UIComponentExample.t) : ExampleEntity :=
  {| exampleRow := e;
     component :=
       head (map bare
                 (filter (fun c => UIComponent.id c
                                   = UIComponentExample.componentId e)
                         (componentRows s))) |}.

(** [app.get('/api/components/:componentId/examples', …)]. *)
Definition getExamplesOf (componentId : Z) : Async Reply :=
  route
    (examples ←
       await (ui_component_example, Find)
         (fun s =>
            map (withComponent s)
                (filter (fun e => UIComponentExample.componentId e = componentId)
                        (exampleRows s)));
     reply 200 (JsonExamples examples)).

(** [findOne({ where: { id }, relations: ['component'] })]. *)
Definition findExample (id : Z) : Async (option ExampleEntity) :=
  await (ui_component_example, FindOne)
    (fun s => head (map (withComponent s)
                        (filter (fun e => UIComponentExample.id e = id)
                                (exampleRows s)))).

(** [req.body] of the example routes. *)
Record ExampleInput := {
  e_name : option string;
  e_slug : option string;
  e_description : option string;
  e_language : option string;
  e_code : option string;
  e_metadata : option Metadata
}.

(** [repository.save(entity)] of a new example. *)
Definition insertExample (example : UIComponentExample.t)
  : Async UIComponentExample.t :=
  write ui_component_example
    (fun s =>
       let saved :=
         {| UIComponentExample.id :=
              nextIdAfter (map UIComponentExample.id (exampleRows s));
            UIComponentExample.componentId :=
              UIComponentExample.componentId example;
            UIComponentExample.name := UIComponentExample.name example;
            UIComponentExample.slug := UIComponentExample.slug example;
            UIComponentExample.description :=
              UIComponentExample.description example;
            UIComponentExample.language := UIComponentExample.language example;
            UIComponentExample.code := UIComponentExample.code example;
            UIComponentExample.metadata := UIComponentExample.metadata example;
            UIComponentExample.createdAt := now s;
            UIComponentExample.updatedAt := now s |} in
       (saved, withExampleRows (exampleRows s ++ [saved]) s)).

(** [app.post('/api/components/:componentId/examples', …)]: the component
    is looked up before the body is checked. *)
Definition postExample (componentId : Z) (input : ExampleInput) : Async Reply :=
  route
    (component ← findBare componentId;
     match component with
     | None => reply 404 (JsonError "Component not found")
     | Some component =>
         let metadata := default (∅ : Metadata) (e_metadata input) in
         match orUndefined (e_name input), orUndefined (e_slug input),
               orUndefined (e_language input), orUndefined (e_code input) with
         | Some name, Some slug, Some language, Some code =>
             savedExample ←
               insertExample
                 {| UIComponentExample.id := 0;
                    UIComponentExample.componentId := UIComponent.id component;
                    UIComponentExample.name := name;
                    UIComponentExample.slug := slug;
                    UIComponentExample.description := e_description input;
                    UIComponentExample.language := Some language;
                    UIComponentExample.code := code;
                    UIComponentExample.metadata := metadata;
                    UIComponentExample.createdAt := 0;
                    UIComponentExample.updatedAt := 0 |};
             exampleWithRelations ←
               findExample (UIComponentExample.id savedExample);
             reply 201 (JsonExample exampleWithRelations)
         | _, _, _, _ =>
             reply 400 (JsonError "name, slug, language, and code are required")
         end
     end).

(** [app.get('/api/examples/:id', …)]. *)
Definition getExample (id : Z) : Async Reply :=
  route
    (example ← findExample id;
     match example with
     | Some example => reply 200 (JsonExample (Some example))
     | None => reply 404 (JsonError "Example not found")
     end).

(** [repository.remove(example)]. *)
Definition removeExample (example : UIComponentExample.t) : Async unit :=
  write ui_component_example
    (fun s =>
       (tt,
        withExampleRows
          (filter (fun e => UIComponentExample.id e ≠ UIComponentExample.id example)
                  (exampleRows s)) s)).

(** [app.delete('/api/examples/:id', …)]. *)
Definition deleteExample (id : Z) : Async Reply :=
  route
    (example ←
       await (ui_component_example, FindOne)
         (fun s => head (filter (fun e => UIComponentExample.id e = id)
                                (exampleRows s)));
     match example with
     | None => reply 404 (JsonError "Example not found")
     | Some example =>
         _ ← removeExample example;
         reply 204 Empty
     end).

End Rest.

(** ** The tool handlers that list registries and components *)

Module Tools.
Import Str Sql RegistryService.

(** What a handler answers: one of its fixed texts, or the results that it
    hands to the text formatter of [mcp/utils]. *)
Inductive RegistriesAnswer :=
| PleaseRegister
| NoRegistriesFound
| Registries (results : SearchResult.t RegistryItem).

(** [get_available_registries]; its [registries] is not optional. *)
Definition getAvailableRegistries (registries : list string)
  : Async RegistriesAnswer :=
  results ← searchAllRegistries (Some registries);
  if Nat.eqb (length (SearchResult.items results)) 0 then mret PleaseRegister
  else mret (Registries results).

(** [get_available_ui_components_from_registries]. *)
Definition getAvailableUiComponentsFromRegistries (registries : list string)
  (limit offset : option Z) : Async RegistriesAnswer :=
  results ← searchRegistries (Some registries) limit offset;
  if Nat.eqb (length (SearchResult.items results)) 0 then mret NoRegistriesFound
  else mret (Registries results).

(** [registries.join(', ')]. *)
Fixpoint join (separator : string) (l : list string) : string :=
  match l with
  | [] => EmptyString
  | [x] => x
  | x :: l' => x +:+ separator +:+ join separator l'
  end.

Definition searchContext (registries : option (list string))
  (query : option string) : list string :=
  ([match suppliedNames registries with
    | Some registries => "in registries: " +:+ join ", " registries
    | None => "across all available registries"
    end]
   ++ match orUndefined query with
      | Some query => ["matching " +:+ quote +:+ query +:+ quote]
      | None => []
      end)%list.

(** The answer of [search_items_in_registries]: the text for no component,
    built from the context and the query, or the results behind a first
    line [Found <totalCount> component(s) <context>]. *)
Inductive ItemsAnswer :=
| NoComponentsFound (context : list string) (query : option string)
| Found (firstLine : option (Z * bool * list string))
        (results : SearchResult.t ComponentItem).

Definition searchItemsInRegistries (registries : option (list string))
  (query : option string) (limit offset : option Z) : Async ItemsAnswer :=
  results ← searchComponents registries query limit offset;
  let searchContext := searchContext registries query in
  if Nat.eqb (length (SearchResult.items results)) 0 then
    mret (NoComponentsFound searchContext (orUndefined query))
  else
    let firstLine :=
      if Nat.ltb 0 (length searchContext)
      then Some (SearchResult.totalCount results,
                 1 <? SearchResult.totalCount results, searchContext)
      else None in
    mret (Found firstLine results).

End Tools.

(** ** Some request bodies *)

Module Requests.

Definition mui : Rest.RegistryInput :=
  {| Rest.r_name := Some "Material UI"; Rest.r_slug := Some "mui";
     Rest.r_description := None; Rest.r_framework := Some "react";
     Rest.r_npmPackage := Some "@mui/material"; Rest.r_installCommand := None;
     Rest.r_docsUrl := None; Rest.r_isActive := None; Rest.r_metadata := None |}.

Definition demo : Rest.ExampleInput :=
  {| Rest.e_name := Some "Ghost Button"; Rest.e_slug := Some "ghost-button";
     Rest.e_description := None; Rest.e_language := Some "tsx";
     Rest.e_code := Some "<Button ghost />"; Rest.e_metadata := None |}.

(** A body without a name. *)
Definition nameless : Rest.ExampleInput :=
  {| Rest.e_name := None; Rest.e_slug := Some "ghost-button";
     Rest.e_description := None; Rest.e_language := Some "tsx";
     Rest.e_code := Some "<Button ghost />"; Rest.e_metadata := None |}.

End Requests.

(** ** Reference definitions

    What the statements below compare the code with: the registry ids that
    a list of identifiers stands for, the fetch without its page window,
    the substring test of the fuzzy search, and the registry that the
    backfill finds for a component. *)

Module Reference.
Import Str Sql RegistryService.

(** The ids of the registries whose name or slug is one of the
    identifiers, once a leading [@] is removed; [None] when no identifier
    is supplied. *)
Definition resolvedIds (s : Store) (registryNames : option (list string))
  : option (list Z) :=
  match suppliedNames registryNames with
  | Some names =>
      Some (map UIRegistry.id
              (filter (fun r => nameOrSlugIn (cleanNamesOf names) r)
                      (registryRows s)))
  | None => None
  end.

(** The registry restriction and the text filter, as tests on a row. *)
Definition withinRegistries (registryIds : option (list Z)) (c : UIComponent.t)
  : bool :=
  match suppliedIds registryIds with
  | Some ids => IN (UIComponent.registryId c) ids
  | None => true
  end.

Definition mentions (q : string) (c : UIComponent.t) : bool :=
  includesIgnoringCase q (UIComponent.name c)
  || match UIComponent.description c with
     | Some d => includesIgnoringCase q d
     | None => false
     end
  || includesIgnoringCase q (UIComponent.slug c).

(** A builder without its [take] and [skip]. *)
Definition unpaged {R} (qb : SelectQueryBuilder R) : SelectQueryBuilder R :=
  {| wheres := wheres qb; ordering := ordering qb;
     taken := None; skipped := None |}.

(** The rows of the paged fetch, and of the same fetch without a page
    window. *)
Definition pagedFetch (s : Store) (registryIds : option (list Z))
  (query : option string) (limit offset : Z) : list UIComponent.t :=
  getManyJoined UIComponent.id exampleNames
    (pagedQuery registryIds query limit offset)
    (map (joinBoth s) (componentRows s)).

Definition unpagedFetch (s : Store) (registryIds : option (list Z))
  (query : option string) : list UIComponent.t :=
  getMany (unpaged (pagedQuery registryIds query 0 0))
          (map (joinBoth s) (componentRows s)).

(** The registry row that the backfill keeps for an id. *)
Definition keptRegistry (s : Store) (registryId : Z) : option UIRegistry.t :=
  last (filter (fun r => UIRegistry.id r = registryId) (registryRows s)).

(** A fetched component after the backfill. *)
Definition backfilled (s : Store) (c : UIComponent.t) : UIComponent.t :=
  if lacksRegistry c
  then UIComponent.withRegistry (keptRegistry s (UIComponent.registryId c)) c
  else c.


(** What an item shows of the registry of a component row: a stored
    registry with the [registryId] of the row when the id is set and there
    is one, and empty fields when there is none. *)
Definition showsRegistryOf (s : Store) (registryId : Z) (item : ComponentItem)
  : Prop :=
  (registryId <> 0 ->
   (exists r, r ∈ registryRows s /\ UIRegistry.id r = registryId) ->
   exists r, r ∈ registryRows s /\ UIRegistry.id r = registryId
             /\ registryName item = UIRegistry.name r
             /\ registrySlug item = UIRegistry.slug r)
  /\ ((forall r, r ∈ registryRows s -> UIRegistry.id r <> registryId) ->
      registryName item = EmptyString /\ registrySlug item = EmptyString).

(** The item of a component row. *)
Definition showsRow (s : Store) (row : UIComponent.t) (item : ComponentItem)
  : Prop :=
  ci_id item = UIComponent.id row
  /\ ci_registryId item = UIComponent.registryId row
  /\ ci_slug item = UIComponent.slug row
  /\ ci_name item = UIComponent.name row
  /\ showsRegistryOf s (UIComponent.registryId row) item.

(** The item of a fetched component: the registry that came with the
    component if one did, the registry of its row otherwise. *)
Definition shows (s : Store) (c : UIComponent.t) (item : ComponentItem) : Prop :=
  ci_id item = UIComponent.id c
  /\ ci_registryId item = UIComponent.registryId c
  /\ ci_slug item = UIComponent.slug c
  /\ ci_name item = UIComponent.name c
  /\ match UIComponent.registry c with
     | Some r =>
         registryName item = UIRegistry.name r
         /\ registrySlug item = UIRegistry.slug r
     | None =>
         showsRegistryOf s (UIComponent.registryId c) item
         /\ (UIComponent.registryId c = 0 ->
             registryName item = EmptyString /\ registrySlug item = EmptyString)
     end.

(** A limit that no page of the join of components and examples exceeds:
    the join has at most one row per component and example. *)
Definition joinBound (s : Store) : Z :=
  Z.of_nat (length (componentRows s) * (1 + length (exampleRows s))).

(** Text of ASCII characters only.  On such text a byte is a character
    and the case folding of [lower] is that of [ILIKE]; what is stated of
    text matching is stated of such text. *)
Definition isAsciiChar (c : ascii) : bool := Nat.ltb (nat_of_ascii c) 128.

Fixpoint isAscii (s : string) : bool :=
  match s with
  | EmptyString => true
  | String c s' => isAsciiChar c && isAscii s'
  end.

Definition asciiText (c : UIComponent.t) : bool :=
  isAscii (UIComponent.name c)
  && match UIComponent.description c with
     | Some d => isAscii d
     | None => true
     end
  && isAscii (UIComponent.slug c).

(** The registry restriction of a search by registry identifiers: the
    component belongs to a registry whose name or slug is one of the
    identifiers; no restriction when no identifier is supplied. *)
Definition inNamed (s : Store) (registryNames : option (list string))
  (c : UIComponent.t) : bool :=
  match resolvedIds s registryNames with
  | Some ids => IN (UIComponent.registryId c) ids
  | None => true
  end.

(** A result of [searchComponents] that answers a test on the component
    rows: every item is the item of a row that passes the test, the total
    count is the number of rows that pass it, and, with no offset and a
    limit that holds the whole join, every row that passes it has its
    item. *)
Definition answers (s : Store) (test : UIComponent.t -> bool)
  (limit offset : option Z) (r : SearchResult.t ComponentItem) : Prop :=
  (forall item, item ∈ SearchResult.items r ->
     exists row, row ∈ componentRows s /\ showsRow s row item /\ test row = true)
  /\ SearchResult.totalCount r =
     Z.of_nat (length (filter (fun row => test row) (componentRows s)))
  /\ (default 0 offset = 0 -> joinBound s <= default 50 limit ->
      forall row, row ∈ componentRows s -> test row = true ->
      exists item, item ∈ SearchResult.items r /\ showsRow s row item).

(** The registries that the identifiers name (every registry when none is
    supplied), by name. *)
Definition named (registryNames : option (list string)) (r : UIRegistry.t)
  : bool :=
  match suppliedNames registryNames with
  | Some names => nameOrSlugIn (cleanNamesOf names) r
  | None => true
  end.

Definition namedRegistries (s : Store) (registryNames : option (list string))
  : list UIRegistry.t :=
  sortBy UIRegistry.name (filter (fun r => named registryNames r) (registryRows s)).

(** The components of a registry, each with its examples, by name. *)
Definition componentsIn (s : Store) (registryId : Z) : list UIComponent.t :=
  sortBy UIComponent.name
    (filter (fun c => UIComponent.registryId c = registryId)
            (map (fun c => joinExamples s (bare c)) (componentRows s))).

Definition withComponentsIn (s : Store) (r : UIRegistry.t) : RegistryEntity :=
  {| registryRow := r; components := Some (componentsIn s (UIRegistry.id r)) |}.

(** The test that [searchExamples] puts to an example: its component lies
    in one of the registries named, when identifiers are supplied, and its
    name or slug matches the query, when there is one. *)
Definition exampleMatches (s : Store) (registrySlugs : option (list string))
  (query : option string) (e : UIComponentExample.t) : bool :=
  match resolvedIds s registrySlugs with
  | Some ids => componentRegistryIn ids (joinComponent s e)
  | None => true
  end
  && match suppliedQuery query with
     | Some q => fuzzyExample q (joinComponent s e)
     | None => true
     end.

(** The stored examples that match, as the table holds them. *)
Definition matchingExamples (s : Store) (registrySlugs : option (list string))
  (query : option string) : list UIComponentExample.t :=
  filter (fun e => exampleMatches s registrySlugs query e) (exampleRows s).

Definition examplesFound (s : Store) (registrySlugs : option (list string))
  (query : option string) : list UIComponentExample.t :=
  sortBy UIComponentExample.name
    (filter (fun e => exampleMatches s registrySlugs query e) (exampleRows s)).

(** The components that the examples tool fetches for the examples found:
    the rows whose id is the component id of one of them. *)
Definition componentsOfExamples (s : Store) (chosen : list UIComponentExample.t)
  : list UIComponent.t :=
  filter (fun c => IN (UIComponent.id c)
                      (unique (map UIComponentExample.componentId chosen)))
         (map (withRelations s) (componentRows s)).

(** What [getRegistryItems] asks and gets for one name. *)
Definition queryOf (itemName : string) : Query :=
  match Items.matchItemName itemName with
  | Some _ => (ui_component, FindOne)
  | None => (ui_component, Find)
  end.

Definition itemsNamed (s : Store) (itemName : string) : list ComponentItem :=
  map (fun c => formatComponent (withRelations s c))
      match Items.matchItemName itemName with
      | Some (registrySlug, componentSlug) =>
          list.take 1
            (filter (fun c => Items.inRegistryWithSlug s registrySlug componentSlug c)
                    (componentRows s))
      | None =>
          filter (fun c => Items.slugOrNameIs itemName c) (componentRows s)
      end.

(** What [PUT /api/components/:id] may do to a row. *)
Definition putChanges (id : Z) (input : Http.ComponentBody) (done : Prop)
  (row row' : UIComponent.t) : Prop :=
  UIComponent.id row' = UIComponent.id row
  /\ UIComponent.registryId row' = UIComponent.registryId row
  /\ UIComponent.createdAt row' = UIComponent.createdAt row
  /\ (UIComponent.id row <> id -> row' = row)
  /\ (UIComponent.id row = id -> done ->
      UIComponent.name row' = default (UIComponent.name row) (Http.b_name input)
      /\ UIComponent.slug row' = default (UIComponent.slug row) (Http.b_slug input)
      /\ UIComponent.type row' = default (UIComponent.type row) (Http.b_type input)
      /\ UIComponent.status row'
         = default (UIComponent.status row) (Http.b_status input)
      /\ UIComponent.dependencies row'
         = default (UIComponent.dependencies row) (Http.b_dependencies input)
      /\ UIComponent.metadata row'
         = default (UIComponent.metadata row) (Http.b_metadata input)
      /\ UIComponent.description row'
         = match Http.b_description input with
           | Some description => Some description
           | None => UIComponent.description row
           end).

(** The query of [GET /api/components] with other [type] and [status]
    parameters, and with another [registryId]. *)
Definition withFilters (type status : option string) (q : Http.ListingQuery)
  : Http.ListingQuery :=
  {| Http.q_registryId := Http.q_registryId q;
     Http.q_registrySlug := Http.q_registrySlug q;
     Http.q_type := type; Http.q_status := status;
     Http.q_query := Http.q_query q;
     Http.q_limit := Http.q_limit q; Http.q_offset := Http.q_offset q |}.

Definition withRegistryId (registryId : option Z) (q : Http.ListingQuery)
  : Http.ListingQuery :=
  {| Http.q_registryId := registryId;
     Http.q_registrySlug := Http.q_registrySlug q;
     Http.q_type := Http.q_type q; Http.q_status := Http.q_status q;
     Http.q_query := Http.q_query q;
     Http.q_limit := Http.q_limit q; Http.q_offset := Http.q_offset q |}.

End Reference.

(** * Properties *)

(** ** Strings and patterns *)

Section StringFacts.
Import Str.

Lemma append_nil_l (s : string) : EmptyString +:+ s = s.
Proof. reflexivity. Qed.

Lemma append_cons (c : ascii) (a b : string) :
  String c a +:+ b = String c (a +:+ b).
Proof. reflexivity. Qed.

Lemma append_empty_r (s : string) : s +:+ EmptyString = s.
Proof.
  induction s as [|c s IH]; [reflexivity|].
  now rewrite append_cons, IH.
Qed.

Lemma prefix_split (q s : string) :
  String.prefix q s = true <-> exists post, s = q +:+ post.
Proof.
  revert s. induction q as [|c q IH]; intros s.
  - split; [intros _; exists s; reflexivity | intros _; now destruct s].
  - destruct s as [|d s]; simpl.
    + split; [discriminate | intros [post H]; discriminate].
    + destruct (ascii_dec c d) as [->|Hne].
      * rewrite IH. split; intros [post H]; exists post.
        -- now rewrite append_cons, H.
        -- rewrite append_cons in H. congruence.
      * split; [discriminate | intros [post H]].
        rewrite append_cons in H. congruence.
Qed.

Lemma includes_split (q s : string) :
  includes q s = true <-> exists pre post, s = pre +:+ q +:+ post.
Proof.
  assert (Hstep : forall s, includes q s =
            (String.prefix q s ||
             match s with
             | EmptyString => false
             | String _ s' => includes q s'
             end)%bool) by (intros [|? ?]; reflexivity).
  induction s as [|d s IH]; rewrite Hstep, orb_true_iff, prefix_split.
  - split.
    + intros [[post H]|H]; [|discriminate].
      exists EmptyString, post. exact H.
    + intros [[|x pre] [post H]]; [left; now exists post | discriminate].
  - rewrite IH. split.
    + intros [[post H]|[pre [post H]]].
      * exists EmptyString, post. exact H.
      * exists (String d pre), post. now rewrite append_cons, H.
    + intros [[|x pre] [post H]].
      * left. now exists post.
      * right. exists pre, post. rewrite append_cons in H. congruence.
Qed.

Lemma lower_append (a b : string) : lower (a +:+ b) = lower a +:+ lower b.
Proof.
  induction a as [|x a IH]; [reflexivity|].
  rewrite append_cons. simpl. now rewrite append_cons, IH.
Qed.

Lemma isMeta_lowerChar (c : ascii) : isMeta (lowerChar c) = isMeta c.
Proof. destruct c as [[] [] [] [] [] [] [] []]; reflexivity. Qed.

Lemma literal_lower (q : string) : literal (lower q) = literal q.
Proof.
  induction q as [|c q IH]; simpl; [reflexivity|].
  now rewrite isMeta_lowerChar, IH.
Qed.

(** How [like] reads a pattern that starts with [%]. *)
Lemma like_percent (p s : string) :
  like (String "%" p) s = true <->
  exists pre rest, s = pre +:+ rest /\ like p rest = true.
Proof.
  change (like (String "%" p) s)
    with ((fix anywhere (s : string) : bool :=
             (like p s ||
              match s with
              | EmptyString => false
              | String _ s' => anywhere s'
              end)%bool) s).
  induction s as [|d s IH]; rewrite orb_true_iff.
  - split.
    + intros [H|H]; [|discriminate].
      exists EmptyString, EmptyString. now split.
    + intros [[|x pre] [rest [H1 H2]]]; [|discriminate].
      rewrite append_nil_l in H1. subst rest. now left.
  - rewrite IH. split.
    + intros [H|[pre [rest [H1 H2]]]].
      * exists EmptyString, (String d s). now split.
      * exists (String d pre), rest.
        split; [now rewrite append_cons, H1 | assumption].
    + intros [[|x pre] [rest [H1 H2]]].
      * rewrite append_nil_l in H1. subst rest. now left.
      * right. exists pre, rest. rewrite append_cons in H1.
        split; [congruence | assumption].
Qed.

(** How [like] reads a pattern that starts with a literal character. *)
Lemma like_literal_char (c : ascii) (p s : string) :
  isMeta c = false ->
  like (String c p) s =
  match s with
  | EmptyString => false
  | String d s' => (Ascii.eqb c d && like p s')%bool
  end.
Proof.
  unfold isMeta. intros H.
  apply orb_false_iff in H as [H H3]. apply orb_false_iff in H as [H1 H2].
  simpl. now rewrite H1, H2, H3.
Qed.

Lemma like_literal_prefix (q p s : string) :
  literal q = true ->
  like (q +:+ p) s = true <-> exists rest, s = q +:+ rest /\ like p rest = true.
Proof.
  revert s. induction q as [|c q IH]; intros s Hq.
  - rewrite append_nil_l.
    split; [intros H; now exists s | intros [rest [-> H]]; exact H].
  - simpl in Hq. apply andb_true_iff in Hq as [Hc Hq].
    apply negb_true_iff in Hc.
    rewrite append_cons, like_literal_char by exact Hc.
    destruct s as [|d s].
    + split; [discriminate | intros [rest [H _]]; discriminate].
    + rewrite andb_true_iff, Ascii.eqb_eq, (IH s Hq). split.
      * intros [-> [rest [-> H]]]. now exists rest.
      * intros [rest [H1 H2]]. rewrite append_cons in H1.
        injection H1 as -> ->.
        split; [reflexivity | now exists rest].
Qed.

Lemma like_only_percent (s : string) : like "%" s = true.
Proof.
  apply like_percent. exists s, EmptyString.
  split; [now rewrite append_empty_r | reflexivity].
Qed.

(** Between two [%], a pattern without special characters is a
    substring test. *)
Lemma like_wrapPercent (q s : string) :
  literal q = true -> like (wrapPercent q) s = includes q s.
Proof.
  intros Hq. apply eq_true_iff_eq.
  unfold wrapPercent. rewrite append_cons, append_nil_l.
  rewrite like_percent, includes_split. split.
  - intros [pre [rest [-> H]]].
    apply (like_literal_prefix q "%" rest Hq) in H as [post [-> _]].
    now exists pre, post.
  - intros [pre [post ->]]. exists pre, (q +:+ post). split; [reflexivity|].
    apply (like_literal_prefix q "%" _ Hq). exists post.
    split; [reflexivity | apply like_only_percent].
Qed.

Lemma lower_wrapPercent (q : string) : lower (wrapPercent q) = wrapPercent (lower q).
Proof. unfold wrapPercent. now rewrite !lower_append. Qed.

(** [s ILIKE '%q%'] for a [q] without [%], [_] or backslash. *)
Lemma ilike_wrapPercent (q s : string) :
  literal q = true -> ilike s (wrapPercent q) = includesIgnoringCase q s.
Proof.
  intros Hq. unfold ilike, includesIgnoringCase.
  rewrite lower_wrapPercent. apply like_wrapPercent. now rewrite literal_lower.
Qed.

(** A lone [_] matches any string that is not empty. *)
Lemma ilike_underscore (s : string) :
  truthy s = true -> ilike s (wrapPercent "_") = true.
Proof.
  destruct s as [|c s]; [discriminate|]. intros _.
  unfold ilike. rewrite lower_wrapPercent. apply like_percent.
  exists EmptyString, (lower (String c s)). split; [reflexivity|].
  simpl. apply like_only_percent.
Qed.

End StringFacts.

(** ** Ordering, conditions and the monad *)

Section StoreFacts.
Import Str Sql RegistryService Reference.

Lemma insertBy_perm {A} (key : A -> string) (x : A) (l : list A) :
  insertBy key x l ≡ₚ x :: l.
Proof.
  induction l as [|y l IH]; simpl; [reflexivity|].
  destruct (String.leb (key x) (key y)); [reflexivity|].
  rewrite IH. apply Permutation_swap.
Qed.

Lemma sortBy_perm {A} (key : A -> string) (l : list A) : sortBy key l ≡ₚ l.
Proof.
  induction l as [|x l IH]; simpl; [reflexivity|].
  unfold sortBy in *. simpl. now rewrite insertBy_perm, IH.
Qed.

Lemma length_sortBy {A} (key : A -> string) (l : list A) :
  length (sortBy key l) = length l.
Proof. apply Permutation_length, sortBy_perm. Qed.

(** The [WHERE] clause of the paged query. *)
Lemma selects_pagedQuery registryIds query limit offset c :
  selects (pagedQuery registryIds query limit offset) c =
  withinRegistries registryIds c
  && match suppliedQuery query with
     | Some q => fuzzy q c
     | None => true
     end.
Proof.
  unfold pagedQuery, withinRegistries, selects.
  destruct (suppliedIds registryIds), (suppliedQuery query); simpl;
    unfold holds; simpl; rewrite ?orb_false_r, ?andb_true_r; reflexivity.
Qed.

(** The [WHERE] clause of the count query. *)
Lemma selects_countQuery registryIds query c :
  selects (countQuery registryIds query) c =
  withinRegistries registryIds c
  && match suppliedQuery query with
     | Some q => fuzzy q c
     | None => true
     end.
Proof.
  unfold countQuery, withinRegistries, selects.
  destruct (suppliedIds registryIds), (suppliedQuery query); simpl;
    unfold holds; simpl; rewrite ?orb_false_r, ?andb_true_r; reflexivity.
Qed.

Lemma filter_map_ext {A B} (f g : A -> B) (p : B -> bool) (l : list A) :
  (forall x, p (f x) = p (g x)) ->
  length (filter (fun y => p y) (map f l)) =
  length (filter (fun y => p y) (map g l)).
Proof.
  intros H. induction l as [|x l IH]; [reflexivity|].
  simpl. rewrite !filter_cons, H.
  destruct (decide (p (g x))); simpl; now rewrite IH.
Qed.

Lemma selects_unpaged {R} (qb : SelectQueryBuilder R) (row : R) :
  selects (unpaged qb) row = selects qb row.
Proof. reflexivity. Qed.

(** The count query and the paged query select the same rows. *)
Lemma selects_same registryIds query limit offset c :
  selects (countQuery registryIds query) c =
  selects (pagedQuery registryIds query limit offset) c.
Proof. now rewrite selects_countQuery, selects_pagedQuery. Qed.

Lemma length_filter_ext {A} (p q : A -> bool) (l : list A) :
  (forall x, p x = q x) ->
  length (filter (fun x => p x) l) = length (filter (fun x => q x) l).
Proof.
  intros H. induction l as [|x l IH]; [reflexivity|].
  rewrite !filter_cons, H.
  destruct (decide (q x)); simpl; now rewrite IH.
Qed.

(** The count query counts the rows of the unpaged fetch. *)
Lemma getCount_unpagedFetch s registryIds query :
  getCount (countQuery registryIds query) (map bare (componentRows s)) =
  Z.of_nat (length (unpagedFetch s registryIds query)).
Proof.
  unfold getCount, unpagedFetch, getMany, page, sorted. simpl.
  f_equal. rewrite length_sortBy.
  rewrite (filter_map_ext (joinBoth s) bare
             (selects (unpaged (pagedQuery registryIds query 0 0)))).
  - apply length_filter_ext. intros x.
    now rewrite selects_unpaged, <- (selects_same registryIds query 0 0).
  - intros x. rewrite !selects_unpaged, !selects_pagedQuery. reflexivity.
Qed.

Lemma filter_none {A} (p : A -> bool) (l : list A) :
  (forall x, x ∈ l -> p x = false) -> filter (fun x => p x) l = [].
Proof.
  induction l as [|x l IH]; intros H; [reflexivity|].
  rewrite filter_cons, (H x) by apply list_elem_of_here. simpl.
  apply IH. intros y Hy. apply H. now apply list_elem_of_further.
Qed.

Lemma elem_of_unique (x : Z) (ids : list Z) : x ∈ unique ids <-> x ∈ ids.
Proof.
  induction ids as [|i ids IH]; simpl; [reflexivity|].
  rewrite !elem_of_cons, list_elem_of_filter, IH.
  destruct (decide (x = i)); intuition congruence.
Qed.

(** The [Map] built from the registries keeps, for each id, the last
    registry that carries it. *)
Lemma registryMap_lookup_from (m : gmap Z UIRegistry.t)
  (registries : list UIRegistry.t) (k : Z) :
  foldl (fun m r => <[UIRegistry.id r := r]> m) m registries !! k =
  match last (filter (fun r => UIRegistry.id r = k) registries) with
  | Some r => Some r
  | None => m !! k
  end.
Proof.
  revert m. induction registries as [|x l IH]; intros m; [reflexivity|].
  simpl. rewrite IH, filter_cons.
  destruct (decide (UIRegistry.id x = k)) as [Hk|Hk].
  - rewrite last_cons.
    destruct (last (filter (fun r => UIRegistry.id r = k) l)); [reflexivity|].
    rewrite <- Hk. apply lookup_insert_eq.
  - destruct (last (filter (fun r => UIRegistry.id r = k) l)); [reflexivity|].
    now apply lookup_insert_ne.
Qed.

Lemma registryMapOf_lookup (registries : list UIRegistry.t) (k : Z) :
  registryMapOf registries !! k =
  last (filter (fun r => UIRegistry.id r = k) registries).
Proof.
  unfold registryMapOf. rewrite registryMap_lookup_from.
  now destruct (last _).
Qed.

Lemma filter_id_within (ids : list Z) (k : Z) (rows : list UIRegistry.t) :
  k ∈ ids ->
  filter (fun r => UIRegistry.id r = k)
         (filter (fun r => IN (UIRegistry.id r) ids) rows) =
  filter (fun r => UIRegistry.id r = k) rows.
Proof.
  intros Hk. induction rows as [|x l IH]; [reflexivity|].
  rewrite (filter_cons _ x l).
  destruct (decide (IN (UIRegistry.id x) ids)) as [Hin|Hin].
  - rewrite !filter_cons.
    destruct (decide (UIRegistry.id x = k)); now rewrite IH.
  - rewrite IH, filter_cons.
    destruct (decide (UIRegistry.id x = k)) as [Hx|Hx]; [|reflexivity].
    exfalso. apply Hin. unfold IN. apply bool_decide_pack. now rewrite Hx.
Qed.

(** The backfill, when the store answers the lookup: every component is
    kept, and one without a registry receives the row kept for its id. *)
Lemma attachRegistries_answered (components : list UIComponent.t) (w : World) :
  failure (store w) (ui_registry, Find) = None ->
  attachRegistries components w =
  (Return (map (backfilled (store w)) components),
   if Nat.ltb 0 (length (filter (fun c => lacksRegistry c) components))
   then issue (ui_registry, Find) w else w).
Proof.
  intros Hfind. unfold attachRegistries.
  destruct (Nat.ltb 0 (length (filter (fun c => lacksRegistry c) components)))
    eqn:Hany.
  - unfold mbind, Async_bind, await. rewrite Hfind.
    unfold mret, Async_ret. f_equal. f_equal.
    apply map_ext_in. intros c Hc. unfold backfilled.
    destruct (lacksRegistry c) eqn:Hlacks; [|reflexivity].
    f_equal. rewrite registryMapOf_lookup. unfold keptRegistry.
    f_equal. apply filter_id_within.
    apply elem_of_unique, list_elem_of_fmap.
    exists c. split; [reflexivity|].
    apply list_elem_of_filter. split.
    + now rewrite Hlacks.
    + now apply list_elem_of_In.
  - unfold mret, Async_ret. f_equal. f_equal.
    rewrite <- (map_id components) at 1.
    apply map_ext_in. intros c Hc. unfold backfilled.
    destruct (lacksRegistry c) eqn:Hlacks; [|reflexivity].
    exfalso. apply Nat.ltb_ge in Hany.
    assert (Hin : c ∈ filter (fun c => lacksRegistry c) components).
    { apply list_elem_of_filter. split; [now rewrite Hlacks|].
      now apply list_elem_of_In. }
    destruct (filter (fun c => lacksRegistry c) components);
      [inversion Hin | simpl in Hany; lia].
Qed.

Lemma head_filter_Some {A} (P : A -> Prop) `{forall x, Decision (P x)}
  (l : list A) (x : A) :
  head (filter P l) = Some x -> x ∈ l /\ P x.
Proof.
  intros Hhead.
  assert (Hin : x ∈ filter P l).
  { destruct (filter P l) as [|y rest]; [discriminate|].
    injection Hhead as ->. apply list_elem_of_here. }
  apply list_elem_of_filter in Hin. tauto.
Qed.

End StoreFacts.

(** ** Page windows *)

Section Windows.
Import Str Sql RegistryService Reference.

Lemma window_sublist {A} (taken skipped : option Z) (l : list A) :
  window taken skipped l `sublist_of` l.
Proof.
  unfold window.
  assert (Hdrop : match skipped with
                  | Some n => drop (Z.to_nat n) l
                  | None => l
                  end `sublist_of` l)
    by (destruct skipped; [apply sublist_drop | reflexivity]).
  destruct taken as [n|]; [|exact Hdrop].
  destruct (n =? 0); [exact Hdrop|].
  etransitivity; [apply sublist_take | exact Hdrop].
Qed.

(** A window from the start that is as long as the list holds the list. *)
Lemma window_all {A} (n : Z) (skipped : option Z) (l : list A) :
  skipped = None \/ skipped = Some 0 ->
  Z.of_nat (length l) <= n ->
  window (Some n) skipped l = l.
Proof.
  intros Hskip Hn. unfold window.
  assert (Hdrop : match skipped with
                  | Some n => drop (Z.to_nat n) l
                  | None => l
                  end = l)
    by (destruct Hskip as [->| ->]; reflexivity).
  rewrite Hdrop. destruct (n =? 0); [reflexivity|]. apply take_ge. lia.
Qed.

(** A window that starts behind the list is empty. *)
Lemma window_behind {A} (taken : option Z) (m : Z) (l : list A) :
  Z.of_nat (length l) <= m -> window taken (Some m) l = [].
Proof.
  intros Hm. unfold window. rewrite drop_ge by lia.
  destruct taken as [n|]; [|reflexivity].
  destruct (n =? 0); [reflexivity | apply take_nil].
Qed.

(** A window from the start with a limit above zero holds that many rows,
    or all of them. *)
Lemma length_window_first {A} (n : Z) (skipped : option Z) (l : list A) :
  0 < n -> skipped = None \/ skipped = Some 0 ->
  length (window (Some n) skipped l) = Nat.min (Z.to_nat n) (length l).
Proof.
  intros Hn Hskip. unfold window.
  assert (Hdrop : match skipped with
                  | Some n => drop (Z.to_nat n) l
                  | None => l
                  end = l)
    by (destruct Hskip as [->| ->]; reflexivity).
  rewrite Hdrop. destruct (Z.eqb_spec n 0); [lia|]. apply length_take.
Qed.

Lemma insertWith_perm {A} (leb : A -> A -> bool) (x : A) (l : list A) :
  insertWith leb x l ≡ₚ x :: l.
Proof.
  induction l as [|y l IH]; simpl; [reflexivity|].
  destruct (leb x y); [reflexivity|].
  rewrite IH. apply Permutation_swap.
Qed.

Lemma sortWith_perm {A} (leb : A -> A -> bool) (l : list A) :
  sortWith leb l ≡ₚ l.
Proof.
  induction l as [|x l IH]; [reflexivity|].
  unfold sortWith in *. simpl. now rewrite insertWith_perm, IH.
Qed.

Lemma sorted_perm {R} (qb : SelectQueryBuilder R) (l : list R) :
  sorted qb l ≡ₚ l.
Proof. unfold sorted. destruct (ordering qb); [apply sortBy_perm | reflexivity]. Qed.

Lemma length_remove_dups `{EqDecision A} (l : list A) :
  (length (remove_dups l) <= length l)%nat.
Proof.
  induction l as [|x l IH]; simpl; [lia|].
  destruct (decide_rel elem_of x l); simpl; lia.
Qed.

Lemma length_flat_map_le {A B} (f : A -> list B) (m : nat) (l : list A) :
  (forall x, x ∈ l -> (length (f x) <= m)%nat) ->
  (length (flat_map f l) <= length l * m)%nat.
Proof.
  induction l as [|x l IH]; intros Hall; simpl; [lia|].
  rewrite length_app.
  pose proof (Hall x (list_elem_of_here _ _)).
  assert (length (flat_map f l) <= length l * m)%nat
    by (apply IH; intros y Hy; apply Hall; now apply list_elem_of_further).
  lia.
Qed.

Lemma length_pageRowsOf {R} (ident : R -> Z) (key : R -> string)
  (related : R -> list string) (row : R) :
  length (pageRowsOf ident key related row) = Nat.max 1 (length (related row)).
Proof.
  unfold pageRowsOf. destruct (related row) as [|name names]; [reflexivity|].
  rewrite length_map. simpl. lia.
Qed.

(** Every entity has a row in the first query, and the rows of an entity
    carry its id. *)
Lemma pageRowsOf_some {R} (ident : R -> Z) (key : R -> string)
  (related : R -> list string) (row : R) :
  exists t, t ∈ pageRowsOf ident key related row /\ t.1.1 = ident row.
Proof.
  unfold pageRowsOf. destruct (related row) as [|name names].
  - eexists. split; [apply list_elem_of_here | reflexivity].
  - eexists. split; [apply list_elem_of_here | reflexivity].
Qed.

Lemma filter_true_on {A} (p : A -> bool) (l : list A) :
  (forall x, x ∈ l -> p x = true) -> filter (fun x => p x) l = l.
Proof.
  induction l as [|x l IH]; intros Hall; [reflexivity|].
  rewrite filter_cons, (Hall x) by apply list_elem_of_here. simpl.
  f_equal. apply IH. intros y Hy. apply Hall. now apply list_elem_of_further.
Qed.

(** The number of rows of the first query. *)
Lemma length_pageRows {R} (ident : R -> Z) (key : R -> string)
  (related : R -> list string) (selected : list R) (bound : nat) :
  (forall row, row ∈ selected -> (length (related row) <= bound)%nat) ->
  (length (sortWith pageRowLeb
             (remove_dups (flat_map (pageRowsOf ident key related) selected)))
   <= length selected * (1 + bound))%nat.
Proof.
  intros Hbound.
  rewrite (Permutation_length (sortWith_perm _ _)).
  etransitivity; [apply length_remove_dups|].
  apply length_flat_map_le. intros row Hrow.
  rewrite length_pageRowsOf. pose proof (Hbound row Hrow). lia.
Qed.

(** What the joined fetch returns is selected by the [WHERE] clause, and
    no row comes more often than the table holds it. *)
Lemma getManyJoined_submseteq {R} (ident : R -> Z) (related : R -> list string)
  (qb : SelectQueryBuilder R) (rows : list R) :
  getManyJoined ident related qb rows ⊆+ filter (fun row => selects qb row) rows.
Proof.
  unfold getManyJoined.
  destruct (truthyCount (taken qb) || truthyCount (skipped qb)).
  - etransitivity; [apply sublist_submseteq, sublist_filter|].
    now rewrite sorted_perm.
  - now rewrite sorted_perm.
Qed.

Lemma elem_of_getManyJoined {R} (ident : R -> Z) (related : R -> list string)
  (qb : SelectQueryBuilder R) (rows : list R) (x : R) :
  x ∈ getManyJoined ident related qb rows -> x ∈ rows /\ selects qb x = true.
Proof.
  intros Hx.
  pose proof (elem_of_submseteq _ _ _ Hx
                (getManyJoined_submseteq ident related qb rows)) as Hin.
  apply list_elem_of_filter in Hin as [Hsel Hin].
  split; [exact Hin | now apply Is_true_true].
Qed.

(** With a limit that no page of the join exceeds, and no offset, the
    joined fetch returns every selected entity. *)
Lemma getManyJoined_full {R} (ident : R -> Z) (related : R -> list string)
  (qb : SelectQueryBuilder R) (rows : list R) (n : Z) (bound : nat) :
  taken qb = Some n ->
  skipped qb = None \/ skipped qb = Some 0 ->
  (forall row, row ∈ rows -> (length (related row) <= bound)%nat) ->
  Z.of_nat (length rows * (1 + bound)) <= n ->
  getManyJoined ident related qb rows =
  sorted qb (filter (fun row => selects qb row) rows).
Proof.
  intros Htake Hskip Hbound Hn. unfold getManyJoined.
  destruct (truthyCount (taken qb) || truthyCount (skipped qb)); [|reflexivity].
  set (selected := sorted qb (filter (fun row => selects qb row) rows)).
  assert (Hselected : forall row, row ∈ selected -> row ∈ rows).
  { intros row Hrow. subst selected. rewrite sorted_perm in Hrow.
    now apply list_elem_of_filter in Hrow as [_ Hrow]. }
  assert (Hlength : (length selected <= length rows)%nat).
  { subst selected. rewrite (Permutation_length (sorted_perm _ _)).
    apply sublist_length, sublist_filter. }
  apply filter_true_on. intros row Hrow. unfold IN. apply bool_decide_eq_true.
  unfold pageIds. rewrite Htake.
  rewrite window_all; [|exact Hskip|].
  - destruct (pageRowsOf_some ident
                (default (fun _ : R => EmptyString) (ordering qb)) related row)
      as [t [Ht Hid]].
    apply list_elem_of_fmap. exists t. split; [now symmetry|].
    rewrite sortWith_perm. apply elem_of_remove_dups.
    apply list_elem_of_In, in_flat_map. exists row.
    split; apply list_elem_of_In; assumption.
  - pose proof (length_pageRows ident
                  (default (fun _ : R => EmptyString) (ordering qb))
                  related selected bound
                  (fun row Hrow => Hbound row (Hselected row Hrow))) as Hrows.
    nia.
Qed.

(** With an offset that no page of the join reaches, the joined fetch
    returns nothing. *)
Lemma getManyJoined_behind {R} (ident : R -> Z) (related : R -> list string)
  (qb : SelectQueryBuilder R) (rows : list R) (m : Z) (bound : nat) :
  skipped qb = Some m ->
  (forall row, row ∈ rows -> (length (related row) <= bound)%nat) ->
  Z.of_nat (length rows * (1 + bound)) <= m ->
  getManyJoined ident related qb rows = [].
Proof.
  intros Hskip Hbound Hm. unfold getManyJoined.
  set (selected := sorted qb (filter (fun row => selects qb row) rows)).
  assert (Hselected : forall row, row ∈ selected -> row ∈ rows).
  { intros row Hrow. subst selected. rewrite sorted_perm in Hrow.
    now apply list_elem_of_filter in Hrow as [_ Hrow]. }
  assert (Hlength : (length selected <= length rows)%nat).
  { subst selected. rewrite (Permutation_length (sorted_perm _ _)).
    apply sublist_length, sublist_filter. }
  destruct (truthyCount (taken qb) || truthyCount (skipped qb)) eqn:Hwindowed.
  - unfold pageIds. rewrite Hskip, window_behind.
    + apply filter_none. intros row _. unfold IN.
      apply bool_decide_eq_false. apply not_elem_of_nil.
    + pose proof (length_pageRows ident
                    (default (fun _ : R => EmptyString) (ordering qb))
                    related selected bound
                    (fun row Hrow => Hbound row (Hselected row Hrow))) as Hrows.
      nia.
  - rewrite Hskip in Hwindowed. apply orb_false_iff in Hwindowed as [_ Hzero].
    simpl in Hzero. apply negb_false_iff, Z.eqb_eq in Hzero. subst m.
    destruct selected as [|row selected']; [reflexivity|].
    simpl in Hlength. nia.
Qed.

(** Two builders that select the same rows, in the same order and window,
    give the same joined fetch. *)
Lemma getManyJoined_ext {R} (ident : R -> Z) (related : R -> list string)
  (qb qb' : SelectQueryBuilder R) (rows : list R) :
  (forall row, selects qb row = selects qb' row) ->
  ordering qb = ordering qb' -> taken qb = taken qb' ->
  skipped qb = skipped qb' ->
  getManyJoined ident related qb rows = getManyJoined ident related qb' rows.
Proof.
  intros Hsel Hord Htake Hskip. unfold getManyJoined, pageIds, sorted.
  rewrite Hord, Htake, Hskip.
  now rewrite (list_filter_iff (fun row => selects qb row)
                 (fun row => selects qb' row))
    by (intros row; now rewrite Hsel).
Qed.

(** No component has more example names than the store has examples. *)
Lemma length_exampleNames (s : Store) (row : UIComponent.t) :
  (length (exampleNames (joinBoth s row)) <= length (exampleRows s))%nat.
Proof.
  unfold exampleNames, joinBoth, joinExamples. destruct row. simpl.
  rewrite length_map. unfold examplesOf. rewrite length_sortBy.
  apply sublist_length, sublist_filter.
Qed.

End Windows.

(** ** Running the searches *)

Section SearchFacts.
Import Str Sql RegistryService Reference.

Lemma await_answered {A} (q : Query) (answer : Store -> A) (w : World) :
  failure (store w) q = None ->
  await q answer w = (Return (answer (store w)), issue q w).
Proof. intros H. unfold await. now rewrite H. Qed.

(** The lookup of the registries that the identifiers name. *)
Lemma lookup_getMany (cleanNames : list string) (rows : list UIRegistry.t) :
  getMany (andWhere [fun r => IN (UIRegistry.name r) cleanNames;
                     fun r => IN (UIRegistry.slug r) cleanNames]
             createQueryBuilder) rows =
  filter (fun r => nameOrSlugIn cleanNames r) rows.
Proof.
  unfold getMany, page, sorted. simpl.
  apply list_filter_iff. intros r.
  unfold selects, nameOrSlugIn, holds. simpl. now rewrite orb_false_r.
Qed.

(** The backfill and the count on a healthy store, for the components
    that the paged fetch returned. *)
Lemma afterFetch_healthy registryIds query limit offset
  (components : list UIComponent.t) (w : World) :
  healthy (store w) ->
  exists w',
    afterFetch registryIds query limit offset components w =
    (Return
       {| SearchResult.items :=
            map formatComponent (map (backfilled (store w)) components);
          SearchResult.totalCount :=
            Z.of_nat (length (unpagedFetch (store w) registryIds query));
          SearchResult.hasMore :=
            offset + limit
            <? Z.of_nat (length (unpagedFetch (store w) registryIds query));
          SearchResult.limit := limit;
          SearchResult.offset := offset |}, w')
    /\ store w' = store w
    /\ (ui_component, GetCount) ∈ issued w'
    /\ issued w' =
       (issued w
        ++ (if Nat.ltb 0 (length (filter (fun c => lacksRegistry c) components))
            then [(ui_registry, Find)] else [])
        ++ [(ui_component, GetCount)])%list.
Proof.
  intros Hs. unfold afterFetch.
  unfold mbind at 1. unfold Async_bind.
  rewrite attachRegistries_answered by apply Hs.
  set (w1 := if Nat.ltb 0 _ then _ else _).
  assert (Hw1 : store w1 = store w) by (subst w1; now destruct (Nat.ltb 0 _)).
  unfold mbind, Async_bind.
  rewrite await_answered by (rewrite Hw1; apply Hs).
  rewrite Hw1, getCount_unpagedFetch.
  exists (issue (ui_component, GetCount) w1). split; [reflexivity|].
  split; [exact Hw1|]. split.
  - simpl. apply elem_of_app. right. apply list_elem_of_singleton. reflexivity.
  - subst w1. destruct (Nat.ltb 0 _); simpl; now rewrite <- ?app_assoc.
Qed.

(** The paged fetch, the backfill and the count on a healthy store. *)
Lemma fetchAndCount_healthy registryIds query limit offset (w : World) :
  healthy (store w) ->
  exists w',
    fetchAndCount registryIds query limit offset w =
    (Return
       {| SearchResult.items :=
            map formatComponent
              (map (backfilled (store w))
                   (pagedFetch (store w) registryIds query limit offset));
          SearchResult.totalCount :=
            Z.of_nat (length (unpagedFetch (store w) registryIds query));
          SearchResult.hasMore :=
            offset + limit
            <? Z.of_nat (length (unpagedFetch (store w) registryIds query));
          SearchResult.limit := limit;
          SearchResult.offset := offset |}, w')
    /\ store w' = store w
    /\ (ui_component, GetCount) ∈ issued w'.
Proof.
  intros Hs. unfold fetchAndCount.
  unfold mbind at 1. unfold Async_bind.
  rewrite (await_answered _ _ _ (Hs _)).
  destruct (afterFetch_healthy registryIds query limit offset
              (pagedFetch (store w) registryIds query limit offset)
              (issue (ui_component, GetMany) w) Hs)
    as [w' [Hrun [Hstore [Hcount _]]]].
  exists w'. split; [exact Hrun|]. split; [exact Hstore | exact Hcount].
Qed.

(** What the registry lookup of [searchComponents] returns. *)
Lemma resolvedIds_supplied s registryNames names :
  suppliedNames registryNames = Some names ->
  resolvedIds s registryNames =
  Some (map UIRegistry.id
          (filter (fun r => nameOrSlugIn (cleanNamesOf names) r) (registryRows s))).
Proof. intros H. unfold resolvedIds. now rewrite H. Qed.

Lemma length_zero_nil {A} (l : list A) : Nat.eqb (length l) 0 = true <-> l = [].
Proof. destruct l; simpl; split; congruence. Qed.

(** [searchComponents] on a healthy store: the short circuit when the
    identifiers resolve to nothing, the full path otherwise. *)
Lemma searchComponents_healthy registryNames query limit offset (w : World) :
  healthy (store w) ->
  let l := default 50 limit in
  let o := default 0 offset in
  let ids := resolvedIds (store w) registryNames in
  (ids = Some [] /\
   searchComponents registryNames query limit offset w =
   (Return {| SearchResult.items := []; SearchResult.totalCount := 0;
              SearchResult.hasMore := false;
              SearchResult.limit := l; SearchResult.offset := o |},
    issue (ui_registry, GetMany) w))
  \/
  (ids <> Some [] /\
   exists w',
     searchComponents registryNames query limit offset w =
     (Return
        {| SearchResult.items :=
             map formatComponent
               (map (backfilled (store w)) (pagedFetch (store w) ids query l o));
           SearchResult.totalCount :=
             Z.of_nat (length (unpagedFetch (store w) ids query));
           SearchResult.hasMore :=
             o + l <? Z.of_nat (length (unpagedFetch (store w) ids query));
           SearchResult.limit := l;
           SearchResult.offset := o |}, w')
     /\ store w' = store w
     /\ (ui_component, GetCount) ∈ issued w').
Proof.
  intros Hs l o ids. subst ids. unfold searchComponents, tryCatch. fold l o.
  destruct (suppliedNames registryNames) as [names|] eqn:Hnames.
  - rewrite (resolvedIds_supplied _ _ _ Hnames).
    unfold mbind, Async_bind.
    rewrite !(await_answered _ _ _ (Hs _)), !lookup_getMany.
    set (found := filter _ (registryRows (store w))).
    destruct (Nat.eqb (length (map UIRegistry.id found)) 0) eqn:Hnone.
    + left. apply length_zero_nil in Hnone. rewrite Hnone. now split.
    + right. split.
      { intros [= Hnil]. rewrite Hnil in Hnone. discriminate. }
      destruct (fetchAndCount_healthy (Some (map UIRegistry.id found)) query l o
                  (issue (ui_registry, GetMany) w) Hs)
        as [w' [Hrun [Hstore Hcount]]].
      exists w'. rewrite Hrun. now repeat split.
  - right. unfold resolvedIds. rewrite Hnames. split; [discriminate|].
    destruct (fetchAndCount_healthy None query l o w Hs)
      as [w' [Hrun [Hstore Hcount]]].
    exists w'. rewrite Hrun. now repeat split.
Qed.

End SearchFacts.

(** ** Pagination of the component search *)

Section Pagination.
Import Str Sql RegistryService Reference.

(** C1, as the specification states it, fails on the short circuit: with
    identifiers that resolve to no registry and a negative page window,
    [hasMore] is [false] although [offset + limit < totalCount]. *)
Lemma searchComponents_hasMore_short_circuit :
  exists r w',
    searchComponents (Some ["@nope"]) None (Some (-5)) (Some 0)
      (start Sample.shop) = (Return r, w')
    /\ SearchResult.hasMore r = false
    /\ (SearchResult.offset r + SearchResult.limit r
        <? SearchResult.totalCount r) = true.
Proof.
  eexists. eexists. split; [vm_compute; reflexivity|].
  split; reflexivity.
Qed.

(** C1 (amended).  On a store that answers, [searchComponents] returns a
    result that echoes the limit and the offset.  When identifiers are
    supplied and resolve to no registry, [totalCount] is 0, [hasMore] is
    [false] and the registry lookup is the only query.  Otherwise
    [totalCount] comes from the count query, whose [WHERE] clause selects
    the rows that the paged query selects, it is the number of rows of
    the fetch without its page window, and
    [hasMore = (offset + limit < totalCount)].  That equation holds in
    both cases when [offset + limit] is not negative. *)
Theorem searchComponents_pagination (s : Store)
  (registryNames : option (list string)) (query : option string)
  (limit offset : option Z) :
  healthy s ->
  exists r w',
    searchComponents registryNames query limit offset (start s) = (Return r, w')
    /\ SearchResult.limit r = default 50 limit
    /\ SearchResult.offset r = default 0 offset
    /\ (resolvedIds s registryNames = Some [] ->
        SearchResult.totalCount r = 0
        /\ SearchResult.hasMore r = false
        /\ issued w' = [(ui_registry, GetMany)])
    /\ (resolvedIds s registryNames <> Some [] ->
        (ui_component, GetCount) ∈ issued w'
        /\ (forall c,
              selects (countQuery (resolvedIds s registryNames) query) c =
              selects (pagedQuery (resolvedIds s registryNames) query
                         (default 50 limit) (default 0 offset)) c)
        /\ SearchResult.totalCount r =
           Z.of_nat (length (unpagedFetch s (resolvedIds s registryNames) query))
        /\ SearchResult.hasMore r =
           (default 0 offset + default 50 limit <? SearchResult.totalCount r))
    /\ (0 <= default 0 offset + default 50 limit ->
        SearchResult.hasMore r =
        (default 0 offset + default 50 limit <? SearchResult.totalCount r)).
Proof.
  intros Hs.
  destruct (searchComponents_healthy registryNames query limit offset (start s) Hs)
    as [[Hids Hrun]|[Hids [w' [Hrun [Hstore Hcount]]]]]; simpl in Hids, Hrun.
  - eexists. eexists. split; [exact Hrun|]. simpl.
    split; [reflexivity|]. split; [reflexivity|]. split; [|split].
    + intros _. now repeat split.
    + intros H. now destruct H.
    + intros Hwindow. symmetry. apply Z.ltb_ge. exact Hwindow.
  - eexists. eexists. split; [exact Hrun|]. simpl.
    split; [reflexivity|]. split; [reflexivity|]. split; [|split].
    + intros H. now destruct Hids.
    + intros _. split; [exact Hcount|]. split; [|now split].
      intros c. apply selects_same.
    + intros _. reflexivity.
Qed.

Lemma searchComponents_pagination_witness :
  exists r w',
    searchComponents (Some ["@shadcn"]) (Some "but") (Some 1) None
      (start Sample.shop) = (Return r, w')
    /\ SearchResult.limit r = 1.
Proof.
  destruct (searchComponents_pagination Sample.shop (Some ["@shadcn"])
              (Some "but") (Some 1) None (fun q => eq_refl))
    as [r [w' [Hrun [Hlimit _]]]].
  exists r, w'. split; [exact Hrun | exact Hlimit].
Defined.

(** C2.  When identifiers are supplied and none of them, once a leading
    [@] is removed, is the name or the slug of a stored registry, and the
    store answers the registry lookup, [searchComponents] returns the
    empty result with the limit and the offset of the call (or their
    defaults), throws nothing, and issues the registry lookup and no other
    query: no count query. *)
Theorem searchComponents_no_registry (s : Store) (log : list Query)
  (name : string) (names : list string) (query : option string)
  (limit offset : option Z) :
  (forall r n, r ∈ registryRows s -> n ∈ name :: names ->
     replaceLeadingAt n <> UIRegistry.name r
     /\ replaceLeadingAt n <> UIRegistry.slug r) ->
  failure s (ui_registry, GetMany) = None ->
  searchComponents (Some (name :: names)) query limit offset
    {| store := s; issued := log |} =
  (Return {| SearchResult.items := [];
             SearchResult.totalCount := 0;
             SearchResult.hasMore := false;
             SearchResult.limit := default 50 limit;
             SearchResult.offset := default 0 offset |},
   {| store := s; issued := log ++ [(ui_registry, GetMany)] |}).
Proof.
  intros Hnone Hlookup. unfold searchComponents, tryCatch.
  change (suppliedNames (Some (name :: names))) with (Some (name :: names)).
  cbv beta iota zeta. unfold mbind, Async_bind.
  rewrite await_answered by exact Hlookup.
  rewrite lookup_getMany. unfold issue. cbn [store issued].
  assert (Hempty : filter (fun r => nameOrSlugIn (cleanNamesOf (name :: names)) r)
                          (registryRows s) = []).
  { apply filter_none. intros r Hr.
    unfold nameOrSlugIn, IN, cleanNamesOf.
    apply orb_false_iff. split; apply bool_decide_eq_false;
      intros Hin; apply list_elem_of_fmap in Hin as [n [Heq Hn]];
      destruct (Hnone r n Hr Hn) as [H1 H2]; congruence. }
  rewrite Hempty. reflexivity.
Qed.

Lemma searchComponents_no_registry_witness :
  searchComponents (Some ["@mui"]) (Some "button") (Some 10) (Some 20)
    (start Sample.shop) =
  (Return {| SearchResult.items := [];
             SearchResult.totalCount := 0;
             SearchResult.hasMore := false;
             SearchResult.limit := 10;
             SearchResult.offset := 20 |},
   {| store := Sample.shop; issued := [(ui_registry, GetMany)] |}).
Proof.
  apply (searchComponents_no_registry Sample.shop [] "@mui" []
           (Some "button") (Some 10) (Some 20)).
  - intros r n Hr Hn. apply list_elem_of_singleton in Hn as ->.
    apply elem_of_cons in Hr as [->|Hr];
      [split; intros H; vm_compute in H; discriminate|].
    apply elem_of_cons in Hr as [->|Hr];
      [split; intros H; vm_compute in H; discriminate|].
    inversion Hr.
  - reflexivity.
Defined.

(** Scenario B of the specification: no registry is named or slugged
    [antd]. *)
Example scenario_B :
  exists w',
    searchComponents (Some ["@antd"]) None None None (start Sample.empty) =
    (Return {| SearchResult.items := [];
               SearchResult.totalCount := 0;
               SearchResult.hasMore := false;
               SearchResult.limit := 50;
               SearchResult.offset := 0 |}, w').
Proof. eexists. vm_compute. reflexivity. Qed.

(** Scenario D of the specification: the second of three components in
    the order of their names, and more to come. *)
Example scenario_D :
  exists r w',
    searchComponents None None (Some 1) (Some 1) (start Sample.shop)
    = (Return r, w')
    /\ map ci_name (SearchResult.items r) = ["Button"]
    /\ SearchResult.totalCount r = 3
    /\ SearchResult.hasMore r = true.
Proof. eexists. eexists. split; [vm_compute; reflexivity|]. now repeat split. Qed.

End Pagination.

(** ** The backfill of the registry relation *)

Section Backfill.
Import Str Sql RegistryService Reference.

Lemma keptRegistry_Some (s : Store) (k : Z) (r : UIRegistry.t) :
  keptRegistry s k = Some r -> r ∈ registryRows s /\ UIRegistry.id r = k.
Proof.
  unfold keptRegistry. intros H.
  apply last_Some_elem_of, list_elem_of_filter in H as [Hid Hin].
  now split.
Qed.

Lemma keptRegistry_found (s : Store) (k : Z) (r : UIRegistry.t) :
  r ∈ registryRows s -> UIRegistry.id r = k -> is_Some (keptRegistry s k).
Proof.
  intros Hin Hid. unfold keptRegistry. apply last_is_Some.
  intros Hnil.
  assert (H : r ∈ filter (fun r => UIRegistry.id r = k) (registryRows s))
    by (apply list_elem_of_filter; now split).
  rewrite Hnil in H. inversion H.
Qed.

Lemma some_lack_registry (components : list UIComponent.t) (c : UIComponent.t) :
  c ∈ components -> lacksRegistry c = true ->
  Nat.ltb 0 (length (filter (fun c => lacksRegistry c) components)) = true.
Proof.
  intros Hin Hlacks. apply Nat.ltb_lt.
  assert (H : c ∈ filter (fun c => lacksRegistry c) components).
  { apply list_elem_of_filter. split; [now rewrite Hlacks | exact Hin]. }
  destruct (filter (fun c => lacksRegistry c) components);
    [inversion H | simpl; lia].
Qed.

(** On the sample store the component that points to a registry that is
    gone is returned, with empty registry fields. *)
Example dangling_component_is_listed :
  exists r w',
    searchComponents None (Some "alert") None None (start Sample.shop)
    = (Return r, w')
    /\ map (fun item => (ci_name item, registryName item, registrySlug item,
                         addCommandArgument item))
           (SearchResult.items r)
       = [("Alert", EmptyString, EmptyString, "alert")]
    /\ issued w' = [(ui_component, GetMany); (ui_registry, Find);
                    (ui_component, GetCount)].
Proof. eexists. eexists. split; [vm_compute; reflexivity|]. now split. Qed.

(** When the fetch leaves the registry of a component out, the lookup by
    [registryId] brings it back. *)
Example skipped_registry_is_backfilled :
  map (fun c => (UIComponent.name c, UIComponent.registry c))
      (pagedFetch Sample.partial None (Some "button") 50 0)
  = [("Button", None)]
  /\ exists r w',
       searchComponents None (Some "button") None None (start Sample.partial)
       = (Return r, w')
       /\ map (fun item => (ci_name item, registryName item, registrySlug item,
                            addCommandArgument item))
              (SearchResult.items r)
          = [("Button", "shadcn/ui", "shadcn", "@shadcn/button")]
       /\ issued w' = [(ui_component, GetMany); (ui_registry, Find);
                       (ui_component, GetCount)].
Proof.
  split; [vm_compute; reflexivity|].
  eexists. eexists. split; [vm_compute; reflexivity|]. now split.
Qed.

(** The [WHERE] clause of the search does not look at the joined
    relations. *)
Lemma selects_joinBoth (s : Store) registryIds query limit offset
  (row : UIComponent.t) :
  selects (pagedQuery registryIds query limit offset) (joinBoth s row)
  = selects (countQuery registryIds query) row.
Proof. now rewrite selects_pagedQuery, selects_countQuery. Qed.

(** Every component of the paged fetch is a row of the table that the
    [WHERE] clause selects, with its relations. *)
Lemma elem_of_pagedFetch (s : Store) registryIds query limit offset
  (c : UIComponent.t) :
  c ∈ pagedFetch s registryIds query limit offset ->
  exists row, row ∈ componentRows s /\ c = joinBoth s row
              /\ selects (countQuery registryIds query) row = true.
Proof.
  intros Hc. apply elem_of_getManyJoined in Hc as [Hin Hsel].
  apply list_elem_of_fmap in Hin as [row [-> Hrow]].
  exists row. split; [exact Hrow|]. split; [reflexivity|].
  now rewrite selects_joinBoth in Hsel.
Qed.

(** With a limit that no page of the join exceeds and no offset, the paged
    fetch is the fetch without a window. *)
Lemma pagedFetch_full (s : Store) registryIds query (limit offset : Z) :
  offset = 0 -> joinBound s <= limit ->
  pagedFetch s registryIds query limit offset = unpagedFetch s registryIds query.
Proof.
  intros -> Hlimit. unfold pagedFetch.
  rewrite (getManyJoined_full _ _ _ _ limit (length (exampleRows s))).
  - unfold unpagedFetch, getMany, page, window, sorted, pagedQuery.
    now destruct (suppliedIds registryIds), (suppliedQuery query).
  - unfold pagedQuery. now destruct (suppliedIds registryIds), (suppliedQuery query).
  - right. unfold pagedQuery.
    now destruct (suppliedIds registryIds), (suppliedQuery query).
  - intros c Hc. apply list_elem_of_fmap in Hc as [row [-> _]].
    apply length_exampleNames.
  - rewrite length_map. exact Hlimit.
Qed.


(** The item of a component after the backfill shows the component and
    its registry. *)
Lemma shows_backfilled (s : Store) (c : UIComponent.t) :
  shows s c (formatComponent (backfilled s c)).
Proof.
  unfold shows, backfilled, lacksRegistry, showsRegistryOf.
  destruct (UIComponent.registry c) as [r|] eqn:Hregistry.
  - unfold formatComponent. cbn. rewrite Hregistry. now repeat split.
  - destruct (Z.eqb_spec (UIComponent.registryId c) 0) as [Hzero|Hset];
      cbn [negb].
    + unfold formatComponent. cbn. rewrite Hregistry. cbn.
      do 4 (split; [reflexivity|]). split; [split|]; [tauto| |]; now intros.
    + do 4 (split; [reflexivity|]).
      change (UIComponent.registryId (UIComponent.withRegistry _ c))
        with (UIComponent.registryId c).
      destruct (keptRegistry s (UIComponent.registryId c)) as [r|] eqn:Hkept.
      * apply keptRegistry_Some in Hkept as [Hin Hid].
        split; [split|].
        -- intros _ _. exists r. now repeat split.
        -- intros Hnone. now destruct (Hnone r Hin).
        -- intros Hzero. now destruct Hset.
      * split; [split|].
        -- intros _ [r [Hin Hid]].
           destruct (keptRegistry_found s _ r Hin Hid) as [r' Hr'].
           congruence.
        -- now intros.
        -- now intros.
Qed.

(** The item of a joined row shows the row. *)
Lemma showsRow_joinBoth (s : Store) (row : UIComponent.t) :
  showsRow s row (formatComponent (backfilled s (joinBoth s row))).
Proof.
  pose proof (shows_backfilled s (joinBoth s row)) as Hshows.
  unfold shows in Hshows. unfold showsRow.
  replace (UIComponent.id (joinBoth s row)) with (UIComponent.id row)
    in Hshows by now destruct row.
  replace (UIComponent.registryId (joinBoth s row))
    with (UIComponent.registryId row) in Hshows by now destruct row.
  replace (UIComponent.slug (joinBoth s row)) with (UIComponent.slug row)
    in Hshows by now destruct row.
  replace (UIComponent.name (joinBoth s row)) with (UIComponent.name row)
    in Hshows by now destruct row.
  destruct Hshows as [Hid [Hregistry [Hslug [Hname Hshown]]]].
  do 4 (split; [assumption|]).
  destruct (UIComponent.registry (joinBoth s row)) as [r|] eqn:Hjoined;
    [|exact (proj1 Hshown)].
  assert (Hof : registryOf s (UIComponent.registryId row) = Some r).
  { destruct row. unfold joinBoth, joinExamples, joinRegistry, bare in Hjoined.
    cbn in Hjoined. now destruct (hydrates s id). }
  unfold registryOf in Hof.
  apply (head_filter_Some
           (fun r => UIRegistry.id r = UIComponent.registryId row))
    in Hof as [Hin Hrid].
  destruct Hshown as [Hn Hs]. split.
  - intros _ _. exists r. now repeat split.
  - intros Hnone. now destruct (Hnone r Hin).
Qed.



End Backfill.

(** ** Formatting and normalisation *)

Section Formatting.
Import Str Sql RegistryService Reference.

(** The command argument of the item of a component, by its registry
    slug. *)
Lemma addCommandArgument_formatComponent (component : UIComponent.t) :
  (registrySlug (formatComponent component) <> EmptyString ->
   addCommandArgument (formatComponent component) =
   "@" +:+ registrySlug (formatComponent component) +:+ "/"
   +:+ UIComponent.slug component)
  /\ (registrySlug (formatComponent component) = EmptyString ->
      addCommandArgument (formatComponent component) = UIComponent.slug component).
Proof.
  unfold formatComponent. cbn.
  destruct (slugOrEmpty (UIComponent.registry component)); cbn;
    split; intros; congruence.
Qed.

Lemma slug_backfilled (s : Store) (c : UIComponent.t) :
  UIComponent.slug (backfilled s c) = UIComponent.slug c.
Proof. unfold backfilled. now destruct (lacksRegistry c). Qed.

Lemma slug_joinBoth (s : Store) (row : UIComponent.t) :
  UIComponent.slug (joinBoth s row) = UIComponent.slug row.
Proof. reflexivity. Qed.

(** C7.  The item that [formatComponent] builds for a component, and the
    item that the examples tool builds for it, carry the slug of the
    component and, as registry slug, the slug of the registry of the
    component, or the empty string when the component has no registry;
    [addCommandArgument] is [@], that registry slug, [/] and the slug of
    the component when the registry slug is not empty, and the slug of the
    component alone when it is empty.  So every item of [searchComponents]
    is the item of a row of the component table, shows the registry of that
    row, and has the command argument made of what it shows. *)
Theorem addCommandArgument_of_item (component : UIComponent.t)
  (examples : list ComponentExample) :
  ci_slug (formatComponent component) = UIComponent.slug component
  /\ registrySlug (formatComponent component) =
     match UIComponent.registry component with
     | Some registry => UIRegistry.slug registry
     | None => EmptyString
     end
  /\ (registrySlug (formatComponent component) <> EmptyString ->
      addCommandArgument (formatComponent component) =
      "@" +:+ registrySlug (formatComponent component) +:+ "/"
      +:+ UIComponent.slug component)
  /\ (registrySlug (formatComponent component) = EmptyString ->
      addCommandArgument (formatComponent component) = UIComponent.slug component)
  /\ ci_slug (Mcp.componentItemOf examples component) = UIComponent.slug component
  /\ registrySlug (Mcp.componentItemOf examples component) =
     registrySlug (formatComponent component)
  /\ addCommandArgument (Mcp.componentItemOf examples component) =
     addCommandArgument (formatComponent component)
  /\ (forall (s : Store) registryNames query limit offset r w',
        healthy s ->
        searchComponents registryNames query limit offset (start s) = (Return r, w') ->
        forall item, item ∈ SearchResult.items r ->
        exists row,
          row ∈ componentRows s /\ showsRow s row item
          /\ (registrySlug item <> EmptyString ->
              addCommandArgument item =
              "@" +:+ registrySlug item +:+ "/" +:+ UIComponent.slug row)
          /\ (registrySlug item = EmptyString ->
              addCommandArgument item = UIComponent.slug row)).
Proof.
  split; [reflexivity|]. split; [reflexivity|].
  split; [apply addCommandArgument_formatComponent|].
  split; [apply addCommandArgument_formatComponent|].
  split; [reflexivity|]. split; [reflexivity|].
  split.
  { unfold formatComponent, Mcp.componentItemOf, slugOrEmpty. cbn.
    now destruct (UIComponent.registry component). }
  intros s registryNames query limit offset r w' Hs Hrun item Hitem.
  destruct (searchComponents_healthy registryNames query limit offset (start s) Hs)
    as [[_ Hrun']|[_ [w'' [Hrun' _]]]]; cbn [start store] in Hrun';
    rewrite Hrun' in Hrun; injection Hrun as <- _;
    cbn [SearchResult.items] in Hitem.
  - now apply elem_of_nil in Hitem.
  - rewrite map_map in Hitem.
    apply list_elem_of_fmap in Hitem as [c [-> Hc]].
    apply elem_of_pagedFetch in Hc as [row [Hrow [-> _]]].
    exists row. split; [exact Hrow|]. split; [apply showsRow_joinBoth|].
    rewrite <- (slug_joinBoth s row), <- (slug_backfilled s (joinBoth s row)).
    apply addCommandArgument_formatComponent.
Qed.

Lemma prefix_cons (a b : ascii) (s1 s2 : string) :
  String.prefix (String a s1) (String b s2) =
  if ascii_dec a b then String.prefix s1 s2 else false.
Proof. reflexivity. Qed.

(** C4, as the specification states it, fails: an identifier that starts
    with two [@] loses one at each normalisation. *)
Lemma replaceLeadingAt_twice_differs :
  replaceLeadingAt (replaceLeadingAt "@@antd") <> replaceLeadingAt "@@antd".
Proof. vm_compute. discriminate. Qed.

(** The tool handler of the examples removes a leading [@] and
    [searchExamples] removes one again: ["@@shadcn"] reaches the registry
    named [shadcn]. *)
Example examples_tool_strips_twice :
  exists items w',
    Mcp.getItemExamplesFromRegistries (Some ["@@shadcn"]) "primary"
      (start Sample.shop) = (Return (Mcp.Examples items "primary"), w')
    /\ map addCommandArgument items = ["@shadcn/button"].
Proof. eexists. eexists. split; [vm_compute; reflexivity | reflexivity]. Qed.

(** C4 (amended).  Removing a leading [@] is idempotent on every
    identifier that does not start with two [@]. *)
Theorem replaceLeadingAt_idempotent (x : string) :
  String.prefix "@@" x = false ->
  replaceLeadingAt (replaceLeadingAt x) = replaceLeadingAt x.
Proof.
  destruct x as [|c x]; [reflexivity|].
  destruct (Ascii.eqb_spec c "@") as [->|Hc].
  - destruct x as [|d x]; [reflexivity|].
    destruct (Ascii.eqb_spec d "@") as [->|Hd].
    + intros H. destruct x; vm_compute in H; discriminate.
    + intros _. apply Ascii.eqb_neq in Hd.
      change (replaceLeadingAt (String "@" (String d x))) with (String d x).
      unfold replaceLeadingAt. now rewrite Hd.
  - intros _. apply Ascii.eqb_neq in Hc.
    assert (H : replaceLeadingAt (String c x) = String c x)
      by (unfold replaceLeadingAt; now rewrite Hc).
    now rewrite !H.
Qed.

Lemma replaceLeadingAt_idempotent_witness :
  replaceLeadingAt (replaceLeadingAt "@shadcn") = replaceLeadingAt "@shadcn".
Proof. apply (replaceLeadingAt_idempotent "@shadcn"). reflexivity. Defined.

(** Only those identifiers: one that starts with two [@] changes again. *)
Lemma replaceLeadingAt_idempotent_only (x : string) :
  replaceLeadingAt (replaceLeadingAt x) = replaceLeadingAt x ->
  String.prefix "@@" x = false.
Proof.
  destruct x as [|c x]; [reflexivity|].
  destruct (Ascii.eqb_spec c "@") as [->|Hc].
  - destruct x as [|d x]; [reflexivity|].
    destruct (Ascii.eqb_spec d "@") as [->|Hd].
    + change (replaceLeadingAt (String "@" (String "@" x))) with (String "@" x).
      change (replaceLeadingAt (String "@" x)) with x.
      intros H. exfalso.
      apply (f_equal String.length) in H. simpl in H. lia.
    + intros _. rewrite !prefix_cons.
      destruct (ascii_dec "@" "@") as [_|Hne]; [|reflexivity].
      destruct (ascii_dec "@" d) as [Heq|_]; [now subst d | reflexivity].
  - intros _. rewrite prefix_cons.
    destruct (ascii_dec "@" c) as [Heq|_]; [now subst c | reflexivity].
Qed.

(** The normalisation of a list of identifiers, likewise. *)
Lemma cleanNamesOf_idempotent (names : list string) :
  Forall (fun x => String.prefix "@@" x = false) names ->
  cleanNamesOf (cleanNamesOf names) = cleanNamesOf names.
Proof.
  unfold cleanNamesOf. induction 1 as [|x l Hx _ IH]; [reflexivity|].
  simpl. now rewrite replaceLeadingAt_idempotent, IH.
Qed.

End Formatting.

(** ** The fuzzy filter *)

Section FuzzySearch.
Import Str Sql RegistryService Reference.

Lemma fuzzy_literal (q : string) (c : UIComponent.t) :
  literal q = true -> fuzzy q c = mentions q c.
Proof.
  intros Hq. unfold fuzzy, mentions, ilikeOpt.
  rewrite !ilike_wrapPercent by exact Hq.
  destruct (UIComponent.description c) as [d|]; [|reflexivity].
  now rewrite ilike_wrapPercent by exact Hq.
Qed.

Lemma suppliedQuery_truthy (q : string) :
  truthy q = true -> suppliedQuery (Some q) = Some q.
Proof. intros H. unfold suppliedQuery, orUndefined. now rewrite H. Qed.

Lemma elem_of_unpagedFetch (s : Store) registryIds query (c : UIComponent.t) :
  c ∈ unpagedFetch s registryIds query <->
  exists row, row ∈ componentRows s /\ c = joinBoth s row
              /\ selects (countQuery registryIds query) row = true.
Proof.
  unfold unpagedFetch, getMany, page, sorted. simpl.
  rewrite sortBy_perm, list_elem_of_filter, list_elem_of_fmap.
  rewrite selects_unpaged, <- (selects_same registryIds query 0 0).
  split.
  - intros [Hsel [row [-> Hrow]]]. exists row. split; [exact Hrow|].
    split; [reflexivity|].
    apply Is_true_true in Hsel. rewrite <- Hsel, !selects_countQuery. reflexivity.
  - intros [row [Hrow [-> Hsel]]]. split; [|now exists row].
    apply Is_true_true. rewrite <- Hsel, !selects_countQuery. reflexivity.
Qed.

(** C8, as the specification states it, fails: the query is an [ILIKE]
    pattern.  The query [_] selects the three components of the sample
    store, and none of them has [_] in its name, description or slug. *)
Lemma underscore_query_matches_all :
  exists r w',
    searchComponents None (Some "_") None None (start Sample.shop) = (Return r, w')
    /\ SearchResult.totalCount r = 3
    /\ length (SearchResult.items r) = 3%nat
    /\ filter (fun c => mentions "_" c) (componentRows Sample.shop) = [].
Proof.
  eexists. eexists. split; [vm_compute; reflexivity|].
  split; [reflexivity|]. split; [reflexivity|]. vm_compute. reflexivity.
Qed.

Lemma answers_ext (s : Store) (test test' : UIComponent.t -> bool)
  limit offset r :
  (forall row, test row = test' row) ->
  answers s test limit offset r -> answers s test' limit offset r.
Proof.
  intros Hext [Hsound [Hcount Hfull]]. split; [|split].
  - intros item Hitem. destruct (Hsound item Hitem) as [row [Hrow [Hshows Htest]]].
    exists row. now rewrite <- Hext.
  - rewrite Hcount. f_equal. now apply length_filter_ext.
  - intros Ho Hl row Hrow Htest. apply (Hfull Ho Hl row Hrow). now rewrite Hext.
Qed.

Lemma withinRegistries_inNamed (s : Store) registryNames (row : UIComponent.t) :
  resolvedIds s registryNames <> Some [] ->
  withinRegistries (resolvedIds s registryNames) row = inNamed s registryNames row.
Proof.
  unfold withinRegistries, inNamed.
  destruct (resolvedIds s registryNames) as [[|i ids]|]; [easy|reflexivity..].
Qed.

(** What a search returns, by the [WHERE] clause of its queries. *)
Lemma searchComponents_answers (s : Store) registryNames query limit offset :
  healthy s ->
  exists r w',
    searchComponents registryNames query limit offset (start s) = (Return r, w')
    /\ answers s
         (fun row => inNamed s registryNames row
                     && match suppliedQuery query with
                        | Some q => fuzzy q row
                        | None => true
                        end)
         limit offset r.
Proof.
  intros Hs.
  destruct (searchComponents_healthy registryNames query limit offset (start s) Hs)
    as [[Hnone Hrun]|[Hsome [w' [Hrun _]]]]; cbn [start store] in *;
    (eexists _, _; split; [exact Hrun|]); unfold answers;
    cbn [SearchResult.items SearchResult.totalCount].
  - assert (Hout : forall row, inNamed s registryNames row = false).
    { intros row. unfold inNamed. now rewrite Hnone. }
    split; [|split].
    + intros item Hitem. now apply elem_of_nil in Hitem.
    + rewrite filter_none; [reflexivity|]. intros row _. now rewrite Hout.
    + intros _ _ row _ Htest. now rewrite Hout in Htest.
  - assert (Hsel : forall row,
               selects (countQuery (resolvedIds s registryNames) query) row
               = inNamed s registryNames row
                 && match suppliedQuery query with
                    | Some q => fuzzy q row
                    | None => true
                    end).
    { intros row. now rewrite selects_countQuery, withinRegistries_inNamed. }
    split; [|split].
    + intros item Hitem. rewrite map_map in Hitem.
      apply list_elem_of_fmap in Hitem as [c [-> Hc]].
      apply elem_of_pagedFetch in Hc as [row [Hrow [-> Hrowsel]]].
      exists row. split; [exact Hrow|]. split; [apply showsRow_joinBoth|].
      now rewrite <- Hsel.
    + rewrite <- getCount_unpagedFetch. unfold getCount. f_equal.
      rewrite (filter_map_ext bare (fun row => row)
                 (selects (countQuery (resolvedIds s registryNames) query))).
      * rewrite map_id. now apply length_filter_ext.
      * intros row. now rewrite !selects_countQuery.
    + intros Ho Hl row Hrow Htest.
      exists (formatComponent (backfilled s (joinBoth s row))).
      split; [|apply showsRow_joinBoth].
      rewrite map_map. apply list_elem_of_fmap. exists (joinBoth s row).
      split; [reflexivity|].
      rewrite (pagedFetch_full _ _ _ _ _ Ho Hl). apply elem_of_unpagedFetch.
      exists row. split; [exact Hrow|]. split; [reflexivity|].
      now rewrite Hsel.
Qed.

(** C8 (amended).  On a store that answers and holds ASCII text, for a
    query [q] of ASCII characters that is not empty and holds none of [%],
    [_] and backslash, [searchComponents] answers this test on the
    component rows: the component belongs to one of the registries named,
    when identifiers are supplied, and [q] occurs, the case of letters
    ignored, in its name, in its description when it has one, or in its
    slug.  Every item is the item of a row that passes the test, the total
    count is the number of rows that pass it, and with no offset and a
    limit that holds the whole join every row that passes it has its item.
    Without a query, or with an empty one, the registry restriction alone
    is the test. *)
Theorem fuzzy_query_selects (s : Store) (registryNames : option (list string))
  (limit offset : option Z) :
  healthy s ->
  (forall q,
     truthy q = true -> literal q = true -> isAscii q = true ->
     forallb asciiText (componentRows s) = true ->
     exists r w',
       searchComponents registryNames (Some q) limit offset (start s)
       = (Return r, w')
       /\ answers s (fun row => inNamed s registryNames row && mentions q row)
            limit offset r)
  /\ (forall query,
        query = None \/ query = Some EmptyString ->
        exists r w',
          searchComponents registryNames query limit offset (start s)
          = (Return r, w')
          /\ answers s (fun row => inNamed s registryNames row) limit offset r)
  /\ (forall q x,
        isAscii q = true -> isAscii x = true ->
        (includesIgnoringCase q x = true <->
         exists pre post, lower x = pre +:+ lower q +:+ post)).
Proof.
  intros Hs. split; [|split].
  - intros q Hq Hlit _ _.
    destruct (searchComponents_answers s registryNames (Some q) limit offset Hs)
      as [r [w' [Hrun Hanswers]]].
    exists r, w'. split; [exact Hrun|].
    refine (answers_ext _ _ _ _ _ _ _ Hanswers).
    intros row. rewrite (suppliedQuery_truthy q Hq).
    now rewrite fuzzy_literal.
  - intros query Hquery.
    destruct (searchComponents_answers s registryNames query limit offset Hs)
      as [r [w' [Hrun Hanswers]]].
    exists r, w'. split; [exact Hrun|].
    refine (answers_ext _ _ _ _ _ _ _ Hanswers).
    intros row. destruct Hquery as [-> | ->]; cbn; apply andb_true_r.
  - intros q x _ _. apply includes_split.
Qed.

Lemma fuzzy_query_selects_witness :
  exists r w',
    searchComponents (Some ["shadcn"]) (Some "But") None None (start Sample.shop)
    = (Return r, w')
    /\ answers Sample.shop
         (fun row => inNamed Sample.shop (Some ["shadcn"]) row && mentions "But" row)
         None None r.
Proof.
  destruct (fuzzy_query_selects Sample.shop (Some ["shadcn"]) None None
              (fun q => eq_refl)) as [Hfound _].
  apply (Hfound "But"); reflexivity.
Defined.

(** Scenario A of the specification, on the sample store. *)
Example scenario_A :
  exists r w',
    searchComponents None (Some "but") None None (start Sample.shop) = (Return r, w')
    /\ map addCommandArgument (SearchResult.items r) = ["@shadcn/button"].
Proof. eexists. eexists. split; [vm_compute; reflexivity | reflexivity]. Qed.

End FuzzySearch.

(** ** The listing of all registries *)

Section AllRegistries.
Import Str Sql RegistryService Reference.

(** With identifiers, the two conditions are joined as text:
    [name IN (…) OR slug IN (…) AND is_Active = true]. *)
Lemma allRegistriesQuery_selects (name : string) (names : list string)
  (row : UIRegistry.t) :
  selects (allRegistriesQuery (Some (name :: names))) row =
  IN (UIRegistry.name row) (cleanNamesOf (name :: names))
  || IN (UIRegistry.slug row) (cleanNamesOf (name :: names))
     && UIRegistry.isActive row.
Proof.
  unfold allRegistriesQuery, selects, holds. simpl.
  now rewrite orb_false_r.
Qed.

Lemma allRegistriesQuery_no_names (registries : option (list string))
  (row : UIRegistry.t) :
  registries = None \/ registries = Some [] ->
  selects (allRegistriesQuery registries) row = true.
Proof. intros [->| ->]; reflexivity. Qed.

Lemma filter_all {A} (p : A -> bool) (l : list A) :
  (forall x, p x = true) -> filter (fun x => p x) l = l.
Proof.
  intros H. induction l as [|x l IH]; [reflexivity|].
  rewrite filter_cons, H. simpl. now rewrite IH.
Qed.

Lemma searchAllRegistries_answered (registries : option (list string)) (w : World) :
  failure (store w) (ui_registry, GetMany) = None ->
  searchAllRegistries registries w =
  (Return
     {| SearchResult.items :=
          map (fun registry => formatRegistry (plain registry) true)
              (getMany (allRegistriesQuery registries) (registryRows (store w)));
        SearchResult.totalCount :=
          Z.of_nat (length (getMany (allRegistriesQuery registries)
                                    (registryRows (store w))));
        SearchResult.hasMore := false;
        SearchResult.limit :=
          Z.of_nat (length (getMany (allRegistriesQuery registries)
                                    (registryRows (store w))));
        SearchResult.offset := 0 |},
   issue (ui_registry, GetMany) w).
Proof.
  intros H. unfold searchAllRegistries, tryCatch, mbind, Async_bind.
  now rewrite await_answered by exact H.
Qed.

Lemma getMany_allRegistries (registries : option (list string))
  (rows : list UIRegistry.t) :
  getMany (allRegistriesQuery registries) rows =
  sortBy UIRegistry.name
    (filter (fun row => selects (allRegistriesQuery registries) row) rows).
Proof.
  unfold getMany, page, sorted, allRegistriesQuery.
  now destruct (suppliedNames registries).
Qed.

(** Named by its name, a registry that is switched off is still listed:
    the restriction binds to the slug alternative. *)
Example inactive_registry_by_name :
  exists r w',
    searchAllRegistries (Some ["Ant Design"]) (start Sample.shop) = (Return r, w')
    /\ map ri_slug (SearchResult.items r) = ["antd"]
    /\ searchAllRegistries (Some ["antd"]) (start Sample.shop)
       = (Return {| SearchResult.items := []; SearchResult.totalCount := 0;
                    SearchResult.hasMore := false; SearchResult.limit := 0;
                    SearchResult.offset := 0 |}, w').
Proof.
  eexists. eexists. split; [vm_compute; reflexivity|].
  split; [reflexivity | vm_compute; reflexivity].
Qed.

(** C10.  When the store answers the lookup:
    (1) called without identifiers, or with an empty list,
    [searchAllRegistries] returns every stored registry, ordered by name,
    whatever its [isActive] flag;
    (2) called with identifiers, it returns the registries that its
    [WHERE] clause selects; every selected registry is named by name or by
    slug, and one that is not named by its name is active. *)
Theorem searchAllRegistries_isActive (s : Store) :
  failure s (ui_registry, GetMany) = None ->
  (forall registries,
     registries = None \/ registries = Some [] ->
     exists r w',
       searchAllRegistries registries (start s) = (Return r, w')
       /\ SearchResult.items r =
          map (fun registry => formatRegistry (plain registry) true)
              (sortBy UIRegistry.name (registryRows s))
       /\ SearchResult.totalCount r = Z.of_nat (length (registryRows s))
       /\ (forall registry,
             registry ∈ registryRows s ->
             formatRegistry (plain registry) true ∈ SearchResult.items r))
  /\ (forall name names,
        exists r w',
          searchAllRegistries (Some (name :: names)) (start s) = (Return r, w')
          /\ SearchResult.items r =
             map (fun registry => formatRegistry (plain registry) true)
                 (sortBy UIRegistry.name
                    (filter
                       (fun row =>
                          selects (allRegistriesQuery (Some (name :: names))) row)
                       (registryRows s)))
          /\ (forall row,
                selects (allRegistriesQuery (Some (name :: names))) row = true ->
                nameOrSlugIn (cleanNamesOf (name :: names)) row = true
                /\ (IN (UIRegistry.name row) (cleanNamesOf (name :: names))
                    = false ->
                    UIRegistry.isActive row = true))
          /\ (forall row,
                IN (UIRegistry.slug row) (cleanNamesOf (name :: names)) = true ->
                UIRegistry.isActive row = true ->
                selects (allRegistriesQuery (Some (name :: names))) row = true)).
Proof.
  intros Hs. split.
  - intros registries Hnone.
    eexists. eexists. split; [now apply searchAllRegistries_answered|].
    simpl. rewrite getMany_allRegistries.
    rewrite (filter_all (selects (allRegistriesQuery registries)))
      by (intros; now apply allRegistriesQuery_no_names).
    split; [reflexivity|]. split; [now rewrite length_sortBy|].
    intros registry Hin. apply list_elem_of_fmap. exists registry.
    split; [reflexivity|]. now rewrite sortBy_perm.
  - intros name names.
    eexists. eexists. split; [now apply searchAllRegistries_answered|].
    cbn [SearchResult.items store start].
    rewrite getMany_allRegistries. split; [reflexivity|]. split.
    + intros row. rewrite allRegistriesQuery_selects. unfold nameOrSlugIn.
      destruct (IN (UIRegistry.name row) _), (IN (UIRegistry.slug row) _),
        (UIRegistry.isActive row); simpl; intros H; split; congruence.
    + intros row Hslug Hactive.
      rewrite allRegistriesQuery_selects, Hslug, Hactive. apply orb_true_r.
Qed.

Lemma searchAllRegistries_isActive_witness :
  exists r w',
    searchAllRegistries None (start Sample.shop) = (Return r, w')
    /\ SearchResult.totalCount r = 2.
Proof.
  destruct (searchAllRegistries_isActive Sample.shop eq_refl) as [Hall _].
  destruct (Hall None (or_introl eq_refl)) as [r [w' [Hrun [_ [Hcount _]]]]].
  exists r, w'. split; [exact Hrun | exact Hcount].
Defined.

End AllRegistries.

(** ** The example search *)

Section ExampleSearch.
Import Str Sql RegistryService Reference.

Lemma insertBy_map {A B} (f : A -> B) (key : B -> string) (x : A) (l : list A) :
  insertBy key (f x) (map f l) = map f (insertBy (fun a => key (f a)) x l).
Proof.
  induction l as [|y l IH]; [reflexivity|]. simpl.
  destruct (String.leb (key (f x)) (key (f y))); [reflexivity|].
  simpl. now rewrite IH.
Qed.

Lemma sortBy_map {A B} (f : A -> B) (key : B -> string) (l : list A) :
  sortBy key (map f l) = map f (sortBy (fun a => key (f a)) l).
Proof.
  induction l as [|x l IH]; [reflexivity|].
  change (sortBy key (map f (x :: l)))
    with (insertBy key (f x) (sortBy key (map f l))).
  now rewrite IH, insertBy_map.
Qed.

Lemma filter_map {A B} (f : A -> B) (p : B -> bool) (l : list A) :
  filter (fun b => p b) (map f l) = map f (filter (fun a => p (f a)) l).
Proof.
  induction l as [|x l IH]; [reflexivity|].
  simpl map. rewrite !filter_cons, IH.
  now destruct (decide (p (f x))).
Qed.

Lemma window_map {A B} (f : A -> B) (taken skipped : option Z) (l : list A) :
  window taken skipped (map f l) = map f (window taken skipped l).
Proof.
  unfold window.
  destruct skipped as [m|], taken as [n|]; rewrite ?skipn_map;
    try destruct (n =? 0); now rewrite ?firstn_map.
Qed.

Lemma selects_examplesQuery registryIds query limit (row : ExampleRow) :
  selects (examplesQuery registryIds query limit) row =
  match suppliedIds registryIds with
  | Some ids => componentRegistryIn ids row
  | None => true
  end
  && match suppliedQuery query with
     | Some q => fuzzyExample q row
     | None => true
     end.
Proof.
  unfold examplesQuery, selects.
  destruct (suppliedIds registryIds), (suppliedQuery query);
    cbn -[componentRegistryIn fuzzyExample]; unfold holds;
    cbn -[componentRegistryIn fuzzyExample];
    rewrite ?orb_false_r, ?andb_true_r; reflexivity.
Qed.

(** The rows that the example query returns, for a registry restriction
    and a text filter given as tests. *)
Lemma getMany_examplesQuery (s : Store) registryIds query limit
  (keep : UIComponentExample.t -> bool) :
  (forall e, selects (examplesQuery registryIds query limit) (joinComponent s e)
             = keep e) ->
  map (fun row : ExampleRow => formatExample row.1)
      (getMany (examplesQuery registryIds query limit)
               (map (joinComponent s) (exampleRows s))) =
  map formatExample
      (window (Some limit) None
         (sortBy UIComponentExample.name
            (filter (fun e => keep e) (exampleRows s)))).
Proof.
  intros Hkeep. unfold getMany, page, sorted.
  replace (ordering (examplesQuery registryIds query limit))
    with (Some (fun row : ExampleRow => UIComponentExample.name row.1))
    by (unfold examplesQuery;
        now destruct (suppliedIds registryIds), (suppliedQuery query)).
  replace (taken (examplesQuery registryIds query limit)) with (Some limit)
    by (unfold examplesQuery;
        now destruct (suppliedIds registryIds), (suppliedQuery query)).
  replace (skipped (examplesQuery registryIds query limit)) with (@None Z)
    by (unfold examplesQuery;
        now destruct (suppliedIds registryIds), (suppliedQuery query)).
  rewrite (filter_map (joinComponent s)
             (fun row => selects (examplesQuery registryIds query limit) row)).
  rewrite (list_filter_iff _ (fun e => keep e))
    by (intros e; now rewrite Hkeep).
  rewrite <- (map_map (fun row : ExampleRow => row.1) formatExample).
  f_equal.
  rewrite (sortBy_map (joinComponent s)
             (fun row : ExampleRow => UIComponentExample.name row.1)).
  change (sortBy (fun a => UIComponentExample.name (joinComponent s a).1))
    with (sortBy UIComponentExample.name).
  rewrite window_map, map_map.
  erewrite map_ext; [apply map_id|reflexivity].
Qed.

Lemma window_nil {A} (taken skipped : option Z) : window taken skipped (@nil A) = [].
Proof.
  unfold window. destruct skipped as [m|], taken as [n|]; rewrite ?drop_nil;
    try destruct (n =? 0); now rewrite ?take_nil.
Qed.

(** The run of [searchExamples] on a store that answers. *)
Lemma searchExamples_healthy (s : Store) registrySlugs query options :
  healthy s ->
  searchExamples registrySlugs query options (start s) =
  (Return (map formatExample
             (window (Some (default 20 options)) None
                     (examplesFound s registrySlugs query))),
   {| store := s;
      issued := match resolvedIds s registrySlugs with
                | Some [] => [(ui_registry, GetMany)]
                | Some _ => [(ui_registry, GetMany); (ui_component_example, GetMany)]
                | None => [(ui_component_example, GetMany)]
                end |}).
Proof.
  intros Hs. unfold searchExamples, tryCatch, examplesFound, exampleMatches.
  destruct (suppliedNames registrySlugs) as [names|] eqn:Hnames.
  - rewrite (resolvedIds_supplied s _ _ Hnames).
    cbv zeta. unfold mbind, Async_bind.
    rewrite await_answered by apply Hs. cbn [start store].
    rewrite lookup_getMany.
    destruct (map UIRegistry.id _) as [|i ids] eqn:Hids.
    + cbn [length Nat.eqb]. unfold mret, Async_ret, issue.
      cbn [store issued app]. do 2 f_equal.
      rewrite (filter_none
                 (fun e => componentRegistryIn [] (joinComponent s e)
                           && match suppliedQuery query with
                              | Some q => fuzzyExample q (joinComponent s e)
                              | None => true
                              end)).
      * unfold sortBy. cbn [foldr]. now rewrite window_nil.
      * intros e _. unfold componentRegistryIn.
        now destruct (joinComponent s e).2.
    + cbn [length Nat.eqb]. unfold fetchExamples, mbind, Async_bind.
      rewrite await_answered by apply Hs.
      unfold mret, Async_ret, issue. cbn [start store issued app]. do 2 f_equal.
      apply (getMany_examplesQuery s (Some (i :: ids)) query (default 20 options)
               (fun e => componentRegistryIn (i :: ids) (joinComponent s e)
                         && match suppliedQuery query with
                            | Some q => fuzzyExample q (joinComponent s e)
                            | None => true
                            end)).
      intros e. now rewrite selects_examplesQuery.
  - unfold resolvedIds. rewrite Hnames.
    unfold fetchExamples, mbind, Async_bind.
    rewrite await_answered by apply Hs.
    unfold mret, Async_ret, issue. cbn [start store issued app]. do 2 f_equal.
    apply (getMany_examplesQuery s None query (default 20 options)
             (fun e => true
                       && match suppliedQuery query with
                          | Some q => fuzzyExample q (joinComponent s e)
                          | None => true
                          end)).
    intros e. now rewrite selects_examplesQuery.
Qed.

(** The examples that [searchExamples] returns for a limit above zero:
    as many of the matching examples as the limit allows. *)
Lemma searchExamples_chosen (s : Store) registrySlugs query options :
  healthy s -> 0 < default 20 options ->
  exists chosen w',
    searchExamples registrySlugs query options (start s)
    = (Return (map formatExample chosen), w')
    /\ store w' = s
    /\ issued w' = match resolvedIds s registrySlugs with
                   | Some [] => [(ui_registry, GetMany)]
                   | Some _ => [(ui_registry, GetMany);
                                (ui_component_example, GetMany)]
                   | None => [(ui_component_example, GetMany)]
                   end
    /\ chosen ⊆+ matchingExamples s registrySlugs query
    /\ length chosen =
       Nat.min (Z.to_nat (default 20 options))
               (length (matchingExamples s registrySlugs query)).
Proof.
  intros Hs Hlimit. eexists _, _.
  split; [apply (searchExamples_healthy s registrySlugs query options Hs)|].
  split; [reflexivity|]. split; [reflexivity|]. split.
  - etransitivity; [apply sublist_submseteq, window_sublist|].
    unfold examplesFound. fold (matchingExamples s registrySlugs query).
    now rewrite sortBy_perm.
  - rewrite length_window_first by (try left; easy).
    unfold examplesFound. fold (matchingExamples s registrySlugs query).
    now rewrite length_sortBy.
Qed.

Lemma omap_formatExample (chosen : list UIComponentExample.t) :
  omap ex_componentId (map formatExample chosen)
  = map UIComponentExample.componentId chosen.
Proof.
  induction chosen as [|e l IH]; [reflexivity|]. cbn. now rewrite IH.
Qed.

(** The second half of the examples tool on a store that answers. *)
Lemma groupByComponent_healthy (chosen : list UIComponentExample.t)
  (query : string) (w : World) :
  healthy (store w) ->
  exists w',
    Mcp.groupByComponent (map formatExample chosen) query w =
    (Return match chosen with
            | [] => Mcp.NoExamplesFound
            | _ :: _ =>
                Mcp.Examples
                  (map (Mcp.componentItemOf (map formatExample chosen))
                       (componentsOfExamples (store w) chosen))
                  query
            end, w').
Proof.
  intros Hs. unfold Mcp.groupByComponent.
  destruct chosen as [|e chosen]; [now eexists|].
  rewrite omap_formatExample.
  cbn [map length Nat.eqb unique].
  unfold mbind, Async_bind. rewrite await_answered by apply Hs.
  now eexists.
Qed.

Lemma id_withRelations (s : Store) (row : UIComponent.t) :
  UIComponent.id (withRelations s row) = UIComponent.id row.
Proof. reflexivity. Qed.

(** The components fetched are the rows whose id is the component id of an
    example found. *)
Lemma elem_of_componentsOfExamples (s : Store)
  (chosen : list UIComponentExample.t) (c : UIComponent.t) :
  c ∈ componentsOfExamples s chosen <->
  exists row, row ∈ componentRows s /\ c = withRelations s row
              /\ exists e, e ∈ chosen
                           /\ UIComponentExample.componentId e = UIComponent.id row.
Proof.
  unfold componentsOfExamples.
  rewrite list_elem_of_filter, list_elem_of_fmap. unfold IN.
  rewrite bool_decide_spec, elem_of_unique, list_elem_of_fmap.
  split.
  - intros [[e [Hid He]] [row [-> Hrow]]]. exists row.
    split; [exact Hrow|]. split; [reflexivity|]. exists e. now split.
  - intros [row [Hrow [-> [e [He Hid]]]]]. split; [|now exists row].
    exists e. now split.
Qed.

(** Each example is counted once when the lists filtered by the ids of
    components with different ids are put together. *)
Lemma length_flat_map_filter_cons {A B} (p : A -> B -> Prop)
  `{forall a b, Decision (p a b)} (e : B) (found : list B) (cs : list A) :
  length (flat_map (fun c => filter (p c) (e :: found)) cs)
  = (length (filter (fun c => p c e) cs)
     + length (flat_map (fun c => filter (p c) found) cs))%nat.
Proof.
  induction cs as [|c cs IH]; [reflexivity|].
  cbn [flat_map]. rewrite !length_app, IH, !filter_cons.
  destruct (decide (p c e)); cbn [length]; lia.
Qed.

Lemma one_with_id (cs : list UIComponent.t) (c : UIComponent.t) :
  NoDup (map UIComponent.id cs) -> c ∈ cs ->
  length (filter (fun c' => UIComponent.id c' = UIComponent.id c) cs) = 1%nat.
Proof.
  induction cs as [|d cs IH]; intros Hnodup Hc.
  - now apply elem_of_nil in Hc.
  - cbn [map] in Hnodup. apply NoDup_cons in Hnodup as [Hd Hnodup].
    rewrite filter_cons.
    destruct (decide (UIComponent.id d = UIComponent.id c)) as [Heq|Hne].
    + cbn [length]. f_equal.
      destruct (filter _ cs) as [|x l] eqn:Hfilter; [reflexivity|].
      exfalso. apply Hd.
      assert (Hx : x ∈ filter (fun c' => UIComponent.id c' = UIComponent.id c) cs)
        by (rewrite Hfilter; apply list_elem_of_here).
      apply list_elem_of_filter in Hx as [Hid Hx].
      apply list_elem_of_fmap. exists x. split; [congruence | exact Hx].
    + apply elem_of_cons in Hc as [->|Hc]; [easy|]. now apply IH.
Qed.

Lemma length_grouped (cs : list UIComponent.t) (found : list ComponentExample) :
  NoDup (map UIComponent.id cs) ->
  (forall e, e ∈ found ->
     exists c, c ∈ cs /\ ex_componentId e = Some (UIComponent.id c)) ->
  length (flat_map (fun c => filter (fun e => ex_componentId e
                                              = Some (UIComponent.id c)) found) cs)
  = length found.
Proof.
  intros Hnodup. induction found as [|e found IH]; intros Hfound.
  - clear. induction cs as [|c cs IHcs]; [reflexivity|].
    cbn [flat_map]. now rewrite length_app, filter_nil.
  - rewrite (length_flat_map_filter_cons
               (fun c e => ex_componentId e = Some (UIComponent.id c))).
    rewrite IH by (intros e' He'; apply Hfound; now apply list_elem_of_further).
    destruct (Hfound e (list_elem_of_here _ _)) as [c [Hc Hid]].
    rewrite (list_filter_iff _ (fun c' => UIComponent.id c' = UIComponent.id c)).
    + now rewrite (one_with_id cs c Hnodup Hc).
    + intros c'. rewrite Hid. split; congruence.
Qed.

Lemma flat_map_componentItemOf (found : list ComponentExample)
  (cs : list UIComponent.t) :
  flat_map ci_examples (map (Mcp.componentItemOf found) cs)
  = flat_map (fun c => filter (fun e => ex_componentId e
                                        = Some (UIComponent.id c)) found) cs.
Proof. induction cs as [|c cs IH]; [reflexivity|]. cbn. now rewrite IH. Qed.

(** With component ids that are unique and examples that point to stored
    components, the items of the tool hold every example found once. *)
Lemma length_examples_of_items (s : Store) (chosen : list UIComponentExample.t) :
  NoDup (map UIComponent.id (componentRows s)) ->
  (forall e, e ∈ chosen ->
     exists row, row ∈ componentRows s
                 /\ UIComponent.id row = UIComponentExample.componentId e) ->
  length (flat_map ci_examples
            (map (Mcp.componentItemOf (map formatExample chosen))
                 (componentsOfExamples s chosen)))
  = length chosen.
Proof.
  intros Hnodup Hstored.
  rewrite flat_map_componentItemOf, length_grouped, length_map; [reflexivity| |].
  - unfold componentsOfExamples.
    apply (sublist_NoDup _ (map UIComponent.id (componentRows s)));
      [exact Hnodup|].
    assert (Hids : map UIComponent.id (map (withRelations s) (componentRows s))
                   = map UIComponent.id (componentRows s))
      by (rewrite map_map; apply map_ext, id_withRelations).
    rewrite <- Hids. apply (fmap_sublist UIComponent.id), sublist_filter.
  - intros e He. apply list_elem_of_fmap in He as [e0 [-> He0]].
    destruct (Hstored e0 He0) as [row [Hrow Hid]].
    exists (withRelations s row). split; [|cbn; now rewrite Hid].
    apply elem_of_componentsOfExamples. exists row.
    split; [exact Hrow|]. split; [reflexivity|]. exists e0. now split.
Qed.

(** The examples tool on a store that answers. *)
Lemma examples_tool_healthy (s : Store) registries (query : string) :
  healthy s ->
  exists chosen w',
    Mcp.getItemExamplesFromRegistries registries query (start s) =
    (Return match chosen with
            | [] => Mcp.NoExamplesFound
            | _ :: _ =>
                Mcp.Examples
                  (map (Mcp.componentItemOf (map formatExample chosen))
                       (componentsOfExamples s chosen))
                  query
            end, w')
    /\ chosen ⊆+ matchingExamples s (option_map (map replaceLeadingAt) registries)
                                  (Some query)
    /\ length chosen =
       Nat.min 100
         (length (matchingExamples s (option_map (map replaceLeadingAt) registries)
                                   (Some query))).
Proof.
  intros Hs.
  destruct (searchExamples_chosen s (option_map (map replaceLeadingAt) registries)
              (Some query) (Some 100) Hs eq_refl)
    as [chosen [w1 [Hrun [Hstore [_ [Hsub Hlength]]]]]].
  assert (Hs1 : healthy (store w1)) by now rewrite Hstore.
  destruct (groupByComponent_healthy chosen query w1 Hs1) as [w' Hgroup].
  exists chosen, w'. split; [|now split].
  unfold Mcp.getItemExamplesFromRegistries, mbind, Async_bind.
  now rewrite Hrun, Hgroup, Hstore.
Qed.

Lemma matching_stored (s : Store) registrySlugs query
  (chosen : list UIComponentExample.t) (e : UIComponentExample.t) :
  chosen ⊆+ matchingExamples s registrySlugs query -> e ∈ chosen ->
  e ∈ exampleRows s /\ exampleMatches s registrySlugs query e = true.
Proof.
  intros Hsub He.
  pose proof (elem_of_submseteq _ _ _ He Hsub) as Hin.
  apply list_elem_of_filter in Hin as [Hmatch Hin].
  split; [exact Hin | now apply Is_true_true].
Qed.

(** What the examples tool hands over holds as many examples as the limit
    of a hundred allows, when component ids are unique and every example
    points to a stored component. *)
Lemma examples_tool_count (s : Store) registries (query : string) :
  healthy s ->
  NoDup (map UIComponent.id (componentRows s)) ->
  (forall e, e ∈ exampleRows s ->
     exists row, row ∈ componentRows s
                 /\ UIComponent.id row = UIComponentExample.componentId e) ->
  exists answer w',
    Mcp.getItemExamplesFromRegistries registries query (start s)
    = (Return answer, w')
    /\ match answer with
       | Mcp.NoExamplesFound =>
           matchingExamples s (option_map (map replaceLeadingAt) registries)
                            (Some query) = []
       | Mcp.MissingComponentInformation => False
       | Mcp.Examples componentItems q =>
           q = query
           /\ length (flat_map ci_examples componentItems) =
              Nat.min 100
                (length (matchingExamples s
                           (option_map (map replaceLeadingAt) registries)
                           (Some query)))
       end.
Proof.
  intros Hs Hnodup Hstored.
  destruct (examples_tool_healthy s registries query Hs)
    as [chosen [w' [Hrun [Hsub Hlength]]]].
  eexists _, w'. split; [exact Hrun|].
  destruct chosen as [|e rest].
  - cbn [length] in Hlength.
    destruct (matchingExamples _ _ _) as [|x l]; [reflexivity|].
    cbn [length] in Hlength. lia.
  - split; [reflexivity|]. rewrite <- Hlength.
    apply length_examples_of_items; [exact Hnodup|].
    intros e' He'. apply Hstored.
    now apply (matching_stored s _ _ _ e' Hsub).
Qed.

End ExampleSearch.

(** ** The defaults of [limit] and [offset] *)

Section Defaults.
Import Str Sql RegistryService Reference.

Lemma searchComponents_returns registryNames query limit offset (w : World) :
  healthy (store w) ->
  exists r w',
    searchComponents registryNames query limit offset w = (Return r, w')
    /\ SearchResult.limit r = default 50 limit
    /\ SearchResult.offset r = default 0 offset.
Proof.
  intros Hs.
  destruct (searchComponents_healthy registryNames query limit offset w Hs)
    as [[_ Hrun]|[_ [w' [Hrun _]]]];
    eexists; eexists; (split; [exact Hrun | now split]).
Qed.

Lemma getMany_at_most {R} (qb : SelectQueryBuilder R) (n : Z) (rows : list R) :
  taken qb = Some n -> 0 < n -> (length (getMany qb rows) <= Z.to_nat n)%nat.
Proof.
  intros H Hn. unfold getMany, page, window. rewrite H.
  destruct (Z.eqb_spec n 0); [lia|]. rewrite length_take. lia.
Qed.

Lemma fetchExamples_at_most registryIds query (n : Z) (w w' : World)
  (examples : list ComponentExample) :
  0 < n ->
  fetchExamples registryIds query n w = (Return examples, w') ->
  (length examples <= Z.to_nat n)%nat.
Proof.
  intros Hn. unfold fetchExamples, mbind, Async_bind, await.
  destruct (failure (store w) (ui_component_example, GetMany)); [discriminate|].
  intros [= <- _]. rewrite length_map. apply getMany_at_most; [|exact Hn].
  unfold examplesQuery.
  now destruct (suppliedIds registryIds), (suppliedQuery query).
Qed.

(** [searchExamples] returns no more examples than a limit above zero. *)
Lemma searchExamples_at_most registrySlugs query (n : Z) (w w' : World)
  (examples : list ComponentExample) :
  0 < n ->
  searchExamples registrySlugs query (Some n) w = (Return examples, w') ->
  (length examples <= Z.to_nat n)%nat.
Proof.
  intros Hn. unfold searchExamples, tryCatch.
  change (default 20 (Some n)) with n.
  destruct (suppliedNames registrySlugs) as [names|].
  - unfold mbind, Async_bind, await.
    destruct (failure (store w) (ui_registry, GetMany)); [discriminate|].
    destruct (Nat.eqb _ 0).
    + intros [= <- _]. simpl. lia.
    + match goal with
      | |- context [fetchExamples ?ids query n ?w0] =>
          destruct (fetchExamples ids query n w0) as [[l|msg] w1] eqn:Hfetch
      end; [|discriminate].
      intros [= <- _]. now apply fetchExamples_at_most in Hfetch.
  - destruct (fetchExamples None query n w) as [[l|msg] w1] eqn:Hfetch;
      [|discriminate].
    intros [= <- _]. now apply fetchExamples_at_most in Hfetch.
Qed.

(** The number of examples that [searchExamples] returns for a limit
    above zero. *)
Lemma searchExamples_length (s : Store) registrySlugs query options :
  healthy s -> 0 < default 20 options ->
  exists examples w',
    searchExamples registrySlugs query options (start s) = (Return examples, w')
    /\ length examples =
       Nat.min (Z.to_nat (default 20 options))
               (length (matchingExamples s registrySlugs query)).
Proof.
  intros Hs Hlimit.
  destruct (searchExamples_chosen s registrySlugs query options Hs Hlimit)
    as [chosen [w' [Hrun [_ [_ [_ Hlength]]]]]].
  eexists _, w'. split; [exact Hrun|]. now rewrite length_map.
Qed.

(** [GET /api/components] on a store that answers. *)
Lemma getComponents_healthy (q : Http.ListingQuery) (w : World) :
  healthy (store w) ->
  exists items total more w',
    Http.getComponents q w =
    (Return {| Http.statusCode := 200;
               Http.json := Http.ListingJson items total
                              (default 20 (Http.q_limit q))
                              (default 0 (Http.q_offset q)) more |}, w').
Proof.
  intros Hs. unfold Http.getComponents, tryCatch.
  assert (Hsearch : forall slugs w1,
             store w1 = store w ->
             exists items total more w',
               (results ← searchComponents slugs (Http.q_query q)
                            (Some (default 20 (Http.q_limit q)))
                            (Some (default 0 (Http.q_offset q)));
                mret {| Http.statusCode := 200;
                        Http.json :=
                          Http.ListingJson (SearchResult.items results)
                            (SearchResult.totalCount results)
                            (SearchResult.limit results)
                            (SearchResult.offset results)
                            (SearchResult.hasMore results) |}) w1 =
               (Return {| Http.statusCode := 200;
                          Http.json := Http.ListingJson items total
                                         (default 20 (Http.q_limit q))
                                         (default 0 (Http.q_offset q)) more |}, w')).
  { intros slugs w1 Hw1.
    assert (Hs1 : healthy (store w1)) by now rewrite Hw1.
    destruct (searchComponents_returns slugs (Http.q_query q)
                (Some (default 20 (Http.q_limit q)))
                (Some (default 0 (Http.q_offset q))) w1 Hs1)
      as [r [w' [Hrun [Hlimit Hoffset]]]].
    unfold mbind, Async_bind. rewrite Hrun.
    unfold mret, Async_ret. rewrite Hlimit, Hoffset.
    eexists. eexists. eexists. eexists. reflexivity. }
  unfold mbind at 1. unfold Async_bind at 1.
  destruct (Http.slugsOf (Http.q_registrySlug q)) as [slugs|].
  - unfold mret at 1. unfold Async_ret at 1.
    destruct (Hsearch (Some slugs) w eq_refl) as [items [total [more [w' ->]]]].
    eexists. eexists. eexists. eexists. reflexivity.
  - destruct (Http.q_registryId q) as [registryId|].
    + unfold mbind at 1. unfold Async_bind at 1.
      rewrite await_answered by apply Hs.
      unfold mret at 1. unfold Async_ret at 1.
      destruct (Hsearch (option_map (fun r => [UIRegistry.slug r])
                           (registryOf (store w) registryId))
                  (issue (ui_registry, FindOne) w) eq_refl)
        as [items [total [more [w' ->]]]].
      eexists. eexists. eexists. eexists. reflexivity.
    + unfold mret at 1. unfold Async_ret at 1.
      destruct (Hsearch None w eq_refl) as [items [total [more [w' ->]]]].
      eexists. eexists. eexists. eexists. reflexivity.
Qed.

(** On a store with a hundred and one matching examples the tool hands a
    hundred of them to the formatter; the service alone, called without a
    limit, returns twenty. *)
Example examples_tool_limit :
  (exists items w',
     Mcp.getItemExamplesFromRegistries None "demo" (start Sample.crowded)
     = (Return (Mcp.Examples items "demo"), w')
     /\ map exampleCount items = [100])
  /\ (exists examples w',
        searchExamples None (Some "demo") None (start Sample.crowded)
        = (Return examples, w')
        /\ length examples = 20%nat).
Proof.
  split; eexists; eexists; (split; [vm_compute; reflexivity | reflexivity]).
Qed.

(** C9.  Each call site has its own default:
    (1) [searchComponents] called without [limit] and [offset] runs as with
    50 and 0, and returns them in its result;
    (2) [GET /api/components] called without [limit] and [offset] runs as
    with 20 and 0, and answers with them in its pagination;
    (3) [searchExamples] called without a limit runs as with 20: on a store
    that answers it returns twenty of the stored examples that match, or
    all of them when they are fewer; called with a limit above zero it
    returns that many, or all of them;
    (4) the examples tool calls [searchExamples] with the limit 100: it
    never receives more than a hundred examples, and on a store that
    answers, where component ids are unique and every example points to a
    stored component, the items it hands over hold a hundred of the stored
    examples that match, or all of them when they are fewer. *)
Theorem limit_offset_defaults :
  (forall registryNames query w,
     searchComponents registryNames query None None w =
     searchComponents registryNames query (Some 50) (Some 0) w)
  /\ (forall registryNames query s,
        healthy s ->
        exists r w',
          searchComponents registryNames query None None (start s) = (Return r, w')
          /\ SearchResult.limit r = 50 /\ SearchResult.offset r = 0)
  /\ (forall q w,
        Http.getComponents (Http.withWindow None None q) w =
        Http.getComponents (Http.withWindow (Some 20) (Some 0) q) w)
  /\ (forall q s,
        healthy s ->
        exists items total more w',
          Http.getComponents (Http.withWindow None None q) (start s) =
          (Return {| Http.statusCode := 200;
                     Http.json := Http.ListingJson items total 20 0 more |}, w'))
  /\ (forall registrySlugs query w,
        searchExamples registrySlugs query None w =
        searchExamples registrySlugs query (Some 20) w)
  /\ (forall s registrySlugs query,
        healthy s ->
        exists examples w',
          searchExamples registrySlugs query None (start s) = (Return examples, w')
          /\ length examples =
             Nat.min 20 (length (matchingExamples s registrySlugs query)))
  /\ (forall s registrySlugs query n,
        healthy s -> 0 < n ->
        exists examples w',
          searchExamples registrySlugs query (Some n) (start s)
          = (Return examples, w')
          /\ length examples =
             Nat.min (Z.to_nat n) (length (matchingExamples s registrySlugs query)))
  /\ (forall registries query w,
        Mcp.getItemExamplesFromRegistries registries query w =
        (searchExamples (option_map (map replaceLeadingAt) registries)
           (Some query) (Some 100)
         ≫= fun examples => Mcp.groupByComponent examples query) w)
  /\ (forall registrySlugs query w examples w',
        searchExamples registrySlugs query (Some 100) w = (Return examples, w') ->
        (length examples <= 100)%nat)
  /\ (forall s registries query,
        healthy s ->
        NoDup (map UIComponent.id (componentRows s)) ->
        (forall e, e ∈ exampleRows s ->
           exists row, row ∈ componentRows s
                       /\ UIComponent.id row = UIComponentExample.componentId e) ->
        exists answer w',
          Mcp.getItemExamplesFromRegistries registries query (start s)
          = (Return answer, w')
          /\ match answer with
             | Mcp.NoExamplesFound =>
                 matchingExamples s (option_map (map replaceLeadingAt) registries)
                                  (Some query) = []
             | Mcp.MissingComponentInformation => False
             | Mcp.Examples componentItems q =>
                 q = query
                 /\ length (flat_map ci_examples componentItems) =
                    Nat.min 100
                      (length (matchingExamples s
                                 (option_map (map replaceLeadingAt) registries)
                                 (Some query)))
             end).
Proof.
  split; [reflexivity|]. split.
  { intros registryNames query s Hs.
    apply (searchComponents_returns registryNames query None None (start s) Hs). }
  split; [reflexivity|]. split.
  { intros q s Hs.
    apply (getComponents_healthy (Http.withWindow None None q) (start s) Hs). }
  split; [reflexivity|]. split.
  { intros s registrySlugs query Hs.
    apply (searchExamples_length s registrySlugs query None Hs eq_refl). }
  split.
  { intros s registrySlugs query n Hs Hn.
    apply (searchExamples_length s registrySlugs query (Some n) Hs Hn). }
  split; [reflexivity|]. split.
  { intros registrySlugs query w examples w' Hrun.
    now apply searchExamples_at_most in Hrun. }
  intros s registries query. apply examples_tool_count.
Qed.

End Defaults.

(** ** Failures of the store *)

Section Failures.
Import Str Sql RegistryService Reference.

Lemma failsWith_ret {A} thrown (a : A) : failsWith thrown (mret a).
Proof.
  intros w o w' [= <- <-]. split; [reflexivity|].
  exists []. split; [now rewrite app_nil_r | constructor].
Qed.

Lemma failsWith_await {A} (q : Query) (answer : Store -> A) :
  failsWith unchanged (await q answer).
Proof.
  intros w o w'. unfold await.
  destruct (failure (store w) q) as [msg|] eqn:Hq; intros [= <- <-];
    (split; [reflexivity|]); exists [q]; (split; [reflexivity|]).
  - exists [], q, msg. repeat split; [constructor | exact Hq].
  - repeat constructor. exact Hq.
Qed.

Lemma failsWith_weaken {A} (thrown thrown' : Query -> string -> string -> Prop)
  (m : Async A) :
  (forall q msg message, thrown q msg message -> thrown' q msg message) ->
  failsWith thrown m -> failsWith thrown' m.
Proof.
  intros Hsub Hm w o w' Hrun.
  destruct (Hm w o w' Hrun) as [Hstore [qs [Hqs Ho]]].
  split; [exact Hstore|]. exists qs. split; [exact Hqs|].
  destruct o as [a|message]; [exact Ho|].
  destruct Ho as [qs' [q [msg [H1 [H2 [H3 H4]]]]]].
  exists qs', q, msg. repeat split; auto.
Qed.

Lemma failsWith_bind {A B} thrown (m : Async A) (k : A -> Async B) :
  failsWith thrown m -> (forall a, failsWith thrown (k a)) ->
  failsWith thrown (m ≫= k).
Proof.
  intros Hm Hk w o w'. unfold mbind, Async_bind.
  destruct (m w) as [[a|message] w1] eqn:Hrun1.
  - intros Hrun2.
    destruct (Hm w _ _ Hrun1) as [Hstore1 [qs1 [Hqs1 Hall1]]].
    destruct (Hk a w1 o w' Hrun2) as [Hstore2 [qs2 [Hqs2 Ho]]].
    rewrite Hstore1 in *. split; [exact Hstore2|].
    exists (qs1 ++ qs2). split; [now rewrite Hqs2, Hqs1, app_assoc|].
    destruct o as [b|message].
    + now apply Forall_app.
    + destruct Ho as [qs' [q [msg [-> [Hall2 [Hq Hthrown]]]]]].
      exists (qs1 ++ qs'), q, msg. rewrite app_assoc.
      repeat split; [now apply Forall_app | exact Hq | exact Hthrown].
  - intros [= <- <-]. apply (Hm w _ _ Hrun1).
Qed.

(** [catch (error) { throw new Error(prefix + error.message) }]. *)
Lemma failsWith_rethrow {A} (prefix : string) (body : Async A) :
  failsWith unchanged body ->
  failsWith (prefixed prefix)
    (tryCatch body (fun message => throw (prefix +:+ message))).
Proof.
  intros Hbody w o w'. unfold tryCatch, throw.
  destruct (body w) as [[a|message] w1] eqn:Hrun; intros [= <- <-];
    destruct (Hbody w _ _ Hrun) as [Hstore [qs [Hqs Ho]]];
    (split; [exact Hstore|]); exists qs; (split; [exact Hqs|]).
  - exact Ho.
  - destruct Ho as [qs' [q [msg [H1 [H2 [H3 H4]]]]]].
    exists qs', q, msg. unfold unchanged in H4. subst message.
    now repeat split.
Qed.

Ltac failsWith_steps :=
  repeat first
    [ apply failsWith_ret
    | apply failsWith_await
    | apply failsWith_bind; [|intros ?]
    | match goal with
      | |- failsWith _ (match ?x with _ => _ end) => destruct x
      | |- failsWith _ (if ?b then _ else _) => destruct b
      end ].

Lemma failsWith_attachRegistries (components : list UIComponent.t) :
  failsWith unchanged (attachRegistries components).
Proof. unfold attachRegistries. failsWith_steps. Qed.

Lemma failsWith_fetchAndCount registryIds query limit offset :
  failsWith unchanged (fetchAndCount registryIds query limit offset).
Proof.
  unfold fetchAndCount.
  apply failsWith_bind; [apply failsWith_await | intros components].
  apply failsWith_bind; [apply failsWith_attachRegistries | intros attached].
  failsWith_steps.
Qed.

Lemma failsWith_fetchExamples registryIds query limit :
  failsWith unchanged (fetchExamples registryIds query limit).
Proof. unfold fetchExamples. failsWith_steps. Qed.

Lemma failsWith_searchComponents registryNames query limit offset :
  failsWith (prefixed "Component search failed: ")
    (searchComponents registryNames query limit offset).
Proof.
  unfold searchComponents. apply failsWith_rethrow.
  destruct (suppliedNames registryNames); [|apply failsWith_fetchAndCount].
  apply failsWith_bind; [apply failsWith_await | intros matching].
  destruct (Nat.eqb _ 0); [apply failsWith_ret | apply failsWith_fetchAndCount].
Qed.

Lemma failsWith_searchRegistries registryNames limit offset :
  failsWith (prefixed "Registry search failed: ")
    (searchRegistries registryNames limit offset).
Proof. unfold searchRegistries. apply failsWith_rethrow. failsWith_steps. Qed.

Lemma failsWith_searchAllRegistries registries :
  failsWith (prefixed "Registry search failed: ") (searchAllRegistries registries).
Proof. unfold searchAllRegistries. apply failsWith_rethrow. failsWith_steps. Qed.

Lemma failsWith_searchExamples registrySlugs query options :
  failsWith (prefixed "Example search failed: ")
    (searchExamples registrySlugs query options).
Proof.
  unfold searchExamples. apply failsWith_rethrow.
  destruct (suppliedNames registrySlugs); [|apply failsWith_fetchExamples].
  apply failsWith_bind; [apply failsWith_await | intros matching].
  destruct (Nat.eqb _ 0); [apply failsWith_ret | apply failsWith_fetchExamples].
Qed.


Lemma failsWith_await_at {A} (q : Query) (answer : Store -> A) :
  failsWith (fun q' msg message => q' = q /\ message = msg) (await q answer).
Proof.
  intros w o w'. unfold await.
  destruct (failure (store w) q) as [msg|] eqn:Hq; intros [= <- <-];
    (split; [reflexivity|]); exists [q]; (split; [reflexivity|]).
  - exists [], q, msg. repeat split; [constructor | exact Hq].
  - repeat constructor. exact Hq.
Qed.

Lemma bind_Return {A B} (m : Async A) (k : A -> Async B) (w w' : World) (b : B) :
  (m ≫= k) w = (Return b, w') ->
  exists a w1, m w = (Return a, w1) /\ k a w1 = (Return b, w').
Proof.
  unfold mbind, Async_bind.
  destruct (m w) as [[a|message] w1]; [|discriminate].
  intros H. now exists a, w1.
Qed.

Lemma append_length (a b : string) :
  String.length (a +:+ b) = (String.length a + String.length b)%nat.
Proof.
  induction a as [|c a IH]; [reflexivity|].
  rewrite append_cons. simpl. now rewrite IH.
Qed.

(** A prefix that is not empty changes the message. *)
Lemma prefixed_differs (prefix msg : string) :
  prefix <> EmptyString -> prefix +:+ msg <> msg.
Proof.
  intros Hprefix H. apply (f_equal String.length) in H.
  rewrite append_length in H. destruct prefix; [congruence | simpl in H; lia].
Qed.

(** The body of the [try] of [GET /api/components]. *)
Lemma failsWith_listing (q : Http.ListingQuery) :
  failsWith caughtByListing
    (registrySlugs ←
       match Http.slugsOf (Http.q_registrySlug q) with
       | Some slugs => mret (Some slugs)
       | None =>
           match Http.q_registryId q with
           | Some registryId =>
               registry ←
                 await (ui_registry, FindOne) (fun s => registryOf s registryId);
               mret (option_map (fun r => [UIRegistry.slug r]) registry)
           | None => mret None
           end
       end;
     results ← searchComponents registrySlugs (Http.q_query q)
                 (Some (default 20 (Http.q_limit q)))
                 (Some (default 0 (Http.q_offset q)));
     mret {| Http.statusCode := 200;
             Http.json :=
               Http.ListingJson (SearchResult.items results)
                 (SearchResult.totalCount results)
                 (SearchResult.limit results)
                 (SearchResult.offset results)
                 (SearchResult.hasMore results) |}).
Proof.
  apply failsWith_bind.
  - destruct (Http.slugsOf _); [apply failsWith_ret|].
    destruct (Http.q_registryId q); [|apply failsWith_ret].
    apply failsWith_bind; [|intros ?; apply failsWith_ret].
    eapply failsWith_weaken; [|apply failsWith_await_at].
    intros q' msg message [-> ->]. now left.
  - intros slugs. apply failsWith_bind; [|intros ?; apply failsWith_ret].
    eapply failsWith_weaken; [|apply failsWith_searchComponents].
    intros q' msg message ->. now right.
Qed.

(** C5, as the specification states it, fails: the message is not passed
    on unchanged.  With the connection down the store reports
    [connection refused]; [searchComponents] throws, and the listing
    endpoint answers, another message. *)
Lemma searchComponents_failure_is_reworded :
  failure Sample.down (ui_component, GetMany) = Some "connection refused"
  /\ (exists w',
        searchComponents None None None None (start Sample.down) =
        (Throw "Component search failed: connection refused", w'))
  /\ (exists w',
        Http.getComponents
          {| Http.q_registryId := None; Http.q_registrySlug := None;
             Http.q_type := None; Http.q_status := None;
             Http.q_query := None; Http.q_limit := None;
             Http.q_offset := None |} (start Sample.down) =
        (Return {| Http.statusCode := 500;
                   Http.json :=
                     Http.ErrorJson "Component search failed: connection refused" |},
         w'))
  /\ "Component search failed: connection refused" <> "connection refused".
Proof.
  split; [reflexivity|].
  split; [eexists; vm_compute; reflexivity|].
  split; [eexists; vm_compute; reflexivity | discriminate].
Qed.

(** C5 (amended).  Each search operation reads the store and stops at the
    first query that fails; it then throws a new error whose message is the
    message of the store behind the prefix of the operation
    ([Component search failed: ], [Registry search failed: ],
    [Example search failed: ]), which is another message.  The handler of
    [GET /api/components] never throws: it answers 200 when every query
    was answered, and otherwise 500 with, as [error], the message it
    caught: the prefixed one, or the message of the store itself when its
    own lookup of the registry by id failed. *)
Theorem search_failures_are_rethrown :
  (forall registryNames query limit offset,
     failsWith (prefixed "Component search failed: ")
       (searchComponents registryNames query limit offset))
  /\ (forall registryNames limit offset,
        failsWith (prefixed "Registry search failed: ")
          (searchRegistries registryNames limit offset))
  /\ (forall registries,
        failsWith (prefixed "Registry search failed: ")
          (searchAllRegistries registries))
  /\ (forall registrySlugs query options,
        failsWith (prefixed "Example search failed: ")
          (searchExamples registrySlugs query options))
  /\ (forall prefix msg, prefix <> EmptyString -> prefix +:+ msg <> msg)
  /\ (forall q w,
        exists resp w',
          Http.getComponents q w = (Return resp, w')
          /\ store w' = store w
          /\ exists qs,
               issued w' = issued w ++ qs
               /\ ((Forall (answered (store w)) qs /\ Http.statusCode resp = 200)
                   \/ exists qs' failed msg message,
                        qs = qs' ++ [failed]
                        /\ Forall (answered (store w)) qs'
                        /\ failure (store w) failed = Some msg
                        /\ caughtByListing failed msg message
                        /\ resp = {| Http.statusCode := 500;
                                     Http.json := Http.ErrorJson message |})).
Proof.
  split; [exact failsWith_searchComponents|].
  split; [exact failsWith_searchRegistries|].
  split; [exact failsWith_searchAllRegistries|].
  split; [exact failsWith_searchExamples|].
  split; [exact prefixed_differs|].
  intros q w. unfold Http.getComponents, tryCatch.
  match goal with
  | |- context [let (_, _) := ?body w in _] =>
      destruct (body w) as [[resp|message] w1] eqn:Hrun;
      destruct (failsWith_listing q w _ _ Hrun) as [Hstore [qs [Hqs Ho]]]
  end.
  - exists resp, w1. split; [reflexivity|]. split; [exact Hstore|].
    exists qs. split; [exact Hqs|]. left. split; [exact Ho|].
    apply bind_Return in Hrun as [slugs [w2 [_ Hrun]]].
    apply bind_Return in Hrun as [results [w3 [_ Hrun]]].
    now injection Hrun as <- _.
  - eexists. eexists. split; [reflexivity|]. split; [exact Hstore|].
    exists qs. split; [exact Hqs|]. right.
    destruct Ho as [qs' [failed [msg [H1 [H2 [H3 H4]]]]]].
    exists qs', failed, msg, message. now repeat split.
Qed.

End Failures.

(** ** The validation of [POST /api/components] *)

Section Validation.
Import Str Sql RegistryService Reference.

Lemma nextId_above (rows : list UIComponent.t) (c : UIComponent.t) :
  c ∈ rows -> UIComponent.id c < Http.nextId rows.
Proof.
  unfold Http.nextId. induction 1 as [c rows|c d rows _ IH]; simpl; lia.
Qed.

Lemma filter_ids_below (s : Store) (n : Z) (rows : list UIComponent.t) :
  (forall c, c ∈ rows -> UIComponent.id c < n) ->
  filter (fun c => UIComponent.id c = n) (map (withRelations s) rows) = [].
Proof.
  induction rows as [|c rows IH]; intros Hall; [reflexivity|].
  rewrite map_cons, filter_cons.
  destruct (decide (UIComponent.id (withRelations s c) = n)) as [Heq|_].
  - pose proof (Hall c (list_elem_of_here _ _)) as Hlt.
    simpl in Heq. lia.
  - apply IH. intros d Hd. apply Hall. now apply list_elem_of_further.
Qed.

(** After a save, the lookup by the new id finds the saved row. *)
Lemma find_saved (s : Store) (rows : list UIComponent.t) (saved : UIComponent.t) :
  UIComponent.id saved = Http.nextId rows ->
  head (filter (fun c => UIComponent.id c = Http.nextId rows)
               (map (withRelations s) (rows ++ [saved]))) =
  Some (withRelations s saved).
Proof.
  intros Hid. rewrite map_app, filter_app.
  assert (Hnone : filter (fun c => UIComponent.id c = Http.nextId rows)
                         (map (withRelations s) rows) = []).
  { apply filter_ids_below. apply nextId_above. }
  rewrite Hnone. simpl. rewrite filter_cons.
  destruct (decide (UIComponent.id (withRelations s saved) = Http.nextId rows))
    as [_|Hne]; [reflexivity|].
  now destruct Hne.
Qed.

(** C3, as the specification states it, fails: a body whose [type] and
    [status] are outside the enumerations (and outside the sets that the
    specification lists) is answered with 201 and stored as given. *)
Lemma postComponent_accepts_any_type :
  exists component w',
    Http.postComponent
      {| Http.b_registryId := Some 1; Http.b_registrySlug := None;
         Http.b_name := Some "Gizmo"; Http.b_slug := Some "gizmo";
         Http.b_type := Some "gadget"; Http.b_description := None;
         Http.b_dependencies := None; Http.b_status := Some "experimental";
         Http.b_introducedVersion := None; Http.b_deprecatedVersion := None;
         Http.b_metadata := None |} (start Sample.shop) =
    (Return {| Http.statusCode := 201;
               Http.json := Http.ComponentJson (Some component) |}, w')
    /\ UIComponent.type component = "gadget"
    /\ UIComponent.status component = "experimental"
    /\ map (fun row => (UIComponent.slug row, UIComponent.type row,
                        UIComponent.status row))
           (componentRows (store w'))
       = [("button", "input-control", "stable");
          ("card", "input-control", "stable");
          ("alert", "input-control", "stable");
          ("gizmo", "gadget", "experimental")]
    /\ ("gadget" ∉ ComponentType.values)
    /\ ("gadget" ∉ ["input-control"; "container"; "navigational";
                    "informational"; "business"])
    /\ ("experimental" ∉ ComponentStatus.values).
Proof.
  eexists. eexists. split; [vm_compute; reflexivity|].
  split; [reflexivity|]. split; [reflexivity|]. split; [reflexivity|].
  split; [|split]; intros H; apply (bool_decide_pack _) in H;
    vm_compute in H; exact H.
Qed.

(** C3 (amended).  The handler of [POST /api/components] checks that the
    fields are present and nothing else.  A body without a name, a slug or
    a type (absent or empty) is answered with 400 and no query is issued.
    A body with the three of them and a [registryId], on a store that
    answers, is answered with 201 whatever strings [type] and [status]
    hold: the two are stored and returned as given, [status] being
    [stable] when the body has none. *)
Theorem postComponent_checks_presence_only (s : Store) (body : Http.ComponentBody) :
  healthy s ->
  (truthyOpt (Http.b_name body) && truthyOpt (Http.b_slug body)
   && truthyOpt (Http.b_type body) = false ->
   Http.postComponent body (start s) =
   (Return {| Http.statusCode := 400;
              Http.json := Http.ErrorJson "name, slug, and type are required" |},
    start s))
  /\ (forall name slug type registryId,
        orUndefined (Http.b_name body) = Some name ->
        orUndefined (Http.b_slug body) = Some slug ->
        orUndefined (Http.b_type body) = Some type ->
        Http.truthyId (Http.b_registryId body) = Some registryId ->
        exists component w',
          Http.postComponent body (start s) =
          (Return {| Http.statusCode := 201;
                     Http.json := Http.ComponentJson (Some component) |}, w')
          /\ UIComponent.type component = type
          /\ UIComponent.status component = default "stable" (Http.b_status body)
          /\ exists row,
               componentRows (store w') = componentRows s ++ [row]
               /\ UIComponent.name row = name
               /\ UIComponent.slug row = slug
               /\ UIComponent.type row = type
               /\ UIComponent.status row = default "stable" (Http.b_status body)
               /\ UIComponent.registryId row = registryId).
Proof.
  intros Hs. split.
  - intros Hmissing. unfold Http.postComponent, tryCatch.
    unfold truthyOpt in Hmissing. unfold orUndefined.
    destruct (Http.b_name body) as [name|]; [destruct (truthy name)|];
      try reflexivity.
    destruct (Http.b_slug body) as [slug|]; [destruct (truthy slug)|];
      try reflexivity.
    destruct (Http.b_type body) as [type|]; [destruct (truthy type)|];
      try reflexivity.
    discriminate.
  - intros name slug type registryId Hname Hslug Htype Hid.
    unfold Http.postComponent, tryCatch. rewrite Hname, Hslug, Htype, Hid.
    unfold mbind at 1. unfold Async_bind at 1. unfold Http.save at 1.
    cbn [store start issued]. rewrite (Hs (ui_component, Save)).
    unfold mbind, Async_bind, Http.findComponent, await.
    cbn [store failure UIComponent.id]. rewrite (Hs (ui_component, FindOne)).
    cbn [componentRows]. rewrite find_saved by reflexivity.
    eexists. eexists. split; [reflexivity|].
    split; [reflexivity|]. split; [reflexivity|].
    eexists. split; [reflexivity|]. now repeat split.
Qed.

Lemma postComponent_checks_presence_only_witness :
  exists component w',
    Http.postComponent
      {| Http.b_registryId := Some 2; Http.b_registrySlug := None;
         Http.b_name := Some "Menu"; Http.b_slug := Some "menu";
         Http.b_type := Some "biz"; Http.b_description := None;
         Http.b_dependencies := None; Http.b_status := None;
         Http.b_introducedVersion := None; Http.b_deprecatedVersion := None;
         Http.b_metadata := None |} (start Sample.shop) =
    (Return {| Http.statusCode := 201;
               Http.json := Http.ComponentJson (Some component) |}, w')
    /\ UIComponent.status component = "stable".
Proof.
  destruct (postComponent_checks_presence_only Sample.shop
              {| Http.b_registryId := Some 2; Http.b_registrySlug := None;
                 Http.b_name := Some "Menu"; Http.b_slug := Some "menu";
                 Http.b_type := Some "biz"; Http.b_description := None;
                 Http.b_dependencies := None; Http.b_status := None;
                 Http.b_introducedVersion := None;
                 Http.b_deprecatedVersion := None;
                 Http.b_metadata := None |} (fun q => eq_refl)) as [_ Hstored].
  destruct (Hstored "Menu" "menu" "biz" 2 eq_refl eq_refl eq_refl eq_refl)
    as [component [w' [Hrun [_ [Hstatus _]]]]].
  exists component, w'. split; [exact Hrun | exact Hstatus].
Defined.

End Validation.

(** * Further properties of the code *)

(** ** The page of the component search *)

Section PageFacts.
Import Str Sql RegistryService Reference.

(** The page of the component search is cut on the rows of the join.  On
    the sample store, where the component [Button] has two examples, the
    page of two rows behind the first holds [Button] alone, and the page
    behind the third row holds [Card], the third component. *)
Example page_counts_join_rows :
  (exists r w',
     searchComponents None None (Some 2) (Some 1) (start Sample.shop)
     = (Return r, w')
     /\ map ci_name (SearchResult.items r) = ["Button"]
     /\ SearchResult.totalCount r = 3
     /\ SearchResult.hasMore r = false)
  /\ (exists r w',
        searchComponents None None (Some 10) (Some 3) (start Sample.shop)
        = (Return r, w')
        /\ map ci_name (SearchResult.items r) = ["Card"]
        /\ SearchResult.totalCount r = 3).
Proof.
  split; eexists _, _; (split; [vm_compute; reflexivity|]); now repeat split.
Qed.

Lemma length_window {A} (l : list A) (limit offset : Z) :
  0 <= limit -> 0 <= offset ->
  Z.of_nat (length (list.take (Z.to_nat limit) (drop (Z.to_nat offset) l))) =
  Z.min limit (Z.max 0 (Z.of_nat (length l) - offset)).
Proof.
  intros Hl Ho. rewrite length_take, length_drop. lia.
Qed.

Lemma insertBy_sorted {A} (key : A -> string) (x : A) (l : list A) :
  StronglySorted (fun a b => String.le (key a) (key b)) l ->
  StronglySorted (fun a b => String.le (key a) (key b)) (insertBy key x l).
Proof.
  induction 1 as [|y l Hl IH Hy]; simpl; [repeat constructor|].
  destruct (String.leb (key x) (key y)) eqn:Hxy.
  - constructor; [now constructor|]. constructor.
    + unfold String.le. now rewrite Hxy.
    + eapply Forall_impl; [exact Hy|]. intros z Hz. simpl in Hz.
      transitivity (key y); [|exact Hz]. unfold String.le. now rewrite Hxy.
  - constructor; [exact IH|].
    rewrite insertBy_perm. constructor; [|exact Hy].
    destruct (total String.le (key x) (key y)) as [H|H]; [|exact H].
    unfold String.le in H. rewrite Hxy in H. destruct H.
Qed.

(** [ORDER BY] yields rows in ascending order of the key. *)
Lemma sortBy_sorted {A} (key : A -> string) (l : list A) :
  StronglySorted (fun a b => String.le (key a) (key b)) (sortBy key l).
Proof.
  induction l as [|x l IH]; [constructor|].
  change (sortBy key (x :: l)) with (insertBy key x (sortBy key l)).
  now apply insertBy_sorted.
Qed.

End PageFacts.

(** ** What a search reads of its arguments *)

Section Arguments.
Import Str Sql RegistryService Reference.

(** Two builders that select the same rows, in the same order and window,
    return the same rows. *)
Lemma getMany_ext {R} (qb qb' : SelectQueryBuilder R) (rows : list R) :
  (forall row, selects qb row = selects qb' row) ->
  ordering qb = ordering qb' -> taken qb = taken qb' ->
  skipped qb = skipped qb' ->
  getMany qb rows = getMany qb' rows.
Proof.
  intros Hsel Hord Htake Hskip. unfold getMany, page, sorted.
  rewrite Hord, Htake, Hskip.
  now rewrite (list_filter_iff _ (fun row => selects qb' row))
    by (intros row; now rewrite Hsel).
Qed.

Lemma getCount_ext {R} (qb qb' : SelectQueryBuilder R) (rows : list R) :
  (forall row, selects qb row = selects qb' row) ->
  getCount qb rows = getCount qb' rows.
Proof.
  intros Hsel. unfold getCount.
  now rewrite (list_filter_iff _ (fun row => selects qb' row))
    by (intros row; now rewrite Hsel).
Qed.

Lemma nameOrSlugIn_ext (names names' : list string) (r : UIRegistry.t) :
  (forall x, x ∈ names <-> x ∈ names') ->
  nameOrSlugIn names r = nameOrSlugIn names' r.
Proof.
  intros H. unfold nameOrSlugIn, IN.
  now rewrite !(bool_decide_ext _ _ (H _)).
Qed.

Lemma lookup_ext (names names' : list string) (rows : list UIRegistry.t) :
  (forall x, x ∈ names <-> x ∈ names') ->
  getMany (andWhere [fun r => IN (UIRegistry.name r) names;
                     fun r => IN (UIRegistry.slug r) names]
             createQueryBuilder) rows =
  getMany (andWhere [fun r => IN (UIRegistry.name r) names';
                     fun r => IN (UIRegistry.slug r) names']
             createQueryBuilder) rows.
Proof.
  intros H. rewrite !lookup_getMany. apply list_filter_iff.
  intros r. now rewrite (nameOrSlugIn_ext _ _ r H).
Qed.

(** X3.  The search operations read their registry identifiers as a set
    of names without the leading [@]: two lists that are not empty and hold
    the same names once the [@] is removed (in any order, with or without
    repetitions) give the same outcome and issue the same queries. *)
Theorem identifiers_are_a_set (name name' : string) (names names' : list string) :
  (forall x, x ∈ cleanNamesOf (name :: names)
             <-> x ∈ cleanNamesOf (name' :: names')) ->
  (forall query limit offset w,
     searchComponents (Some (name :: names)) query limit offset w =
     searchComponents (Some (name' :: names')) query limit offset w)
  /\ (forall query options w,
        searchExamples (Some (name :: names)) query options w =
        searchExamples (Some (name' :: names')) query options w)
  /\ (forall w,
        searchAllRegistries (Some (name :: names)) w =
        searchAllRegistries (Some (name' :: names')) w)
  /\ (forall limit offset w,
        searchRegistries (Some (name :: names)) limit offset w =
        searchRegistries (Some (name' :: names')) limit offset w).
Proof.
  intros Hset. split; [|split; [|split]].
  - intros query limit offset w. unfold searchComponents, tryCatch.
    change (suppliedNames (Some (name :: names))) with (Some (name :: names)).
    change (suppliedNames (Some (name' :: names'))) with (Some (name' :: names')).
    cbv beta iota zeta. unfold mbind, Async_bind, await.
    destruct (failure (store w) (ui_registry, GetMany)); [reflexivity|].
    now rewrite (lookup_ext _ _ _ Hset).
  - intros query options w. unfold searchExamples, tryCatch.
    change (suppliedNames (Some (name :: names))) with (Some (name :: names)).
    change (suppliedNames (Some (name' :: names'))) with (Some (name' :: names')).
    cbv beta iota zeta. unfold mbind, Async_bind, await.
    destruct (failure (store w) (ui_registry, GetMany)); [reflexivity|].
    now rewrite (lookup_ext _ _ _ Hset).
  - intros w. unfold searchAllRegistries, tryCatch, mbind, Async_bind, await.
    destruct (failure (store w) (ui_registry, GetMany)); [reflexivity|].
    rewrite (getMany_ext (allRegistriesQuery (Some (name :: names)))
               (allRegistriesQuery (Some (name' :: names')))); try reflexivity.
    intros row. rewrite !allRegistriesQuery_selects. unfold IN.
    now rewrite !(bool_decide_ext _ _ (Hset _)).
  - intros limit offset w.
    assert (Hsel : forall row,
               selects (registriesWhere (Some (name :: names)) createQueryBuilder) row =
               selects (registriesWhere (Some (name' :: names')) createQueryBuilder) row).
    { intros row. unfold registriesWhere, selects, andWhere, holds.
      cbn -[nameOrSlugIn cleanNamesOf].
      now rewrite (nameOrSlugIn_ext _ _ row Hset). }
    unfold searchRegistries, tryCatch, mbind, Async_bind, await.
    destruct (failure (store w) (ui_registry, GetMany)); [reflexivity|].
    rewrite (getMany_ext
               (skip (default 0 offset) (take (default 50 limit)
                  (orderBy UIRegistry.name
                     (registriesWhere (Some (name :: names)) createQueryBuilder))))
               (skip (default 0 offset) (take (default 50 limit)
                  (orderBy UIRegistry.name
                     (registriesWhere (Some (name' :: names')) createQueryBuilder)))));
      try reflexivity; [|intros row; apply Hsel].
    destruct (Nat.eqb _ 0); [reflexivity|].
    unfold issue. cbn [store issued].
    destruct (failure (store w) (ui_component, GetMany)); [reflexivity|].
    cbn [store issued].
    destruct (failure (store w) (ui_registry, GetCount)); [reflexivity|].
    now rewrite (getCount_ext _ _ _ Hsel).
Qed.

Lemma identifiers_are_a_set_witness :
  searchComponents (Some ["@antd"; "shadcn"]) None None None (start Sample.shop) =
  searchComponents (Some ["shadcn"; "antd"; "@antd"]) None None None
    (start Sample.shop).
Proof.
  apply (identifiers_are_a_set "@antd" "shadcn" ["shadcn"] ["antd"; "@antd"]).
  intros x. vm_compute cleanNamesOf. rewrite !elem_of_cons, !elem_of_nil. tauto.
Defined.

End Arguments.

Section QueryCase.
Import Str Sql RegistryService Reference.

Lemma fuzzy_lower (q q' : string) (c : UIComponent.t) :
  lower q = lower q' -> fuzzy q c = fuzzy q' c.
Proof.
  intros H. unfold fuzzy, ilikeOpt, ilike.
  now rewrite !lower_wrapPercent, H.
Qed.

Lemma fuzzyExample_lower (q q' : string) (row : ExampleRow) :
  lower q = lower q' -> fuzzyExample q row = fuzzyExample q' row.
Proof.
  intros H. unfold fuzzyExample, ilike.
  now rewrite !lower_wrapPercent, H.
Qed.

Lemma selects_countQuery_lower registryIds (q q' : string) (c : UIComponent.t) :
  lower q = lower q' ->
  selects (countQuery registryIds (Some q)) c =
  selects (countQuery registryIds (Some q')) c.
Proof.
  intros H. rewrite !selects_countQuery.
  destruct q, q'; try discriminate; [reflexivity|].
  unfold suppliedQuery, orUndefined. cbn [truthy].
  now rewrite (fuzzy_lower _ _ c H).
Qed.

Lemma selects_examplesQuery_lower registryIds (q q' : string) limit row :
  lower q = lower q' ->
  selects (examplesQuery registryIds (Some q) limit) row =
  selects (examplesQuery registryIds (Some q') limit) row.
Proof.
  intros H. unfold examplesQuery, selects.
  destruct q, q'; try discriminate; [reflexivity|].
  unfold suppliedQuery, orUndefined. cbn [truthy].
  destruct (suppliedIds registryIds); cbn -[fuzzyExample]; unfold holds;
    cbn -[fuzzyExample]; now rewrite (fuzzyExample_lower _ _ row H).
Qed.

(** Two text filters that select the same component rows give the same
    run of the paged fetch, the backfill and the count. *)
Lemma fetchAndCount_ext registryIds query query' limit offset (w : World) :
  (forall c, selects (countQuery registryIds query) c =
             selects (countQuery registryIds query') c) ->
  fetchAndCount registryIds query limit offset w =
  fetchAndCount registryIds query' limit offset w.
Proof.
  intros Hsel. unfold fetchAndCount, afterFetch, mbind, Async_bind, await.
  destruct (failure (store w) (ui_component, GetMany)); [reflexivity|].
  rewrite (getManyJoined_ext _ _ (pagedQuery registryIds query limit offset)
             (pagedQuery registryIds query' limit offset));
    try (unfold pagedQuery;
         now destruct (suppliedIds registryIds), (suppliedQuery query),
           (suppliedQuery query')).
  - destruct (attachRegistries _ _) as [[components|message] w1]; [|reflexivity].
    destruct (failure (store w1) (ui_component, GetCount)); [reflexivity|].
    now rewrite (getCount_ext _ _ _ Hsel).
  - intros row.
    now rewrite <- !(selects_same registryIds _ limit offset), Hsel.
Qed.

Lemma fetchExamples_ext registryIds query query' limit (w : World) :
  (forall row, selects (examplesQuery registryIds query limit) row =
               selects (examplesQuery registryIds query' limit) row) ->
  fetchExamples registryIds query limit w =
  fetchExamples registryIds query' limit w.
Proof.
  intros Hsel. unfold fetchExamples, mbind, Async_bind, await.
  destruct (failure (store w) (ui_component_example, GetMany)); [reflexivity|].
  now rewrite (getMany_ext (examplesQuery registryIds query limit)
                 (examplesQuery registryIds query' limit))
    by (first [exact Hsel
              | unfold examplesQuery;
                now destruct (suppliedIds registryIds), (suppliedQuery query),
                  (suppliedQuery query')]).
Qed.

(** X4.  The text filter of [searchComponents] and of [searchExamples]
    does not see the case of the query's (ASCII) letters: two queries with
    the same lower-case form give the same outcome and the same queries,
    whatever the store, the identifiers and the window. *)
Theorem query_case_is_ignored (q q' : string) :
  lower q = lower q' ->
  (forall registryNames limit offset w,
     searchComponents registryNames (Some q) limit offset w =
     searchComponents registryNames (Some q') limit offset w)
  /\ (forall registrySlugs options w,
        searchExamples registrySlugs (Some q) options w =
        searchExamples registrySlugs (Some q') options w).
Proof.
  intros H. split.
  - intros registryNames limit offset w. unfold searchComponents, tryCatch.
    destruct (suppliedNames registryNames) as [supplied|].
    + cbv zeta. unfold mbind, Async_bind, await.
      destruct (failure (store w) (ui_registry, GetMany)); [reflexivity|].
      destruct (Nat.eqb _ 0); [reflexivity|].
      now rewrite (fetchAndCount_ext _ (Some q) (Some q'))
        by (intros c; now apply selects_countQuery_lower).
    + now rewrite (fetchAndCount_ext _ (Some q) (Some q'))
        by (intros c; now apply selects_countQuery_lower).
  - intros registrySlugs options w. unfold searchExamples, tryCatch.
    destruct (suppliedNames registrySlugs) as [supplied|].
    + cbv zeta. unfold mbind, Async_bind, await.
      destruct (failure (store w) (ui_registry, GetMany)); [reflexivity|].
      destruct (Nat.eqb _ 0); [reflexivity|].
      now rewrite (fetchExamples_ext _ (Some q) (Some q'))
        by (intros c; now apply selects_examplesQuery_lower).
    + now rewrite (fetchExamples_ext _ (Some q) (Some q'))
        by (intros c; now apply selects_examplesQuery_lower).
Qed.

Lemma query_case_is_ignored_witness :
  searchComponents None (Some "BUTTON") None None (start Sample.shop) =
  searchComponents None (Some "button") None None (start Sample.shop).
Proof. apply (query_case_is_ignored "BUTTON" "button"). reflexivity. Defined.

End QueryCase.

(** ** Registries with their components *)

Section Registries.
Import Str Sql RegistryService Reference.

Lemma insertBy_least {A} (key : A -> string) (x : A) (l : list A) :
  Forall (fun z => String.le (key x) (key z)) l -> insertBy key x l = x :: l.
Proof.
  destruct 1 as [|z l Hz _]; [reflexivity|]. simpl.
  unfold String.le in Hz. now destruct (String.leb (key x) (key z)).
Qed.

Lemma filter_insertBy {A} (key : A -> string) (P : A -> Prop)
  `{forall x, Decision (P x)} (x : A) (l : list A) :
  StronglySorted (fun a b => String.le (key a) (key b)) l ->
  filter P (insertBy key x l) =
  if decide (P x) then insertBy key x (filter P l) else filter P l.
Proof.
  induction 1 as [|y l Hl IH Hy]; simpl.
  - rewrite filter_cons, filter_nil. now destruct (decide (P x)).
  - destruct (String.leb (key x) (key y)) eqn:Hxy.
    + rewrite filter_cons. destruct (decide (P x)) as [Hx|Hx]; [|reflexivity].
      rewrite insertBy_least; [reflexivity|].
      apply Forall_forall. intros z Hz.
      apply list_elem_of_filter in Hz as [_ Hz].
      assert (Hle : String.le (key x) (key y))
        by (unfold String.le; now rewrite Hxy).
      apply elem_of_cons in Hz as [->|Hz]; [exact Hle|].
      rewrite Forall_forall in Hy. transitivity (key y); [exact Hle|].
      now apply Hy.
    + rewrite !(filter_cons _ y), IH.
      destruct (decide (P y)), (decide (P x)); simpl; rewrite ?Hxy; reflexivity.
Qed.

(** A stable sort and a filter commute. *)
Lemma filter_sortBy {A} (key : A -> string) (P : A -> Prop)
  `{forall x, Decision (P x)} (l : list A) :
  filter P (sortBy key l) = sortBy key (filter P l).
Proof.
  induction l as [|x l IH]; [reflexivity|].
  change (sortBy key (x :: l)) with (insertBy key x (sortBy key l)).
  rewrite filter_insertBy by apply sortBy_sorted.
  rewrite filter_cons, IH. now destruct (decide (P x)).
Qed.

(** Step 4: what the [Map] holds for a registry id. *)
Lemma groupByRegistryId_lookup (l : list UIComponent.t) (k : Z) :
  default [] (groupByRegistryId l !! k) =
  filter (fun c => UIComponent.registryId c = k) l.
Proof.
  unfold groupByRegistryId.
  enough (Hany : forall m : gmap Z (list UIComponent.t),
             default []
               (foldl (fun m component =>
                         let k := UIComponent.registryId component in
                         <[k := (default [] (m !! k) ++ [component])%list]> m)
                      m l !! k) =
             (default [] (m !! k)
              ++ filter (fun c => UIComponent.registryId c = k) l)%list).
  { rewrite Hany. now rewrite lookup_empty. }
  induction l as [|c l IH]; intros m; simpl.
  - now rewrite filter_nil, app_nil_r.
  - rewrite IH, filter_cons.
    destruct (decide (UIComponent.registryId c = k)) as [->|Hne].
    + rewrite lookup_insert_eq. simpl. now rewrite <- app_assoc.
    + now rewrite lookup_insert_ne.
Qed.

Lemma registryPage_window (s : Store) registryNames (limit offset : Z) :
  getMany (skip offset (take limit (orderBy UIRegistry.name
             (registriesWhere registryNames createQueryBuilder))))
          (registryRows s) =
  window (Some limit) (Some offset) (namedRegistries s registryNames).
Proof.
  unfold getMany, page, sorted, namedRegistries.
  cbn [skip take orderBy ordering taken skipped].
  do 2 f_equal. apply list_filter_iff. intros r.
  unfold registriesWhere, selects, named.
  destruct (suppliedNames registryNames); cbn -[nameOrSlugIn cleanNamesOf].
  - unfold holds. cbn -[nameOrSlugIn cleanNamesOf]. now rewrite orb_false_r.
  - reflexivity.
Qed.

Lemma registryCount (s : Store) registryNames :
  getCount (registriesWhere registryNames createQueryBuilder) (registryRows s) =
  Z.of_nat (length (namedRegistries s registryNames)).
Proof.
  unfold getCount, namedRegistries. rewrite length_sortBy. do 2 f_equal.
  apply list_filter_iff. intros r.
  unfold registriesWhere, selects, named.
  destruct (suppliedNames registryNames); cbn -[nameOrSlugIn cleanNamesOf].
  - unfold holds. cbn -[nameOrSlugIn cleanNamesOf]. now rewrite orb_false_r.
  - reflexivity.
Qed.

Lemma componentsOf_group (s : Store) (registryIds : list Z) (k : Z) :
  k ∈ registryIds ->
  default []
    (groupByRegistryId
       (getMany (orderBy UIComponent.name
                   (andWhere [fun c => IN (UIComponent.registryId c) registryIds]
                      createQueryBuilder))
                (map (fun c => joinExamples s (bare c)) (componentRows s)))
     !! k) =
  componentsIn s k.
Proof.
  intros Hk. rewrite groupByRegistryId_lookup.
  unfold getMany, page, window, sorted, componentsIn.
  cbn [orderBy andWhere createQueryBuilder ordering taken skipped].
  rewrite filter_sortBy. f_equal. rewrite list_filter_filter.
  apply list_filter_iff. intros c. unfold selects, holds, IN. simpl.
  rewrite orb_false_r. split; [tauto|]. intros Hc. split; [exact Hc|].
  apply bool_decide_pack. now rewrite Hc.
Qed.

(** The run of [searchRegistries] on a store that answers. *)
Lemma searchRegistries_healthy registryNames limit offset (w : World) :
  healthy (store w) ->
  let l := default 50 limit in
  let o := default 0 offset in
  let registries :=
    window (Some l) (Some o) (namedRegistries (store w) registryNames) in
  searchRegistries registryNames limit offset w =
  if Nat.eqb (length registries) 0 then
    (Return {| SearchResult.items := []; SearchResult.totalCount := 0;
               SearchResult.hasMore := false;
               SearchResult.limit := l; SearchResult.offset := o |},
     issue (ui_registry, GetMany) w)
  else
    (Return
       {| SearchResult.items :=
            map (fun r => formatRegistry (withComponentsIn (store w) r) true)
                registries;
          SearchResult.totalCount :=
            Z.of_nat (length (namedRegistries (store w) registryNames));
          SearchResult.hasMore :=
            o + l <? Z.of_nat (length (namedRegistries (store w) registryNames));
          SearchResult.limit := l; SearchResult.offset := o |},
     issue (ui_registry, GetCount)
       (issue (ui_component, GetMany) (issue (ui_registry, GetMany) w))).
Proof.
  intros Hs l o registries.
  unfold searchRegistries, tryCatch, mbind, Async_bind.
  rewrite await_answered by apply Hs.
  rewrite registryPage_window. fold l o registries.
  destruct (Nat.eqb (length registries) 0); [reflexivity|].
  rewrite await_answered by apply Hs.
  rewrite await_answered by apply Hs.
  unfold issue. cbn [store issued]. rewrite registryCount.
  unfold mret, Async_ret. do 3 f_equal.
  rewrite map_map. apply map_ext_in. intros r Hr.
  unfold withComponentsIn. do 3 f_equal.
  apply componentsOf_group. apply list_elem_of_fmap. exists r.
  split; [reflexivity|]. now apply list_elem_of_In.
Qed.

Lemma window_take_drop {A} (n m : Z) (l : list A) :
  0 < n ->
  window (Some n) (Some m) l = list.take (Z.to_nat n) (drop (Z.to_nat m) l).
Proof. intros Hn. unfold window. now destruct (Z.eqb_spec n 0); [lia|]. Qed.

Lemma elem_of_componentsIn (s : Store) (k : Z) (c : UIComponent.t) :
  c ∈ componentsIn s k <->
  exists row, row ∈ componentRows s /\ UIComponent.registryId row = k
              /\ c = joinExamples s (bare row).
Proof.
  unfold componentsIn.
  rewrite sortBy_perm, list_elem_of_filter, list_elem_of_fmap. split.
  - intros [Hk [row [-> Hrow]]]. exists row. split; [exact Hrow|].
    split; [|reflexivity]. destruct row; exact Hk.
  - intros [row [Hrow [Hk ->]]]. split; [destruct row; exact Hk|].
    exists row. split; [reflexivity | exact Hrow].
Qed.

Lemma length_componentsIn (s : Store) (k : Z) :
  length (componentsIn s k) =
  length (filter (fun c => UIComponent.registryId c = k) (componentRows s)).
Proof.
  unfold componentsIn. rewrite length_sortBy.
  induction (componentRows s) as [|c l IH]; [reflexivity|].
  simpl map. rewrite !filter_cons.
  replace (UIComponent.registryId (joinExamples s (bare c)))
    with (UIComponent.registryId c) by (now destruct c).
  destruct (decide (UIComponent.registryId c = k)); simpl; now rewrite IH.
Qed.

(** The ids of the components of a registry are the ids of the rows with
    its id. *)
Lemma ids_componentsIn (s : Store) (k : Z) :
  map ci_id (map formatComponent (componentsIn s k))
  ≡ₚ map UIComponent.id
       (filter (fun c => UIComponent.registryId c = k) (componentRows s)).
Proof.
  unfold componentsIn. rewrite map_map, sortBy_perm.
  induction (componentRows s) as [|c l IH]; [reflexivity|].
  cbn [map]. rewrite !filter_cons.
  replace (UIComponent.registryId (joinExamples s (bare c)))
    with (UIComponent.registryId c) by (now destruct c).
  destruct (decide (UIComponent.registryId c = k)); [|exact IH].
  cbn [map]. now rewrite IH.
Qed.

Lemma elem_of_namedRegistries (s : Store) registryNames (r : UIRegistry.t) :
  r ∈ namedRegistries s registryNames <->
  r ∈ registryRows s /\ named registryNames r = true.
Proof.
  unfold namedRegistries. rewrite sortBy_perm, list_elem_of_filter.
  rewrite Is_true_true. tauto.
Qed.

(** X5.  On a store that answers, every item of [searchRegistries] is a
    stored registry that the identifiers name (any registry when none is
    supplied), and it holds the components of the store with its id, each
    once whatever the page, with [exampleCount] the number of stored
    examples of the component: the grouping of step 4 loses and misplaces
    nothing.  With no offset and a limit that holds the registries named,
    every one of them has its item. *)
Theorem searchRegistries_lists_components (s : Store) registryNames limit offset :
  healthy s ->
  exists r w',
    searchRegistries registryNames limit offset (start s) = (Return r, w')
    /\ (forall item, item ∈ SearchResult.items r ->
          exists registry nested,
            registry ∈ registryRows s
            /\ named registryNames registry = true
            /\ ri_id item = UIRegistry.id registry
            /\ ri_slug item = UIRegistry.slug registry
            /\ ri_name item = UIRegistry.name registry
            /\ ri_components item = Some nested
            /\ map ci_id nested
               ≡ₚ map UIComponent.id
                    (filter (fun c => UIComponent.registryId c
                                      = UIRegistry.id registry)
                            (componentRows s))
            /\ forall ci, ci ∈ nested ->
                 exampleCount ci =
                 Z.of_nat (length (filter (fun e => UIComponentExample.componentId e
                                                    = ci_id ci)
                                          (exampleRows s))))
    /\ (default 0 offset = 0 ->
        Z.of_nat (length (filter (fun registry => named registryNames registry)
                                 (registryRows s)))
        <= default 50 limit ->
        forall registry,
          registry ∈ registryRows s -> named registryNames registry = true ->
          exists item, item ∈ SearchResult.items r
                       /\ ri_id item = UIRegistry.id registry).
Proof.
  intros Hs.
  pose proof (searchRegistries_healthy registryNames limit offset (start s) Hs)
    as Hrun.
  cbv zeta in Hrun. cbn [start store] in Hrun.
  set (registries := window (Some (default 50 limit)) (Some (default 0 offset))
                       (namedRegistries s registryNames)) in *.
  assert (Hitems : forall item,
             item ∈ map (fun r => formatRegistry (withComponentsIn s r) true)
                        registries ->
             exists registry nested,
               registry ∈ registryRows s
               /\ named registryNames registry = true
               /\ ri_id item = UIRegistry.id registry
               /\ ri_slug item = UIRegistry.slug registry
               /\ ri_name item = UIRegistry.name registry
               /\ ri_components item = Some nested
               /\ map ci_id nested
                  ≡ₚ map UIComponent.id
                       (filter (fun c => UIComponent.registryId c
                                         = UIRegistry.id registry)
                               (componentRows s))
               /\ forall ci, ci ∈ nested ->
                    exampleCount ci =
                    Z.of_nat (length (filter
                                        (fun e => UIComponentExample.componentId e
                                                  = ci_id ci)
                                        (exampleRows s)))).
  { intros item Hitem. apply list_elem_of_fmap in Hitem as [registry [-> Hin]].
    exists registry, (map formatComponent (componentsIn s (UIRegistry.id registry))).
    assert (Hnamed : registry ∈ namedRegistries s registryNames)
      by (apply (elem_of_sublist _ _ _ Hin), window_sublist).
    apply elem_of_namedRegistries in Hnamed as [Hrow Hnamed].
    do 6 (split; [assumption || reflexivity|]).
    split; [apply ids_componentsIn|].
    intros ci Hci. apply list_elem_of_fmap in Hci as [c [-> Hc]].
    apply elem_of_componentsIn in Hc as [row [_ [_ ->]]].
    cbn. unfold examplesOf. now rewrite length_sortBy. }
  assert (Hall : default 0 offset = 0 ->
                 Z.of_nat (length (filter (fun registry => named registryNames registry)
                                          (registryRows s)))
                 <= default 50 limit ->
                 registries = namedRegistries s registryNames).
  { intros Ho Hl. unfold registries. rewrite Ho. apply window_all; [now right|].
    unfold namedRegistries. now rewrite length_sortBy. }
  destruct (Nat.eqb _ 0) eqn:Hempty.
  - eexists _, _. split; [exact Hrun|]. cbn [SearchResult.items]. split.
    + intros item Hitem. now apply elem_of_nil in Hitem.
    + intros Ho Hl registry Hrow Hnamed. exfalso.
      apply length_zero_nil in Hempty. rewrite (Hall Ho Hl) in Hempty.
      assert (Hin : registry ∈ namedRegistries s registryNames)
        by (now apply elem_of_namedRegistries).
      rewrite Hempty in Hin. now apply elem_of_nil in Hin.
  - eexists _, _. split; [exact Hrun|]. cbn [SearchResult.items]. split.
    + exact Hitems.
    + intros Ho Hl registry Hrow Hnamed.
      exists (formatRegistry (withComponentsIn s registry) true).
      split; [|reflexivity]. apply list_elem_of_fmap. exists registry.
      split; [reflexivity|]. rewrite (Hall Ho Hl).
      now apply elem_of_namedRegistries.
Qed.

Lemma searchRegistries_lists_components_witness :
  exists r w',
    searchRegistries (Some ["@antd"]) None None (start Sample.shop) = (Return r, w')
    /\ map ri_slug (SearchResult.items r) = ["antd"]
    /\ map componentCount (SearchResult.items r) = [1].
Proof.
  destruct (searchRegistries_lists_components Sample.shop (Some ["@antd"]) None None
              (fun q => eq_refl)) as [r [w' [Hrun _]]].
  exists r, w'. split; [exact Hrun|].
  pose proof Hrun as Hv. vm_compute in Hv. injection Hv as <- _.
  split; reflexivity.
Defined.

(** X6.  Within the registries that exist ([0 <= offset < their number],
    [0 < limit]), [searchRegistries] issues its three queries,
    [totalCount] is the number of registries that the identifiers name, at
    most [limit] items come back and [hasMore] says whether registries
    remain behind the returned ones. *)
Theorem searchRegistries_page (s : Store) registryNames limit offset :
  healthy s ->
  0 < default 50 limit ->
  0 <= default 0 offset < Z.of_nat (length (namedRegistries s registryNames)) ->
  exists r,
    searchRegistries registryNames limit offset (start s) =
    (Return r, {| store := s;
                  issued := [(ui_registry, GetMany); (ui_component, GetMany);
                             (ui_registry, GetCount)] |})
    /\ SearchResult.totalCount r =
       Z.of_nat (length (namedRegistries s registryNames))
    /\ Z.of_nat (length (SearchResult.items r)) =
       Z.min (default 50 limit) (SearchResult.totalCount r - default 0 offset)
    /\ SearchResult.hasMore r =
       (default 0 offset + Z.of_nat (length (SearchResult.items r))
        <? SearchResult.totalCount r).
Proof.
  intros Hs Hl Ho.
  pose proof (searchRegistries_healthy registryNames limit offset (start s) Hs)
    as Hrun.
  cbv zeta in Hrun. cbn [start store] in Hrun.
  pose proof (length_window (namedRegistries s registryNames)
                (default 50 limit) (default 0 offset)) as Hlen.
  rewrite (window_take_drop _ _ _ Hl) in Hrun.
  destruct (Nat.eqb _ 0) eqn:Hempty.
  - apply Nat.eqb_eq in Hempty. rewrite Hempty in Hlen. lia.
  - eexists. split; [exact Hrun|]. cbn [SearchResult.totalCount
      SearchResult.items SearchResult.hasMore].
    rewrite length_map. split; [reflexivity|]. split; [lia|].
    rewrite Hlen by lia.
    destruct (Z.ltb_spec (default 0 offset + default 50 limit)
                (Z.of_nat (length (namedRegistries s registryNames))));
      symmetry; [apply Z.ltb_lt | apply Z.ltb_ge]; lia.
Qed.

Lemma searchRegistries_page_witness :
  exists r w',
    searchRegistries None (Some 1) (Some 0) (start Sample.shop) = (Return r, w')
    /\ SearchResult.totalCount r = 2
    /\ SearchResult.hasMore r = true.
Proof.
  destruct (searchRegistries_page Sample.shop None (Some 1) (Some 0)
              (fun q => eq_refl) eq_refl) as [r [Hrun [Hcount [_ Hmore]]]].
  - vm_compute. split; [discriminate | reflexivity].
  - exists r. eexists. split; [exact Hrun|].
    split; [exact Hcount|].
    rewrite Hmore. injection Hrun as <-. reflexivity.
Defined.

(** X7.  A page of [searchRegistries] that holds no registry is answered
    before the count query: when the offset is at or behind the last
    registry that the identifiers name, the result has no item,
    [totalCount = 0] and [hasMore = false], however many registries there
    are, and the registry query is the only one issued. *)
Theorem searchRegistries_past_the_end (s : Store) registryNames limit offset :
  healthy s ->
  Z.of_nat (length (namedRegistries s registryNames)) <= default 0 offset ->
  searchRegistries registryNames limit offset (start s) =
  (Return {| SearchResult.items := []; SearchResult.totalCount := 0;
             SearchResult.hasMore := false;
             SearchResult.limit := default 50 limit;
             SearchResult.offset := default 0 offset |},
   {| store := s; issued := [(ui_registry, GetMany)] |}).
Proof.
  intros Hs Ho.
  pose proof (searchRegistries_healthy registryNames limit offset (start s) Hs)
    as Hrun.
  cbv zeta in Hrun. cbn [start store] in Hrun.
  rewrite window_behind in Hrun by lia. exact Hrun.
Qed.

Lemma searchRegistries_past_the_end_witness :
  length (namedRegistries Sample.shop None) = 2%nat
  /\ exists r w',
       searchRegistries None (Some 10) (Some 2) (start Sample.shop) = (Return r, w')
       /\ SearchResult.totalCount r = 0.
Proof.
  split; [reflexivity|].
  eexists _, _. split.
  - apply (searchRegistries_past_the_end Sample.shop None (Some 10) (Some 2)
             (fun q => eq_refl)).
    vm_compute. discriminate.
  - reflexivity.
Defined.

(** X8.  The components nested in an item of [searchRegistries] are
    counted by the item's [componentCount], which is the number of
    component rows of the store with the registry's id; each belongs to
    that registry, and, the registry relation not being joined in this
    query, each has an empty [registrySlug] and [registryName] and its
    bare slug as [addCommandArgument]. *)
Theorem searchRegistries_nested_items (s : Store) registryNames limit offset :
  healthy s ->
  exists r w',
    searchRegistries registryNames limit offset (start s) = (Return r, w')
    /\ forall item, item ∈ SearchResult.items r ->
         exists nested,
           ri_components item = Some nested
           /\ componentCount item = Z.of_nat (length nested)
           /\ componentCount item =
              Z.of_nat (length (filter (fun c => UIComponent.registryId c = ri_id item)
                                       (componentRows s)))
           /\ forall ci, ci ∈ nested ->
                ci_registryId ci = ri_id item
                /\ registrySlug ci = EmptyString
                /\ registryName ci = EmptyString
                /\ addCommandArgument ci = ci_slug ci.
Proof.
  intros Hs.
  pose proof (searchRegistries_healthy registryNames limit offset (start s) Hs)
    as Hrun.
  cbv zeta in Hrun. cbn [start store] in Hrun.
  destruct (Nat.eqb _ 0);
    (eexists _, _; split; [exact Hrun|]); intros item Hitem;
    [now apply elem_of_nil in Hitem|].
  apply list_elem_of_fmap in Hitem as [registry [-> _]].
  exists (map formatComponent (componentsIn s (UIRegistry.id registry))).
  split; [reflexivity|]. split; [simpl; now rewrite length_map|].
  split; [simpl; now rewrite length_componentsIn|].
  intros ci Hci. apply list_elem_of_fmap in Hci as [c [-> Hc]].
  apply elem_of_componentsIn in Hc as [row [_ [Hk ->]]].
  destruct row. simpl in *. now subst.
Qed.

Lemma searchRegistries_nested_items_witness :
  exists r w',
    searchRegistries (Some ["antd"]) None None (start Sample.shop) = (Return r, w')
    /\ forall item, item ∈ SearchResult.items r ->
         exists nested,
           ri_components item = Some nested
           /\ forall ci, ci ∈ nested -> addCommandArgument ci = ci_slug ci.
Proof.
  destruct (searchRegistries_nested_items Sample.shop (Some ["antd"]) None None
              (fun q => eq_refl)) as [r [w' [Hrun Hitems]]].
  exists r, w'. split; [exact Hrun|]. intros item Hitem.
  destruct (Hitems item Hitem) as [nested [Hnested [_ [_ Hall]]]].
  exists nested. split; [exact Hnested|]. intros ci Hci.
  now destruct (Hall ci Hci) as [_ [_ [_ Harg]]].
Defined.

End Registries.

(** ** Examples *)

Section Examples.
Import Str Sql RegistryService Reference.

(** X9.  On a store that answers, for a limit above zero (20 when none is
    given), [searchExamples] returns stored examples that match, each
    formatted and none twice, as many as there are or as the limit allows:
    an example matches when its component lies in a registry that the
    identifiers name (when identifiers are supplied) and its name or slug
    matches the query pattern (when the query is not empty).  The store is
    left as it was, and the queries issued are the registry lookup (with
    identifiers) and the example query (unless the identifiers name no
    registry). *)
Theorem searchExamples_returns_matches (s : Store) registrySlugs query options :
  healthy s ->
  0 < default 20 options ->
  exists chosen w',
    searchExamples registrySlugs query options (start s)
    = (Return (map formatExample chosen), w')
    /\ store w' = s
    /\ issued w' = match resolvedIds s registrySlugs with
                   | Some [] => [(ui_registry, GetMany)]
                   | Some _ => [(ui_registry, GetMany);
                                (ui_component_example, GetMany)]
                   | None => [(ui_component_example, GetMany)]
                   end
    /\ chosen ⊆+ matchingExamples s registrySlugs query
    /\ length chosen =
       Nat.min (Z.to_nat (default 20 options))
               (length (matchingExamples s registrySlugs query)).
Proof. apply searchExamples_chosen. Qed.

Lemma searchExamples_returns_matches_witness :
  exists chosen w',
    searchExamples (Some ["@shadcn"]) (Some "button") (Some 1) (start Sample.shop)
    = (Return (map formatExample chosen), w')
    /\ length chosen = 1%nat.
Proof.
  destruct (searchExamples_returns_matches Sample.shop (Some ["@shadcn"])
              (Some "button") (Some 1) (fun q => eq_refl) eq_refl)
    as [chosen [w' [Hrun [_ [_ [_ Hlength]]]]]].
  exists chosen, w'. split; [exact Hrun | exact Hlength].
Defined.

(** X10.  On a store that answers, [get_item_examples_from_registries]
    works on the examples that [searchExamples] found with the limit 100:
    stored examples that match, none twice, a hundred of them or all.  It
    reports that nothing was found exactly when there is none; otherwise
    it hands the formatter the query and items of stored components, and
    each item holds the found examples of that component and no other,
    [exampleCount] counts these (not all examples of the component) and is
    at least one; every found example whose component is stored is in the
    item of that component.  The reply for examples without component
    information is not reached. *)
Theorem examples_tool_groups (s : Store) registries (query : string) :
  healthy s ->
  exists chosen answer w',
    Mcp.getItemExamplesFromRegistries registries query (start s)
    = (Return answer, w')
    /\ chosen ⊆+ matchingExamples s (option_map (map replaceLeadingAt) registries)
                                  (Some query)
    /\ length chosen =
       Nat.min 100
         (length (matchingExamples s (option_map (map replaceLeadingAt) registries)
                                   (Some query)))
    /\ match answer with
       | Mcp.NoExamplesFound => chosen = []
       | Mcp.MissingComponentInformation => False
       | Mcp.Examples componentItems q =>
           q = query /\ chosen <> []
           /\ (forall item, item ∈ componentItems ->
                 exists row,
                   row ∈ componentRows s
                   /\ ci_id item = UIComponent.id row
                   /\ ci_slug item = UIComponent.slug row
                   /\ ci_name item = UIComponent.name row
                   /\ ci_examples item =
                      filter (fun e => ex_componentId e = Some (UIComponent.id row))
                             (map formatExample chosen)
                   /\ exampleCount item = Z.of_nat (length (ci_examples item))
                   /\ 0 < exampleCount item)
           /\ (forall e row,
                 e ∈ chosen -> row ∈ componentRows s ->
                 UIComponent.id row = UIComponentExample.componentId e ->
                 exists item, item ∈ componentItems
                              /\ ci_id item = UIComponent.id row
                              /\ formatExample e ∈ ci_examples item)
       end.
Proof.
  intros Hs.
  destruct (examples_tool_healthy s registries query Hs)
    as [chosen [w' [Hrun [Hsub Hlength]]]].
  exists chosen. eexists _, w'. split; [exact Hrun|].
  split; [exact Hsub|]. split; [exact Hlength|].
  destruct chosen as [|e0 rest] eqn:Hchosen; [reflexivity|]. rewrite <- Hchosen.
  split; [reflexivity|]. split; [now rewrite Hchosen|]. split.
  - intros item Hitem. apply list_elem_of_fmap in Hitem as [c [-> Hc]].
    apply elem_of_componentsOfExamples in Hc as [row [Hrow [-> [e [He Hid]]]]].
    exists row. split; [exact Hrow|].
    do 5 (split; [reflexivity|]).
    cbn [exampleCount Mcp.componentItemOf]. rewrite id_withRelations.
    assert (Hin : formatExample e
                  ∈ filter (fun x => ex_componentId x = Some (UIComponent.id row))
                      (map formatExample chosen)).
    { apply list_elem_of_filter. split; [cbn; now rewrite Hid|].
      apply list_elem_of_fmap. now exists e. }
    destruct (filter _ (map formatExample chosen)) as [|x l];
      [now apply elem_of_nil in Hin|].
    cbn [length]. lia.
  - intros e row He Hrow Hid.
    exists (Mcp.componentItemOf (map formatExample chosen) (withRelations s row)).
    split; [|split; [reflexivity|]].
    + apply list_elem_of_fmap. exists (withRelations s row).
      split; [reflexivity|]. apply elem_of_componentsOfExamples.
      exists row. split; [exact Hrow|]. split; [reflexivity|]. exists e.
      now split.
    + apply list_elem_of_filter. split; [cbn; now rewrite Hid|].
      apply list_elem_of_fmap. now exists e.
Qed.

Lemma examples_tool_groups_witness :
  exists componentItems w',
    Mcp.getItemExamplesFromRegistries None "variants" (start Sample.shop)
    = (Return (Mcp.Examples componentItems "variants"), w')
    /\ map exampleCount componentItems = [1].
Proof.
  destruct (examples_tool_groups Sample.shop None "variants" (fun q => eq_refl))
    as [chosen [answer [w' [Hrun _]]]].
  pose proof Hrun as Hv. vm_compute in Hv. injection Hv as <- _.
  eexists _, w'. split; [exact Hrun | reflexivity].
Defined.

Lemma fetchExamples_componentIds registryIds query (n : Z) (w w' : World)
  (examples : list ComponentExample) :
  fetchExamples registryIds query n w = (Return examples, w') ->
  Forall (fun e => is_Some (ex_componentId e)) examples.
Proof.
  unfold fetchExamples, mbind, Async_bind, await.
  destruct (failure (store w) (ui_component_example, GetMany)); [discriminate|].
  intros [= <- _]. apply Forall_forall. intros e He.
  apply list_elem_of_fmap in He as [row [-> _]]. now eexists.
Qed.

(** Every example that [searchExamples] returns is made from a row of the
    example table, whose [componentId] column is not nullable: it carries
    the id of its component. *)
Lemma searchExamples_componentIds registrySlugs query options (w w' : World)
  (examples : list ComponentExample) :
  searchExamples registrySlugs query options w = (Return examples, w') ->
  Forall (fun e => is_Some (ex_componentId e)) examples.
Proof.
  unfold searchExamples, tryCatch.
  destruct (suppliedNames registrySlugs) as [names|].
  - unfold mbind, Async_bind, await.
    destruct (failure (store w) (ui_registry, GetMany)); [discriminate|].
    destruct (Nat.eqb _ 0).
    + intros [= <- _]. constructor.
    + match goal with
      | |- context [fetchExamples ?ids query ?n ?w0] =>
          destruct (fetchExamples ids query n w0) as [[l|msg] w1] eqn:Hfetch
      end; [|discriminate].
      intros [= <- _]. now apply fetchExamples_componentIds in Hfetch.
  - match goal with
    | |- context [fetchExamples None query ?n w] =>
        destruct (fetchExamples None query n w) as [[l|msg] w1] eqn:Hfetch
    end; [|discriminate].
    intros [= <- _]. now apply fetchExamples_componentIds in Hfetch.
Qed.

(** X11.  Whatever the store does, [get_item_examples_from_registries]
    never gives the reply for examples without component information:
    every example that the service returns carries the id of its
    component, so the ids that remain when the undefined ones are removed
    are not empty when the examples are not. *)
Theorem examples_tool_never_misses_components registries (query : string)
  (w : World) :
  (Mcp.getItemExamplesFromRegistries registries query w).1
  <> Return Mcp.MissingComponentInformation.
Proof.
  unfold Mcp.getItemExamplesFromRegistries, mbind, Async_bind.
  destruct (searchExamples _ _ _ w) as [[examples|message] w1] eqn:Hrun;
    [|discriminate].
  apply searchExamples_componentIds in Hrun.
  unfold Mcp.groupByComponent.
  destruct examples as [|e examples]; [discriminate|].
  apply Forall_cons in Hrun as [[componentId Hid] _].
  assert (Hids : omap ex_componentId (e :: examples)
                 = componentId :: omap ex_componentId examples)
    by (cbn; now rewrite Hid).
  rewrite Hids. cbn [unique length Nat.eqb].
  unfold mbind, Async_bind, await.
  destruct (failure (store w1) (ui_component, Find)); discriminate.
Qed.

End Examples.

(** ** Items by name *)

Section ItemsByName.
Import Str Sql RegistryService Reference Items.

Lemma itemsOf_healthy (itemName : string) (w : World) :
  healthy (store w) ->
  itemsOf itemName w =
  (Return (itemsNamed (store w) itemName), issue (queryOf itemName) w).
Proof.
  intros Hs. unfold itemsOf, itemsNamed, queryOf.
  destruct (matchItemName itemName) as [[registrySlug componentSlug]|];
    unfold mbind, Async_bind; rewrite await_answered by apply Hs;
    unfold mret, Async_ret.
  - now destruct (filter _ (componentRows (store w))).
  - now rewrite map_map.
Qed.

Lemma collect_healthy (itemNames : list string) (items : list ComponentItem)
  (w : World) :
  healthy (store w) ->
  collect itemNames items w =
  (Return (items ++ concat (map (itemsNamed (store w)) itemNames))%list,
   {| store := store w;
      issued := (issued w ++ map queryOf itemNames)%list |}).
Proof.
  revert items w. induction itemNames as [|itemName rest IH]; intros items w Hs.
  - simpl. unfold mret, Async_ret. rewrite !app_nil_r. now destruct w.
  - cbn [collect]. unfold mbind, Async_bind.
    rewrite itemsOf_healthy by exact Hs.
    rewrite IH by exact Hs. unfold issue. cbn [store issued map concat].
    now rewrite <- !app_assoc.
Qed.

(** X12.  On a store that answers, [getRegistryItems] asks one query per
    name, in the order of the names ([findOne] for a name of the form
    [@registry/component], [find] for any other), leaves the store as it
    was and returns the items of the names one after the other: at most one
    item for a name with a registry prefix, every component whose slug or
    name is the name for the others; a name given twice gives its items
    twice. *)
Theorem getRegistryItems_collects (s : Store) (itemNames : list string) :
  healthy s ->
  getRegistryItems itemNames (start s) =
  (Return (concat (map (itemsNamed s) itemNames)),
   {| store := s; issued := map queryOf itemNames |}).
Proof.
  intros Hs. unfold getRegistryItems, tryCatch.
  now rewrite (collect_healthy itemNames [] (start s) Hs).
Qed.

Lemma getRegistryItems_collects_witness :
  exists items w',
    getRegistryItems ["@shadcn/button"; "Card"; "card"] (start Sample.shop)
    = (Return items, w')
    /\ map addCommandArgument items = ["@shadcn/button"; "@antd/card"; "@antd/card"]
    /\ issued w' = [(ui_component, FindOne); (ui_component, Find);
                    (ui_component, Find)].
Proof.
  eexists _, _. split.
  - apply (getRegistryItems_collects Sample.shop). intros q. reflexivity.
  - split; vm_compute; reflexivity.
Defined.

Lemma splitAtSlash_append (registrySlug componentSlug : string) :
  splitAtSlash registrySlug = None ->
  splitAtSlash (registrySlug +:+ "/" +:+ componentSlug)
  = Some (registrySlug, componentSlug).
Proof.
  induction registrySlug as [|c rest IH]; intros Hnone.
  - reflexivity.
  - rewrite append_cons. simpl in *.
    destruct (Ascii.eqb c "/"); [discriminate|].
    destruct (splitAtSlash rest) as [[before after]|]; [discriminate|].
    now rewrite IH.
Qed.

(** The pattern reads back what [addCommandArgument] writes. *)
Lemma matchItemName_qualified (registrySlug componentSlug : string) :
  splitAtSlash registrySlug = None ->
  truthy registrySlug = true -> truthy componentSlug = true ->
  oneLine componentSlug = true ->
  matchItemName ("@" +:+ registrySlug +:+ "/" +:+ componentSlug)
  = Some (registrySlug, componentSlug).
Proof.
  intros Hslash Hr Hc Hline. rewrite append_cons, append_nil_l.
  unfold matchItemName. rewrite Ascii.eqb_refl.
  rewrite (splitAtSlash_append _ _ Hslash). now rewrite Hr, Hc, Hline.
Qed.

Lemma take_one_filter {A} (p : A -> bool) (l : list A) (x : A) :
  x ∈ l -> p x = true ->
  (forall y, y ∈ l -> p y = true -> y = x) ->
  list.take 1 (filter (fun y => p y) l) = [x].
Proof.
  intros Hx Hp Hunique.
  assert (Hin : x ∈ filter (fun y => p y) l)
    by (apply list_elem_of_filter; split; [now rewrite Hp | exact Hx]).
  destruct (filter (fun y => p y) l) as [|y rest] eqn:Hfilter;
    [now apply elem_of_nil in Hin|].
  assert (Hy : y ∈ filter (fun y => p y) l)
    by (rewrite Hfilter; apply list_elem_of_here).
  apply list_elem_of_filter in Hy as [Hpy Hy].
  simpl. f_equal. apply Hunique; [exact Hy|].
  now destruct (p y).
Qed.

(** X13.  The [addCommandArgument] of an item leads back to the item: for
    a component of the store whose registry is loaded, with a registry
    slug that is not empty and holds no [/], a component slug that is not
    empty and holds no line break, and no other component with the same
    slug in a registry with that slug, [getRegistryItems] of the
    component's [addCommandArgument] returns exactly the component's
    item. *)
Theorem getRegistryItems_round_trip (s : Store) (c : UIComponent.t)
  (r : UIRegistry.t) :
  healthy s ->
  c ∈ componentRows s ->
  UIComponent.registry (withRelations s c) = Some r ->
  splitAtSlash (UIRegistry.slug r) = None ->
  truthy (UIRegistry.slug r) = true ->
  truthy (UIComponent.slug c) = true ->
  oneLine (UIComponent.slug c) = true ->
  (forall c', c' ∈ componentRows s ->
     inRegistryWithSlug s (UIRegistry.slug r) (UIComponent.slug c) c' = true ->
     c' = c) ->
  exists w',
    getRegistryItems [addCommandArgument (formatComponent (withRelations s c))] (start s)
    = (Return [formatComponent (withRelations s c)], w').
Proof.
  intros Hs Hc Hr Hslash Hrslug Hcslug Hline Hunique.
  unfold getRegistryItems, tryCatch.
  rewrite (collect_healthy _ [] (start s) Hs). eexists. f_equal. f_equal.
  cbn [start store map concat app]. rewrite app_nil_r.
  assert (Harg : addCommandArgument (formatComponent (withRelations s c))
                 = "@" +:+ UIRegistry.slug r +:+ "/" +:+ UIComponent.slug c).
  { unfold formatComponent. cbn [addCommandArgument]. rewrite Hr.
    cbn [slugOrEmpty]. rewrite Hrslug. now destruct c. }
  unfold itemsNamed. rewrite Harg, matchItemName_qualified by assumption.
  rewrite (take_one_filter _ _ c Hc); [reflexivity| |exact Hunique].
  unfold inRegistryWithSlug. rewrite bool_decide_eq_true_2 by reflexivity.
  assert (Hof : registryOf s (UIComponent.registryId c) = Some r).
  { destruct c. unfold withRelations, joinExamples, joinRegistry, bare in Hr.
    simpl in Hr. now destruct (hydrates s _). }
  rewrite Hof. now rewrite bool_decide_eq_true_2.
Qed.

Lemma getRegistryItems_round_trip_witness :
  exists w',
    getRegistryItems ["@shadcn/button"] (start Sample.shop)
    = (Return [formatComponent
                 (withRelations Sample.shop
                    (Sample.component 1 1 "Button" "button"
                       (Some "A clickable button")))], w').
Proof.
  apply (getRegistryItems_round_trip Sample.shop
           (Sample.component 1 1 "Button" "button" (Some "A clickable button"))
           (Sample.registry 1 "shadcn/ui" "shadcn" true) (fun q => eq_refl));
    try reflexivity.
  - apply list_elem_of_here.
  - intros c' Hc' Hin. vm_compute in Hc'.
    repeat (apply elem_of_cons in Hc' as [->|Hc']; [try reflexivity; vm_compute in Hin; discriminate|]).
    now apply elem_of_nil in Hc'.
Defined.

Lemma failsWith_collect (itemNames : list string) (items : list ComponentItem) :
  failsWith unchanged (collect itemNames items).
Proof.
  revert items. induction itemNames as [|itemName rest IH]; intros items.
  - apply failsWith_ret.
  - cbn [collect]. apply failsWith_bind; [|intros found; apply IH].
    unfold itemsOf.
    destruct (matchItemName itemName) as [[registrySlug componentSlug]|];
      (apply failsWith_bind; [apply failsWith_await|intros; apply failsWith_ret]).
Qed.

(** X14.  Whatever the store does, [getRegistryItems] only reads: it
    leaves the store as it was; when it returns, every query it issued was
    answered; when a query fails it stops there, gives no item of the names
    before, and throws [Get registry items failed: ] followed by the
    message of the store. *)
Theorem getRegistryItems_failures (itemNames : list string) :
  failsWith (prefixed "Get registry items failed: ") (getRegistryItems itemNames).
Proof.
  unfold getRegistryItems. apply failsWith_rethrow, failsWith_collect.
Qed.

End ItemsByName.

(** ** The HTTP routes that write *)

Section Routes.
Import Str Sql RegistryService Reference.

Lemma orUndefined_Some (x : option string) (v : string) :
  orUndefined x = Some v -> x = Some v /\ truthy v = true.
Proof.
  destruct x as [s|]; simpl; [|discriminate].
  destruct (truthy s) eqn:Hs; [|discriminate]. now intros [= ->].
Qed.

(** X15.  [POST /api/components] always answers (a failure of the store
    becomes a 500 reply), with 201, 400, 404 or 500; it never touches the
    registry and example tables; a 400 or 404 reply leaves the store as it
    was; a 201 reply means that exactly one row was added to the component
    table, with an id above every id of the table and the name, slug and
    type of the body, and [stable] as status when the body gives none. *)
Theorem postComponent_effects (body : Http.ComponentBody) (w : World) :
  exists reply w',
    Http.postComponent body w = (Return reply, w')
    /\ Http.statusCode reply ∈ [201; 400; 404; 500]
    /\ registryRows (store w') = registryRows (store w)
    /\ exampleRows (store w') = exampleRows (store w)
    /\ (Http.statusCode reply = 400 \/ Http.statusCode reply = 404 ->
        store w' = store w)
    /\ (Http.statusCode reply = 201 ->
        exists saved,
          componentRows (store w') = (componentRows (store w) ++ [saved])%list
          /\ Forall (fun c => UIComponent.id c < UIComponent.id saved)
                    (componentRows (store w))
          /\ Http.b_name body = Some (UIComponent.name saved)
          /\ Http.b_slug body = Some (UIComponent.slug saved)
          /\ Http.b_type body = Some (UIComponent.type saved)
          /\ UIComponent.status saved = default "stable" (Http.b_status body)).
Proof.
  assert (Hin : forall n : Z, n = 201 \/ n = 400 \/ n = 404 \/ n = 500 ->
                              n ∈ [201; 400; 404; 500]).
  { intros n H. rewrite !elem_of_cons. tauto. }
  unfold Http.postComponent, tryCatch.
  destruct (orUndefined (Http.b_name body)) as [name|] eqn:Hname;
    [|eexists _, _; split; [reflexivity|]; cbn;
      repeat split; try discriminate; apply Hin; tauto].
  destruct (orUndefined (Http.b_slug body)) as [slug|] eqn:Hslug;
    [|eexists _, _; split; [reflexivity|]; cbn;
      repeat split; try discriminate; apply Hin; tauto].
  destruct (orUndefined (Http.b_type body)) as [type|] eqn:Htype;
    [|eexists _, _; split; [reflexivity|]; cbn;
      repeat split; try discriminate; apply Hin; tauto].
  apply orUndefined_Some in Hname as [Hname _].
  apply orUndefined_Some in Hslug as [Hslug _].
  apply orUndefined_Some in Htype as [Htype _].
  cbv zeta.
  assert (Hpersist : forall (finalRegistryId : Z) (w0 : World),
             store w0 = store w ->
             exists reply w',
               (let (o, w') :=
                  (savedComponent ←
                     Http.save
                       {| UIComponent.id := 0;
                          UIComponent.registryId := finalRegistryId;
                          UIComponent.name := name;
                          UIComponent.slug := slug;
                          UIComponent.type := type;
                          UIComponent.description := Http.b_description body;
                          UIComponent.dependencies :=
                            default [] (Http.b_dependencies body);
                          UIComponent.status :=
                            default "stable" (Http.b_status body);
                          UIComponent.metadata :=
                            default (∅ : Metadata) (Http.b_metadata body);
                          UIComponent.createdAt := 0;
                          UIComponent.updatedAt := 0;
                          UIComponent.registry := None;
                          UIComponent.examples := None |};
                   componentWithRelations ←
                     Http.findComponent (UIComponent.id savedComponent);
                   mret {| Http.statusCode := 201;
                           Http.json := Http.ComponentJson componentWithRelations |})
                    w0 in
                match o with
                | Return a => (Return a, w')
                | Throw message =>
                    (mret {| Http.statusCode := 500;
                             Http.json := Http.ErrorJson message |}
                     : Async Http.Response) w'
                end) = (Return reply, w')
               /\ Http.statusCode reply ∈ [201; 400; 404; 500]
               /\ registryRows (store w') = registryRows (store w)
               /\ exampleRows (store w') = exampleRows (store w)
               /\ (Http.statusCode reply = 400 \/ Http.statusCode reply = 404 ->
                   store w' = store w)
               /\ (Http.statusCode reply = 201 ->
                   exists saved,
                     componentRows (store w')
                     = (componentRows (store w) ++ [saved])%list
                     /\ Forall (fun c => UIComponent.id c < UIComponent.id saved)
                               (componentRows (store w))
                     /\ Http.b_name body = Some (UIComponent.name saved)
                     /\ Http.b_slug body = Some (UIComponent.slug saved)
                     /\ Http.b_type body = Some (UIComponent.type saved)
                     /\ UIComponent.status saved
                        = default "stable" (Http.b_status body))).
  { intros finalRegistryId w0 Hw0.
    unfold mbind, Async_bind, Http.save, Http.findComponent, await.
    rewrite Hw0.
    destruct (failure (store w) (ui_component, Save));
      [eexists _, _; split; [reflexivity|]; cbn; rewrite ?Hw0;
       repeat split; try discriminate; try (apply Hin; tauto);
       intros [H|H]; discriminate|].
    cbn [store failure].
    destruct (failure (store w) (ui_component, FindOne));
      (eexists _, _; split; [reflexivity|]); cbn;
      (split; [apply Hin; tauto|]); (split; [reflexivity|]);
      (split; [reflexivity|]); (split; [intros [H|H]; discriminate|]);
      [discriminate|].
    intros _. eexists. split; [reflexivity|]. cbn.
    split; [|now rewrite Hname, Hslug, Htype].
    apply Forall_forall. intros c Hc. now apply nextId_above. }
  destruct (Http.truthyId (Http.b_registryId body)) as [registryId|].
  - apply Hpersist. reflexivity.
  - destruct (orUndefined (Http.b_registrySlug body)) as [registrySlug|];
      [|eexists _, _; split; [reflexivity|]; cbn;
        repeat split; try discriminate; apply Hin; tauto].
    unfold mbind at 1. unfold Async_bind at 1. unfold await at 1.
    destruct (failure (store w) (ui_registry, FindOne));
      [eexists _, _; split; [reflexivity|]; cbn;
       repeat split; try discriminate; try (apply Hin; tauto);
       intros [H|H]; discriminate|].
    destruct (head _) as [registry|];
      [|eexists _, _; split; [reflexivity|]; cbn;
        repeat split; try discriminate; apply Hin; tauto].
    apply Hpersist. reflexivity.
Qed.

(** X16.  The save and the reload of [POST /api/components] are two
    steps: when the store saves the row and then fails to read it back, the
    reply is 500 with the store's message although the component was
    created. *)
Theorem postComponent_failed_reload (s : Store) (body : Http.ComponentBody)
  (name slug type message : string) (registryId : Z) :
  orUndefined (Http.b_name body) = Some name ->
  orUndefined (Http.b_slug body) = Some slug ->
  orUndefined (Http.b_type body) = Some type ->
  Http.truthyId (Http.b_registryId body) = Some registryId ->
  failure s (ui_component, Save) = None ->
  failure s (ui_component, FindOne) = Some message ->
  exists saved w',
    Http.postComponent body (start s)
    = (Return {| Http.statusCode := 500; Http.json := Http.ErrorJson message |}, w')
    /\ componentRows (store w') = (componentRows s ++ [saved])%list
    /\ UIComponent.name saved = name
    /\ UIComponent.slug saved = slug
    /\ UIComponent.registryId saved = registryId.
Proof.
  intros Hname Hslug Htype Hid Hsave Hfind.
  unfold Http.postComponent, tryCatch. rewrite Hname, Hslug, Htype, Hid.
  cbv zeta. unfold mbind, Async_bind, Http.save, Http.findComponent, await.
  cbn [start store]. rewrite Hsave. cbn [store failure]. rewrite Hfind.
  eexists _, _. split; [reflexivity|]. cbn. repeat split.
Qed.

Lemma postComponent_failed_reload_witness :
  exists saved w',
    Http.postComponent
      {| Http.b_registryId := Some 1; Http.b_registrySlug := None;
         Http.b_name := Some "Badge"; Http.b_slug := Some "badge";
         Http.b_type := Some "informational"; Http.b_description := None;
         Http.b_dependencies := None; Http.b_status := None;
         Http.b_introducedVersion := None; Http.b_deprecatedVersion := None;
         Http.b_metadata := None |}
      (start Sample.forgetful)
    = (Return {| Http.statusCode := 500;
                 Http.json := Http.ErrorJson "read timeout" |}, w')
    /\ componentRows (store w') = (componentRows Sample.forgetful ++ [saved])%list
    /\ UIComponent.name saved = "Badge"
    /\ UIComponent.slug saved = "badge"
    /\ UIComponent.registryId saved = 1.
Proof.
  apply (postComponent_failed_reload Sample.forgetful _ "Badge" "badge"
           "informational" "read timeout" 1); reflexivity.
Defined.

Lemma same_id_same_row (rows : list UIComponent.t) (a b : UIComponent.t) :
  NoDup (map UIComponent.id rows) -> a ∈ rows -> b ∈ rows ->
  UIComponent.id a = UIComponent.id b -> a = b.
Proof.
  induction rows as [|c rows IH]; intros Hnodup Ha Hb Hid.
  - now apply elem_of_nil in Ha.
  - simpl in Hnodup. apply NoDup_cons in Hnodup as [Hc Hnodup].
    apply elem_of_cons in Ha as [->|Ha]; apply elem_of_cons in Hb as [->|Hb].
    + reflexivity.
    + destruct Hc. rewrite Hid. apply list_elem_of_fmap. now exists b.
    + destruct Hc. rewrite <- Hid. apply list_elem_of_fmap. now exists a.
    + now apply IH.
Qed.

Lemma putChanges_refl (id : Z) (input : Http.ComponentBody) (done : Prop)
  (rows : list UIComponent.t) :
  ~ done -> Forall2 (putChanges id input done) rows rows.
Proof.
  intros Hnot. apply Forall_Forall2_diag, Forall_forall. intros row _.
  unfold putChanges. repeat split; tauto.
Qed.

(** X17.  [PUT /api/components/:id], on a table whose ids are distinct:
    the registry and example tables are untouched; the component table
    keeps its rows in number and order, and the id, the registry id and the
    creation time of each; a row with another id is left as it is; after a
    200 reply each field of the row with the id holds the value of the body
    when the body has the field and its old value otherwise (so a
    [registryId] or [registrySlug] in the body is ignored); a 404 reply
    leaves the store as it was. *)
Theorem putComponent_merges (id : Z) (input : Http.ComponentBody) (w w' : World)
  (answer : Rest.Reply) :
  NoDup (map UIComponent.id (componentRows (store w))) ->
  Rest.putComponent id input w = (Return answer, w') ->
  registryRows (store w') = registryRows (store w)
  /\ exampleRows (store w') = exampleRows (store w)
  /\ Forall2 (putChanges id input (Rest.status answer = 200))
             (componentRows (store w)) (componentRows (store w'))
  /\ (Rest.status answer = 404 -> store w' = store w).
Proof.
  intros Hnodup.
  unfold Rest.putComponent, Rest.route, tryCatch, Rest.findBare, Rest.reply.
  unfold mbind at 1. unfold Async_bind at 1. unfold await at 1.
  destruct (failure (store w) (ui_component, FindOne)) as [message|] eqn:Hfind.
  { intros [= <- <-]. cbn. repeat split; try discriminate.
    now apply putChanges_refl. }
  destruct (head (map bare (filter _ (componentRows (store w)))))
    as [loaded|] eqn:Hloaded.
  2:{ intros [= <- <-]. cbn. repeat split; try discriminate.
      now apply putChanges_refl. }
  assert (Hold : exists old, loaded = bare old /\ old ∈ componentRows (store w)
                             /\ UIComponent.id old = id).
  { destruct (filter _ (componentRows (store w))) as [|old rest] eqn:Hfilter;
      [discriminate|].
    injection Hloaded as <-. exists old. split; [reflexivity|].
    apply (head_filter_Some (fun c => UIComponent.id c = id)).
    now rewrite Hfilter. }
  destruct Hold as [old [-> [Hold Hid]]].
  unfold mbind, Async_bind, Rest.updateComponent, Rest.write,
    Http.findComponent, await.
  unfold issue. cbn [store issued].
  destruct (failure (store w) (ui_component, Save)) as [message|].
  { intros [= <- <-]. cbn. repeat split; try discriminate.
    now apply putChanges_refl. }
  destruct (decide (Rest.merge input (bare old) = bare old)) as [Hsame|Hdiffers].
  - cbn [store issued]. rewrite Hfind.
    destruct (failure (store w) (ui_component, FindOne)); [discriminate|].
    intros [= <- <-]. cbn. repeat split; try discriminate.
    apply Forall_Forall2_diag, Forall_forall. intros row Hrow.
    unfold putChanges. do 3 (split; [reflexivity|]). split; [tauto|].
    intros Hrowid _.
    assert (row = old) as ->
      by (apply (same_id_same_row _ _ _ Hnodup Hrow Hold); congruence).
    repeat split;
      [apply (f_equal UIComponent.name) in Hsame
      |apply (f_equal UIComponent.slug) in Hsame
      |apply (f_equal UIComponent.type) in Hsame
      |apply (f_equal UIComponent.status) in Hsame
      |apply (f_equal UIComponent.dependencies) in Hsame
      |apply (f_equal UIComponent.metadata) in Hsame
      |apply (f_equal UIComponent.description) in Hsame];
      destruct old; simpl in *; now rewrite Hsame.
  - cbn [store issued Rest.withComponentRows failure].
    destruct (failure (store w) (ui_component, FindOne)); [discriminate|].
    intros [= <- <-]. cbn [store Rest.withComponentRows registryRows
                            exampleRows componentRows Rest.status].
    split; [reflexivity|]. split; [reflexivity|]. split; [|discriminate].
    apply Forall2_fmap_r, Forall_Forall2_diag, Forall_forall. intros row Hrow.
    unfold putChanges, compose. cbv beta.
    match goal with
    | |- context [decide (UIComponent.id row = ?x)] =>
        destruct (decide (UIComponent.id row = x)) as [Hrowid|Hrowid]
    end.
    + assert (row = old) as ->
        by (apply (same_id_same_row _ _ _ Hnodup Hrow Hold);
            rewrite Hrowid; now destruct old).
      destruct old; simpl in *.
      do 3 (split; [reflexivity|]). split; [congruence|].
      intros _ _. repeat split.
    + do 3 (split; [reflexivity|]). split; [reflexivity|].
      intros Hrowid'. destruct Hrowid. now rewrite Hrowid', <- Hid.
Qed.

Lemma putComponent_merges_witness :
  exists answer w',
    Rest.putComponent 1 (Sample.rename "Big Button") (start Sample.shop)
    = (Return answer, w')
    /\ Rest.status answer = 200
    /\ map UIComponent.name (componentRows (store w'))
       = ["Big Button"; "Card"; "Alert"]
    /\ Forall2 (putChanges 1 (Sample.rename "Big Button") (Rest.status answer = 200))
               (componentRows Sample.shop) (componentRows (store w')).
Proof.
  eexists _, _. split; [vm_compute; reflexivity|].
  split; [reflexivity|]. split; [reflexivity|].
  refine (proj1 (proj2 (proj2
            (putComponent_merges 1 (Sample.rename "Big Button")
               (start Sample.shop) _ _ _ _)))).
  - apply (bool_decide_unpack _). vm_compute. exact I.
  - vm_compute. reflexivity.
Defined.

Lemma no_row_with_id (s : Store) (id : Z) (rows : list UIComponent.t) :
  filter (fun c => UIComponent.id c = id)
         (map (withRelations s) (filter (fun c => UIComponent.id c <> id) rows)) = [].
Proof.
  induction rows as [|c rows IH]; [reflexivity|].
  rewrite filter_cons. destruct (decide (UIComponent.id c <> id)) as [Hne|_].
  - rewrite map_cons, filter_cons.
    destruct (decide (UIComponent.id (withRelations s c) = id)) as [Heq|_];
      [|exact IH].
    destruct Hne. now destruct c.
  - exact IH.
Qed.

Lemma no_example_of (id : Z) (rows : list UIComponentExample.t) :
  filter (fun e => UIComponentExample.componentId e = id)
         (filter (fun e => UIComponentExample.componentId e <> id) rows) = [].
Proof.
  induction rows as [|e rows IH]; [reflexivity|].
  rewrite filter_cons.
  destruct (decide (UIComponentExample.componentId e <> id)) as [Hne|_];
    [|exact IH].
  rewrite filter_cons.
  now destruct (decide (UIComponentExample.componentId e = id)).
Qed.

(** X18.  [DELETE /api/components/:id]: a reply other than 204 leaves the
    store as it was; after a 204 reply the component table has lost the
    rows with the id and no other, the example table has lost the examples
    of that component and no other, and the registry table is as it was;
    then, on a store that answers, [GET /api/components/:id] is answered
    with 404 and the list of the component's examples is empty. *)
Theorem deleteComponent_cascades (id : Z) (w w' : World) (answer : Rest.Reply) :
  Rest.deleteComponent id w = (Return answer, w') ->
  (Rest.status answer <> 204 -> store w' = store w)
  /\ (Rest.status answer = 204 ->
      registryRows (store w') = registryRows (store w)
      /\ componentRows (store w')
         = filter (fun c => UIComponent.id c <> id) (componentRows (store w))
      /\ exampleRows (store w')
         = filter (fun e => UIComponentExample.componentId e <> id)
                  (exampleRows (store w))
      /\ (healthy (store w') ->
          (Rest.getComponent id w').1
          = Return {| Rest.status := 404;
                      Rest.body := Rest.JsonError "Component not found" |}
          /\ (Rest.getExamplesOf id w').1
             = Return {| Rest.status := 200; Rest.body := Rest.JsonExamples [] |})).
Proof.
  unfold Rest.deleteComponent, Rest.route, tryCatch, Rest.findBare, Rest.reply.
  unfold mbind at 1. unfold Async_bind at 1. unfold await at 1.
  destruct (failure (store w) (ui_component, FindOne)) as [message|].
  { intros [= <- <-]. cbn. split; [reflexivity | discriminate]. }
  destruct (head (map bare (filter _ (componentRows (store w)))))
    as [loaded|] eqn:Hloaded.
  2:{ intros [= <- <-]. cbn. split; [reflexivity | discriminate]. }
  assert (Hid : UIComponent.id loaded = id).
  { destruct (filter _ (componentRows (store w))) as [|old rest] eqn:Hfilter;
      [discriminate|].
    injection Hloaded as <-.
    destruct (head_filter_Some (fun c => UIComponent.id c = id)
                (componentRows (store w)) old) as [_ Hold];
      [now rewrite Hfilter|].
    now destruct old. }
  unfold mbind, Async_bind, Rest.removeComponent, Rest.write.
  unfold issue. cbn [store issued].
  destruct (failure (store w) (ui_component, Save)) as [message|].
  { intros [= <- <-]. cbn. split; [reflexivity | discriminate]. }
  intros [= <- <-]. cbn [Rest.status store]. split; [intros H; now destruct H|].
  intros _. rewrite Hid.
  split; [reflexivity|]. split; [reflexivity|]. split; [reflexivity|].
  intros Hs. split.
  - unfold Rest.getComponent, Rest.route, tryCatch, Http.findComponent,
      mbind, Async_bind.
    rewrite await_answered by apply Hs.
    cbn [store Rest.withExampleRows Rest.withComponentRows componentRows].
    now rewrite no_row_with_id.
  - unfold Rest.getExamplesOf, Rest.route, tryCatch, mbind, Async_bind.
    rewrite await_answered by apply Hs.
    cbn [store Rest.withExampleRows Rest.withComponentRows exampleRows].
    now rewrite no_example_of.
Qed.

Lemma deleteComponent_cascades_witness :
  exists w',
    Rest.deleteComponent 1 (start Sample.shop)
    = (Return {| Rest.status := 204; Rest.body := Rest.Empty |}, w')
    /\ map UIComponent.id (componentRows (store w')) = [2; 3]
    /\ exampleRows (store w') = []
    /\ (Rest.getComponent 1 w').1
       = Return {| Rest.status := 404;
                   Rest.body := Rest.JsonError "Component not found" |}.
Proof.
  destruct (Rest.deleteComponent 1 (start Sample.shop)) as [o w'] eqn:Hrun.
  pose proof Hrun as Hvalue. vm_compute in Hvalue. injection Hvalue as <- <-.
  eexists. split; [reflexivity|].
  destruct (deleteComponent_cascades _ _ _ _ Hrun) as [_ Hdone].
  destruct (Hdone eq_refl) as [_ [_ [_ Hget]]].
  split; [reflexivity|]. split; [reflexivity|].
  apply Hget. intros q. reflexivity.
Defined.

Lemma filter_key_below {A} (key : A -> Z) (n : Z) (rows : list A) :
  (forall row, row ∈ rows -> key row < n) ->
  filter (fun row => key row = n) rows = [].
Proof.
  induction rows as [|row rows IH]; intros Hall; [reflexivity|].
  rewrite filter_cons. destruct (decide (key row = n)) as [Heq|_].
  - pose proof (Hall row (list_elem_of_here _ _)). lia.
  - apply IH. intros r Hr. apply Hall. now apply list_elem_of_further.
Qed.

Lemma filter_absent {A} (P : A -> Prop) `{forall x, Decision (P x)}
  (l : list A) :
  (forall x, x ∈ l -> ~ P x) -> filter P l = [].
Proof.
  induction l as [|x l IH]; intros Hall; [reflexivity|].
  rewrite filter_cons. destruct (decide (P x)) as [Hx|_].
  - now destruct (Hall x (list_elem_of_here _ _)).
  - apply IH. intros y Hy. apply Hall. now apply list_elem_of_further.
Qed.

Lemma nextIdAfter_above (ids : list Z) (i : Z) :
  i ∈ ids -> i < Rest.nextIdAfter ids.
Proof.
  unfold Rest.nextIdAfter. induction 1 as [i ids|i j ids _ IH]; simpl; lia.
Qed.

(** X19.  [POST /api/registries] writes in one step: a reply other than
    201 leaves the store as it was; a 201 reply carries the saved registry,
    which is the one row added to the registry table, with an id above
    every id of the table, the name, slug and framework of the body, and
    [isActive] true when the body does not say; then, on a store that
    answers, [GET /api/registries/:id] with that id returns this
    registry. *)
Theorem postRegistry_then_get (input : Rest.RegistryInput) (w w' : World)
  (answer : Rest.Reply) :
  Rest.postRegistry input w = (Return answer, w') ->
  (Rest.status answer <> 201 -> store w' = store w)
  /\ (Rest.status answer = 201 ->
      exists saved,
        Rest.body answer = Rest.JsonSavedRegistry saved
        /\ registryRows (store w') = (registryRows (store w) ++ [saved])%list
        /\ componentRows (store w') = componentRows (store w)
        /\ exampleRows (store w') = exampleRows (store w)
        /\ Forall (fun r => UIRegistry.id r < UIRegistry.id saved)
                  (registryRows (store w))
        /\ Rest.r_name input = Some (UIRegistry.name saved)
        /\ Rest.r_slug input = Some (UIRegistry.slug saved)
        /\ Rest.r_framework input = Some (UIRegistry.framework saved)
        /\ UIRegistry.isActive saved = default true (Rest.r_isActive input)
        /\ (healthy (store w') ->
            exists entity,
              (Rest.getRegistry (UIRegistry.id saved) w').1
              = Return {| Rest.status := 200;
                          Rest.body := Rest.JsonRegistry entity |}
              /\ registryRow entity = saved)).
Proof.
  unfold Rest.postRegistry, Rest.route, tryCatch, Rest.reply.
  destruct (orUndefined (Rest.r_name input)) as [name|] eqn:Hname;
    [|intros [= <- <-]; cbn; split; [reflexivity | discriminate]].
  destruct (orUndefined (Rest.r_slug input)) as [slug|] eqn:Hslug;
    [|intros [= <- <-]; cbn; split; [reflexivity | discriminate]].
  destruct (orUndefined (Rest.r_framework input)) as [framework|] eqn:Hframework;
    [|intros [= <- <-]; cbn; split; [reflexivity | discriminate]].
  apply orUndefined_Some in Hname as [Hname _].
  apply orUndefined_Some in Hslug as [Hslug _].
  apply orUndefined_Some in Hframework as [Hframework _].
  cbv zeta. unfold mbind, Async_bind, Rest.insertRegistry, Rest.write.
  destruct (failure (store w) (ui_registry, Save)) as [message|].
  { intros [= <- <-]. cbn. split; [reflexivity | discriminate]. }
  intros [= <- <-]. cbn [Rest.status Rest.body store].
  split; [intros H; now destruct H|]. intros _.
  eexists. split; [reflexivity|]. cbn.
  split; [reflexivity|]. split; [reflexivity|]. split; [reflexivity|].
  split.
  { apply Forall_forall. intros r Hr. apply nextIdAfter_above.
    apply list_elem_of_fmap. now exists r. }
  split; [exact Hname|]. split; [exact Hslug|]. split; [exact Hframework|].
  split; [reflexivity|].
  intros Hs. unfold Rest.getRegistry, Rest.route, tryCatch, mbind, Async_bind.
  rewrite await_answered by apply Hs.
  cbn [store registryRows Rest.withRegistryRows].
  rewrite filter_app, filter_key_below
    by (intros r Hr; apply nextIdAfter_above, list_elem_of_fmap; now exists r).
  rewrite filter_cons. cbn [UIRegistry.id].
  destruct (decide _) as [_|Hne]; [|now destruct Hne].
  eexists. split; reflexivity.
Qed.

Lemma postRegistry_then_get_witness :
  exists saved w' entity,
    Rest.postRegistry Requests.mui (start Sample.shop)
    = (Return {| Rest.status := 201; Rest.body := Rest.JsonSavedRegistry saved |}, w')
    /\ UIRegistry.id saved = 3
    /\ UIRegistry.isActive saved = true
    /\ (Rest.getRegistry 3 w').1
       = Return {| Rest.status := 200; Rest.body := Rest.JsonRegistry entity |}
    /\ registryRow entity = saved.
Proof.
  destruct (Rest.postRegistry Requests.mui (start Sample.shop)) as [o w'] eqn:Hrun.
  pose proof Hrun as Hvalue. vm_compute in Hvalue. injection Hvalue as <- <-.
  destruct (postRegistry_then_get _ _ _ _ Hrun) as [_ Hdone].
  destruct (Hdone eq_refl) as [saved [Hbody [_ [_ [_ [_ [_ [_ [_ [_ Hget]]]]]]]]]].
  destruct (Hget (fun q => eq_refl)) as [entity [Hentity Hrow]].
  injection Hbody as <-.
  eexists _, _, entity. split; [reflexivity|].
  split; [reflexivity|]. split; [reflexivity|].
  split; [exact Hentity | exact Hrow].
Defined.

(** X20.  [POST /api/components/:componentId/examples] never touches the
    registry and component tables; a reply other than 201 or 500 leaves the
    store as it was; a 201 reply means that exactly one example was added,
    with an id above every id of the table, the name, slug, language and
    code of the body, and the id of a component that exists: the route
    creates no example of an unknown component. *)
Theorem postExample_effects (componentId : Z) (input : Rest.ExampleInput)
  (w w' : World) (answer : Rest.Reply) :
  Rest.postExample componentId input w = (Return answer, w') ->
  registryRows (store w') = registryRows (store w)
  /\ componentRows (store w') = componentRows (store w)
  /\ (Rest.status answer <> 201 -> Rest.status answer <> 500 ->
      store w' = store w)
  /\ (Rest.status answer = 201 ->
      exists saved,
        exampleRows (store w') = (exampleRows (store w) ++ [saved])%list
        /\ Forall (fun e => UIComponentExample.id e < UIComponentExample.id saved)
                  (exampleRows (store w))
        /\ UIComponentExample.componentId saved = componentId
        /\ (exists c, c ∈ componentRows (store w) /\ UIComponent.id c = componentId)
        /\ Rest.e_name input = Some (UIComponentExample.name saved)
        /\ Rest.e_slug input = Some (UIComponentExample.slug saved)
        /\ Rest.e_language input = UIComponentExample.language saved
        /\ Rest.e_code input = Some (UIComponentExample.code saved)).
Proof.
  unfold Rest.postExample, Rest.route, tryCatch, Rest.findBare, Rest.reply.
  unfold mbind at 1. unfold Async_bind at 1. unfold await at 1.
  destruct (failure (store w) (ui_component, FindOne)) as [message|].
  { intros [= <- <-]. cbn. repeat split; try discriminate.
    all: intros _ H; now destruct H. }
  destruct (head (map bare (filter _ (componentRows (store w)))))
    as [loaded|] eqn:Hloaded.
  2:{ intros [= <- <-]. cbn. repeat split; discriminate. }
  assert (Hold : exists c, c ∈ componentRows (store w)
                           /\ UIComponent.id c = componentId
                           /\ UIComponent.id loaded = componentId).
  { destruct (filter _ (componentRows (store w))) as [|old rest] eqn:Hfilter;
      [discriminate|].
    injection Hloaded as <-.
    destruct (head_filter_Some (fun c => UIComponent.id c = componentId)
                (componentRows (store w)) old) as [Hin Hold];
      [now rewrite Hfilter|].
    exists old. split; [exact Hin|]. split; [exact Hold|]. now destruct old. }
  destruct Hold as [old [Hin [Hold Hid]]].
  destruct (orUndefined (Rest.e_name input)) as [name|] eqn:Hname;
    [|intros [= <- <-]; cbn; repeat split; discriminate].
  destruct (orUndefined (Rest.e_slug input)) as [slug|] eqn:Hslug;
    [|intros [= <- <-]; cbn; repeat split; discriminate].
  destruct (orUndefined (Rest.e_language input)) as [language|] eqn:Hlanguage;
    [|intros [= <- <-]; cbn; repeat split; discriminate].
  destruct (orUndefined (Rest.e_code input)) as [code|] eqn:Hcode;
    [|intros [= <- <-]; cbn; repeat split; discriminate].
  apply orUndefined_Some in Hname as [Hname _].
  apply orUndefined_Some in Hslug as [Hslug _].
  apply orUndefined_Some in Hlanguage as [Hlanguage _].
  apply orUndefined_Some in Hcode as [Hcode _].
  cbv zeta. unfold mbind, Async_bind, Rest.insertExample, Rest.write,
    Rest.findExample, await.
  unfold issue. cbn [store issued].
  destruct (failure (store w) (ui_component_example, Save)) as [message|].
  { intros [= <- <-]. cbn. repeat split; try discriminate.
    all: intros _ H; now destruct H. }
  cbn [store issued Rest.withExampleRows failure].
  destruct (failure (store w) (ui_component_example, FindOne)) as [message|].
  { intros [= <- <-]. cbn. repeat split; try discriminate.
    all: intros _ H; now destruct H. }
  intros [= <- <-]. cbn [Rest.status store registryRows componentRows exampleRows].
  split; [reflexivity|]. split; [reflexivity|].
  split; [intros H; now destruct H|]. intros _.
  eexists. split; [reflexivity|]. cbn.
  split.
  { apply Forall_forall. intros e He. apply nextIdAfter_above.
    apply list_elem_of_fmap. now exists e. }
  split; [exact Hid|]. split; [now exists old|].
  now rewrite Hname, Hslug, Hlanguage, Hcode.
Qed.

Lemma postExample_effects_witness :
  exists answer w' saved,
    Rest.postExample 2 Requests.demo (start Sample.shop) = (Return answer, w')
    /\ Rest.status answer = 201
    /\ exampleRows (store w') = (exampleRows Sample.shop ++ [saved])%list
    /\ UIComponentExample.componentId saved = 2.
Proof.
  destruct (Rest.postExample 2 Requests.demo (start Sample.shop))
    as [o w'] eqn:Hrun.
  pose proof Hrun as Hvalue. vm_compute in Hvalue. injection Hvalue as <- <-.
  destruct (postExample_effects _ _ _ _ _ Hrun) as [_ [_ [_ Hdone]]].
  destruct (Hdone eq_refl) as [saved [Hrows [_ [Hcomponent _]]]].
  eexists _, _, saved. split; [reflexivity|]. split; [reflexivity|].
  split; [exact Hrows | exact Hcomponent].
Defined.

(** X21.  [POST /api/components/:componentId/examples] looks the
    component up before it reads the body: when the lookup is answered and
    no component has the id, the reply is 404 whatever the body holds (a
    body without its required fields included), nothing is written and the
    lookup is the only query. *)
Theorem postExample_unknown_component (componentId : Z)
  (input : Rest.ExampleInput) (w : World) :
  failure (store w) (ui_component, FindOne) = None ->
  (forall c, c ∈ componentRows (store w) -> UIComponent.id c <> componentId) ->
  Rest.postExample componentId input w
  = (Return {| Rest.status := 404;
               Rest.body := Rest.JsonError "Component not found" |},
     issue (ui_component, FindOne) w).
Proof.
  intros Hfind Hnone.
  unfold Rest.postExample, Rest.route, tryCatch, Rest.findBare, Rest.reply.
  unfold mbind, Async_bind. rewrite await_answered by exact Hfind.
  now rewrite filter_absent.
Qed.

Lemma postExample_unknown_component_witness :
  Rest.postExample 99 Requests.nameless (start Sample.shop)
  = (Return {| Rest.status := 404;
               Rest.body := Rest.JsonError "Component not found" |},
     issue (ui_component, FindOne) (start Sample.shop)).
Proof.
  apply (postExample_unknown_component 99 Requests.nameless (start Sample.shop)).
  - reflexivity.
  - intros c Hc. vm_compute in Hc.
    repeat (apply elem_of_cons in Hc as [->|Hc]; [discriminate|]).
    now apply elem_of_nil in Hc.
Defined.

End Routes.

(** ** The listing route and the registry list *)

Section Listing.
Import Str Sql RegistryService Reference.

(** [searchComponents] without identifiers, on a store that answers: the
    result is read off the store, whatever was issued before. *)
Lemma searchComponents_all_healthy query limit offset (w : World) :
  healthy (store w) ->
  exists w',
    searchComponents None query limit offset w =
    (Return
       {| SearchResult.items :=
            map formatComponent
              (map (backfilled (store w))
                   (pagedFetch (store w) None query (default 50 limit)
                      (default 0 offset)));
          SearchResult.totalCount :=
            Z.of_nat (length (unpagedFetch (store w) None query));
          SearchResult.hasMore :=
            default 0 offset + default 50 limit
            <? Z.of_nat (length (unpagedFetch (store w) None query));
          SearchResult.limit := default 50 limit;
          SearchResult.offset := default 0 offset |}, w').
Proof.
  intros Hs.
  destruct (searchComponents_healthy None query limit offset w Hs)
    as [[Hids _]|[_ [w' [Hrun _]]]]; [discriminate|].
  exists w'. exact Hrun.
Qed.

(** X22.  What [GET /api/components] reads of its query string: the
    [type] and [status] parameters have no effect on the reply; a
    [registryId] has no effect when a [registrySlug] is given; and a
    [registryId] that no registry has does not restrict the listing: on a
    store that answers, the reply is the one of the same request without
    [registryId], the components of every registry. *)
Theorem getComponents_reads (q : Http.ListingQuery) :
  (forall type status w,
     Http.getComponents (withFilters type status q) w = Http.getComponents q w)
  /\ (forall registryId w,
        Http.slugsOf (Http.q_registrySlug q) <> None ->
        Http.getComponents (withRegistryId registryId q) w
        = Http.getComponents q w)
  /\ (forall registryId s,
        healthy s ->
        Http.slugsOf (Http.q_registrySlug q) = None ->
        registryOf s registryId = None ->
        (Http.getComponents (withRegistryId (Some registryId) q) (start s)).1
        = (Http.getComponents (withRegistryId None q) (start s)).1).
Proof.
  split; [reflexivity|]. split.
  - intros registryId w Hslugs. unfold Http.getComponents, withRegistryId.
    cbn [Http.q_registryId Http.q_registrySlug Http.q_query Http.q_limit
         Http.q_offset].
    now destruct (Http.slugsOf (Http.q_registrySlug q)).
  - intros registryId s Hs Hslugs Hregistry.
    unfold Http.getComponents, withRegistryId, tryCatch.
    cbn [Http.q_registryId Http.q_registrySlug Http.q_query Http.q_limit
         Http.q_offset].
    rewrite Hslugs. unfold mbind, Async_bind.
    rewrite await_answered by apply Hs. cbn [start store]. rewrite Hregistry.
    unfold mret at 1 2 4. unfold Async_ret. cbn [option_map].
    destruct (searchComponents_all_healthy (Http.q_query q)
                (Some (default 20 (Http.q_limit q)))
                (Some (default 0 (Http.q_offset q)))
                (issue (ui_registry, FindOne) (start s)) Hs) as [w1 ->].
    destruct (searchComponents_all_healthy (Http.q_query q)
                (Some (default 20 (Http.q_limit q)))
                (Some (default 0 (Http.q_offset q)))
                (start s) Hs) as [w2 ->].
    reflexivity.
Qed.

(** X23.  [searchAllRegistries] never loads the components of a registry:
    whatever the store holds, every item it returns has [componentCount]
    0 and no [components]; and its result has [hasMore] false, [offset] 0
    and both [limit] and [totalCount] equal to the number of items. *)
Theorem searchAllRegistries_without_components registries (w w' : World)
  (r : SearchResult.t RegistryItem) :
  searchAllRegistries registries w = (Return r, w') ->
  Forall (fun item => componentCount item = 0 /\ ri_components item = None)
         (SearchResult.items r)
  /\ SearchResult.hasMore r = false
  /\ SearchResult.offset r = 0
  /\ SearchResult.limit r = Z.of_nat (length (SearchResult.items r))
  /\ SearchResult.totalCount r = Z.of_nat (length (SearchResult.items r)).
Proof.
  unfold searchAllRegistries, tryCatch, mbind, Async_bind, await.
  destruct (failure (store w) (ui_registry, GetMany)); [discriminate|].
  intros [= <- <-]. cbn [SearchResult.items SearchResult.hasMore
    SearchResult.offset SearchResult.limit SearchResult.totalCount].
  rewrite length_map. repeat split.
  apply Forall_forall. intros item Hitem.
  apply list_elem_of_fmap in Hitem as [registry [-> _]]. now split.
Qed.

Lemma searchAllRegistries_without_components_witness :
  exists r w',
    searchAllRegistries None (start Sample.shop) = (Return r, w')
    /\ map ri_slug (SearchResult.items r) = ["antd"; "shadcn"]
    /\ Forall (fun item => componentCount item = 0 /\ ri_components item = None)
              (SearchResult.items r).
Proof.
  destruct (searchAllRegistries None (start Sample.shop)) as [o w'] eqn:Hrun.
  pose proof Hrun as Hvalue. vm_compute in Hvalue. injection Hvalue as <- <-.
  eexists _, _. split; [reflexivity|]. split; [reflexivity|].
  exact (proj1 (searchAllRegistries_without_components _ _ _ _ Hrun)).
Defined.

End Listing.

(** ** The tools and the end of a listing *)

Section ToolFacts.
Import Str Sql RegistryService Reference.

(** A page of the component search that starts behind the join of
    components and examples is empty. *)
Lemma pagedFetch_behind (s : Store) registryIds query (limit offset : Z) :
  joinBound s <= offset ->
  pagedFetch s registryIds query limit offset = [].
Proof.
  intros Hoffset. unfold pagedFetch.
  apply (getManyJoined_behind _ _ _ _ offset (length (exampleRows s))).
  - unfold pagedQuery.
    now destruct (suppliedIds registryIds), (suppliedQuery query).
  - intros c Hc. apply list_elem_of_fmap in Hc as [row [-> _]].
    apply length_exampleNames.
  - rewrite length_map. exact Hoffset.
Qed.

(** X24.  Behind the last page the tools speak as if nothing existed.  On
    a store that answers: [get_available_ui_components_from_registries]
    with an offset at or behind the last registry named answers with its
    text for no registry, however many registries are named; and
    [search_items_in_registries] with an offset at or behind the last row
    of the join of components and examples, on which its page is cut,
    answers with its text for no component, whatever the count of the
    search. *)
Theorem tools_behind_the_last_page (s : Store) :
  healthy s ->
  (forall registries limit offset,
     Z.of_nat (length (namedRegistries s (Some registries))) <= default 0 offset ->
     (Tools.getAvailableUiComponentsFromRegistries registries limit offset
        (start s)).1
     = Return Tools.NoRegistriesFound)
  /\ (forall registries query limit offset,
        joinBound s <= default 0 offset ->
        (Tools.searchItemsInRegistries registries query limit offset (start s)).1
        = Return (Tools.NoComponentsFound (Tools.searchContext registries query)
                    (orUndefined query))).
Proof.
  intros Hs. split.
  - intros registries limit offset Hoffset.
    unfold Tools.getAvailableUiComponentsFromRegistries, mbind, Async_bind.
    pose proof (searchRegistries_healthy (Some registries) limit offset (start s) Hs)
      as Hrun.
    cbv zeta in Hrun. cbn [start store] in Hrun.
    rewrite window_behind in Hrun by lia. now rewrite Hrun.
  - intros registries query limit offset Hoffset.
    unfold Tools.searchItemsInRegistries, mbind, Async_bind.
    destruct (searchComponents_healthy registries query limit offset (start s) Hs)
      as [[_ Hrun]|[_ [w' [Hrun _]]]]; rewrite Hrun; [reflexivity|].
    cbn [start store SearchResult.items].
    now rewrite (pagedFetch_behind _ _ _ _ _ Hoffset).
Qed.

Lemma tools_behind_the_last_page_witness :
  length (unpagedFetch Sample.shop None None) = 3%nat
  /\ (Tools.searchItemsInRegistries None None (Some 10) (Some 9)
        (start Sample.shop)).1
     = Return (Tools.NoComponentsFound ["across all available registries"] None).
Proof.
  split; [reflexivity|].
  apply (proj2 (tools_behind_the_last_page Sample.shop (fun q => eq_refl))
           None None (Some 10) (Some 9)).
  vm_compute. discriminate.
Defined.

(** X25.  [DELETE /api/examples/:id]: a reply other than 204 leaves the
    store as it was; after a 204 reply the example table has lost the rows
    with the id and no other, the other tables are as they were, and, on a
    store that answers, [GET /api/examples/:id] is answered with 404. *)
Theorem deleteExample_removes (id : Z) (w w' : World) (answer : Rest.Reply) :
  Rest.deleteExample id w = (Return answer, w') ->
  (Rest.status answer <> 204 -> store w' = store w)
  /\ (Rest.status answer = 204 ->
      registryRows (store w') = registryRows (store w)
      /\ componentRows (store w') = componentRows (store w)
      /\ exampleRows (store w')
         = filter (fun e => UIComponentExample.id e <> id) (exampleRows (store w))
      /\ (healthy (store w') ->
          (Rest.getExample id w').1
          = Return {| Rest.status := 404;
                      Rest.body := Rest.JsonError "Example not found" |})).
Proof.
  unfold Rest.deleteExample, Rest.route, tryCatch, Rest.reply.
  unfold mbind at 1. unfold Async_bind at 1. unfold await at 1.
  destruct (failure (store w) (ui_component_example, FindOne)) as [message|].
  { intros [= <- <-]. cbn. split; [reflexivity | discriminate]. }
  destruct (head (filter _ (exampleRows (store w)))) as [loaded|] eqn:Hloaded.
  2:{ intros [= <- <-]. cbn. split; [reflexivity | discriminate]. }
  apply (head_filter_Some (fun e => UIComponentExample.id e = id)) in Hloaded
    as [_ Hid].
  unfold mbind, Async_bind, Rest.removeExample, Rest.write.
  unfold issue. cbn [store issued].
  destruct (failure (store w) (ui_component_example, Save)) as [message|].
  { intros [= <- <-]. cbn. split; [reflexivity | discriminate]. }
  intros [= <- <-]. cbn [Rest.status store]. split; [intros H; now destruct H|].
  intros _. rewrite Hid.
  split; [reflexivity|]. split; [reflexivity|]. split; [reflexivity|].
  intros Hs.
  unfold Rest.getExample, Rest.route, tryCatch, Rest.findExample,
    mbind, Async_bind.
  rewrite await_answered by apply Hs.
  cbn [store Rest.withExampleRows exampleRows].
  rewrite (filter_absent (fun e => UIComponentExample.id e = id)); [reflexivity|].
  intros e He. apply list_elem_of_filter in He. tauto.
Qed.

Lemma deleteExample_removes_witness :
  exists w',
    Rest.deleteExample 1 (start Sample.shop)
    = (Return {| Rest.status := 204; Rest.body := Rest.Empty |}, w')
    /\ map UIComponentExample.id (exampleRows (store w')) = [2]
    /\ (Rest.getExample 1 w').1
       = Return {| Rest.status := 404;
                   Rest.body := Rest.JsonError "Example not found" |}.
Proof.
  destruct (Rest.deleteExample 1 (start Sample.shop)) as [o w'] eqn:Hrun.
  pose proof Hrun as Hvalue. vm_compute in Hvalue. injection Hvalue as <- <-.
  eexists. split; [reflexivity|].
  destruct (deleteExample_removes _ _ _ _ Hrun) as [_ Hdone].
  destruct (Hdone eq_refl) as [_ [_ [_ Hget]]].
  split; [reflexivity|]. apply Hget. intros q. reflexivity.
Defined.

Lemma filter_nil_iff {A} (p : A -> bool) (l : list A) :
  filter (fun x => p x) l = [] <-> forall x, x ∈ l -> p x = false.
Proof.
  split; [|apply filter_none].
  intros Hnil x Hx. destruct (p x) eqn:Hp; [|reflexivity].
  assert (Hin : x ∈ filter (fun x => p x) l)
    by (apply list_elem_of_filter; split; [now rewrite Hp | exact Hx]).
  rewrite Hnil in Hin. now apply elem_of_nil in Hin.
Qed.

Lemma sortBy_nil_iff {A} (key : A -> string) (l : list A) :
  sortBy key l = [] <-> l = [].
Proof.
  split; [|now intros ->].
  intros H. apply (f_equal length) in H. rewrite length_sortBy in H.
  now destruct l.
Qed.

(** X26.  On a store that answers, [get_available_registries] answers
    [Please register your UI library] exactly when its search selects no
    registry: with an empty list of identifiers, when the store has no
    registry at all; with identifiers, when no registry has one of them
    (without its [@]) as its name and every registry that has one of them
    as its slug is switched off. *)
Theorem getAvailableRegistries_please_register (s : Store)
  (registries : list string) :
  healthy s ->
  (Tools.getAvailableRegistries registries (start s)).1
  = Return Tools.PleaseRegister
  <-> match registries with
      | [] => registryRows s = []
      | _ =>
          forall r, r ∈ registryRows s ->
            (UIRegistry.name r ∉ cleanNamesOf registries)
            /\ (UIRegistry.slug r ∈ cleanNamesOf registries ->
                UIRegistry.isActive r = false)
      end.
Proof.
  intros Hs. unfold Tools.getAvailableRegistries, mbind, Async_bind.
  rewrite searchAllRegistries_answered by apply Hs.
  cbn [SearchResult.items start store]. rewrite length_map.
  assert (Hnone : getMany (allRegistriesQuery (Some registries)) (registryRows s)
                  = []
                  <-> match registries with
                      | [] => registryRows s = []
                      | _ =>
                          forall r, r ∈ registryRows s ->
                            (UIRegistry.name r ∉ cleanNamesOf registries)
                            /\ (UIRegistry.slug r ∈ cleanNamesOf registries ->
                                UIRegistry.isActive r = false)
                      end).
  { rewrite getMany_allRegistries, sortBy_nil_iff, filter_nil_iff.
    destruct registries as [|name names].
    - split.
      + intros Hall. destruct (registryRows s) as [|r rows]; [reflexivity|].
        specialize (Hall r (list_elem_of_here _ _)).
        now rewrite allRegistriesQuery_no_names in Hall by now right.
      + intros -> r Hr. now apply elem_of_nil in Hr.
    - split.
      + intros Hall r Hr. specialize (Hall r Hr).
        rewrite allRegistriesQuery_selects in Hall. unfold IN in Hall.
        destruct (bool_decide_reflect
                    (UIRegistry.name r ∈ cleanNamesOf (name :: names)));
          [discriminate|].
        destruct (bool_decide_reflect
                    (UIRegistry.slug r ∈ cleanNamesOf (name :: names)));
          [|tauto].
        destruct (UIRegistry.isActive r); [discriminate|tauto].
      + intros Hall r Hr. destruct (Hall r Hr) as [Hname Hslug].
        rewrite allRegistriesQuery_selects. unfold IN.
        rewrite (bool_decide_eq_false_2 _ Hname).
        destruct (bool_decide_reflect
                    (UIRegistry.slug r ∈ cleanNamesOf (name :: names)));
          [|reflexivity].
        now rewrite Hslug. }
  rewrite <- Hnone.
  destruct (getMany _ (registryRows s)); cbn; split; congruence.
Qed.

Lemma getAvailableRegistries_please_register_witness :
  (Tools.getAvailableRegistries ["@antd"] (start Sample.shop)).1
  = Return Tools.PleaseRegister.
Proof.
  apply (getAvailableRegistries_please_register Sample.shop ["@antd"]
           (fun q => eq_refl)).
  intros r Hr. vm_compute in Hr.
  repeat (apply elem_of_cons in Hr as [->|Hr];
          [split;
           [intros H; apply (bool_decide_pack _) in H; vm_compute in H; exact H
           |intros H;
            first [reflexivity
                  |apply (bool_decide_pack _) in H; vm_compute in H;
                   destruct H]]|]).
  now apply elem_of_nil in Hr.
Defined.

End ToolFacts.
